(** * gp-net: Gaussian-process fitting and the active-learning driver

    A shallow embedding of [optimizers/adam.py] (the three fitting
    protocols [train_test_split], [k_fold] and [active]) and of the
    control flow of [gp-net.py] ([main]: the argument checks, the repeat
    and the no-repeat active-learning loops, the loop over the properties
    and the k-fold cross-validation), with the properties the
    specification states about them and further properties of the code.

    Conventions.
    - Values computed by TensorFlow (losses, hyperparameters, posterior
      moments) are real numbers [R]: rounding, overflow and NaN of the
      tensors are not modelled.  The TensorFlow, TensorFlow Probability and
      scipy operations are the fields of the class [TensorFlow], so every
      theorem holds for any implementation of them.
    - Command-line floats that [main] adds, compares or truncates itself
      ([-frac], [-stop]) are IEEE binary64 values ([float]), as in Python.
    - Python exceptions are values of [exn]; a computation that may raise
      returns a [result].
    - Printing, logging, plotting and [np.save] are left out, except that
      the posterior written to file is kept with the return value of the
      functions that do not return all of it.
    - MEGNet training and the extraction of latent points are the fields
      of the class [Collaborators]; the sample selection of
      [aux/pool_sampling.py] is modelled from the specification. *)

From Stdlib Require Import ZArith List Bool String DecimalString Floats Reals
  Lra Lia Permutation.
Import ListNotations.

Set Implicit Arguments.
Set Warnings "-inexact-float".
Local Open Scope string_scope.
Local Open Scope list_scope.
Local Open Scope Z_scope.

(** ** Python: exceptions, results, sequences *)

(** [SystemExit] carries the message given to [sys.exit], or the one logged
    just before a bare [sys.exit()]. *)
Inductive exn : Type :=
| UnboundLocalError (name : string)
| NameError (name : string)
| IndexError
| ValueError (msg : string)
| OverflowError
| AssertionError (msg : string)
| SystemExit (msg : string).

Inductive result (A : Type) : Type :=
| Ok (a : A)
| Raise (e : exn).
Arguments Ok {A} a.
Arguments Raise {A} e.

Definition bind {A B} (m : result A) (k : A -> result B) : result B :=
  match m with
  | Ok a => k a
  | Raise e => Raise e
  end.

Notation "x <- m ;; k" := (bind m (fun x => k))
  (at level 61, m at next level, right associativity).

Definition is_ok {A} (m : result A) : bool :=
  match m with Ok _ => true | Raise _ => false end.

(** [assert c, msg] *)
Definition py_assert (c : bool) (msg : string) : result unit :=
  if c then Ok tt else Raise (AssertionError msg).

(** [l[i]] for a non-negative index. *)
Definition getitem {A} (l : list A) (i : nat) : result A :=
  match nth_error l i with
  | Some x => Ok x
  | None => Raise IndexError
  end.

(** [x or d] on an optional command-line value: the default is taken when
    the value is absent or falsy. *)
Definition py_or {A} (falsy : A -> bool) (x : option A) (d : A) : A :=
  match x with
  | Some v => if falsy v then d else v
  | None => d
  end.

(** The bound a slice index [k] is clipped to in a sequence of length [n]. *)
Definition slice_bound (n : nat) (k : Z) : nat :=
  if k <? 0 then Z.to_nat (Z.max 0 (k + Z.of_nat n))
  else Nat.min (Z.to_nat k) n.

(** [l[:k]] *)
Definition slice_to {A} (l : list A) (k : Z) : list A :=
  firstn (slice_bound (List.length l) k) l.

(** [l[k:]] *)
Definition slice_from {A} (l : list A) (k : Z) : list A :=
  skipn (slice_bound (List.length l) k) l.

(** ** Python floats (binary64) *)

(** [float(z)] for an integer [z], rounded to nearest. *)
Definition float_of_Z (z : Z) : float :=
  SF2Prim (binary_normalize prec emax z 0 false).

(** [int(f)]: truncation toward zero; raises on NaN and on infinities. *)
Definition py_int (f : float) : result Z :=
  match Prim2SF f with
  | S754_zero _ => Ok 0
  | S754_finite s m e =>
      let mag := if 0 <=? e then Z.pos m * 2 ^ e else Z.pos m / 2 ^ (- e) in
      Ok (if s then - mag else mag)
  | S754_infinity _ => Raise OverflowError
  | S754_nan => Raise (ValueError "cannot convert float NaN to integer")
  end.

(** Truth value of a float: everything but [0.0] and [-0.0] is true. *)
Definition float_falsy (f : float) : bool := PrimFloat.eqb f 0%float.

(** [a and b] on floats. *)
Definition float_and (a b : float) : float :=
  if float_falsy a then a else b.

(** The chained comparison [0 < x < 1]. *)
Definition in_unit_interval (x : float) : bool :=
  PrimFloat.ltb 0%float x && PrimFloat.ltb x 1%float.

(** ** Arrays *)

(** A one-dimensional float64 array. *)
Definition tensor : Type := list R.

(** A two-dimensional array of latent points: [np.shape(x)[1]] and the
    rows. *)
Record ndarray : Type := mk_ndarray {
  shape1 : Z;
  rows : list (list R)
}.

(** [tf.constant(x[..., np.newaxis, ...], dtype=tf.float64)]: the latent
    points with [newaxes] trailing axes added. *)
Record latent : Type := mk_latent {
  base : ndarray;
  newaxes : nat
}.

(** [np.argmin]: the first index of the smallest element. *)
Fixpoint argmin_from (best : R) (besti i : nat) (l : list R) : nat :=
  match l with
  | [] => besti
  | x :: t =>
      if Rlt_dec x best then argmin_from x i (S i) t
      else argmin_from best besti (S i) t
  end.

Definition argmin (l : list R) : nat :=
  match l with
  | [] => O
  | x :: t => argmin_from x O 1%nat t
  end.

(** [min] / [np.min] of a non-empty array. *)
Fixpoint min_from (best : R) (l : list R) : R :=
  match l with
  | [] => best
  | x :: t => if Rlt_dec x best then min_from x t else min_from best t
  end.

Definition py_min (l : list R) : result R :=
  match l with
  | [] => Raise (ValueError "min() arg is an empty sequence")
  | x :: t => Ok (min_from x t)
  end.

(** [b] is the first position of a least element of [l]. *)
Definition first_min (b : nat) (l : list R) : Prop :=
  exists x, nth_error l b = Some x /\
    (forall j y, nth_error l j = Some y -> (x <= y)%R) /\
    (forall j y, (j < b)%nat -> nth_error l j = Some y -> (x < y)%R).

(** ** TensorFlow and TensorFlow Probability *)

(** What [GaussianProcessRegressionModel] is asked for: [.mean()],
    [.stddev()] and [.variance()] over the index points. *)
Record posterior : Type := mk_posterior {
  mean : tensor;
  stddev : tensor;
  variance : tensor
}.

Class TensorFlow : Type := {
  (** [tfd.GaussianProcessRegressionModel(
         kernel=tfk.ExponentiatedQuadratic(amp, length, feature_ndims),
         index_points, observation_index_points, observations)] *)
  GaussianProcessRegressionModel :
    Z -> R -> R -> latent -> latent -> tensor -> posterior;
  (** [-tfd.GaussianProcess(kernel, index_points).log_prob(y)] for the
      kernel [ExponentiatedQuadratic(amp, length, feature_ndims)] *)
  neg_log_prob : Z -> R -> R -> latent -> tensor -> R;
  (** [tape.gradient(loss, trainables())] for a loss that is a function of
      the two unconstrained variables *)
  tape_gradient : (R -> R -> R) -> R -> R -> R * R;
  (** [tf.optimizers.Adam(learning_rate)] and its slots *)
  optimizer : Type;
  Adam : R -> optimizer;
  (** [optimizer.apply_gradients(zip(grads, vars))] *)
  apply_gradients : optimizer -> R * R -> R * R -> optimizer * (R * R);
  (** [tf.losses.MAE(y_true, y_pred)], [tf.losses.MSE(y_true, y_pred)] *)
  MAE : tensor -> tensor -> R;
  MSE : tensor -> tensor -> R;
  (** [np.std(np.abs(pred - y))], also [tf.math.reduce_std(tf.abs(pred - y))] *)
  std_abs : tensor -> tensor -> R;
  (** [scipy.stats.pearsonr(x, y)[0]] *)
  pearsonr : tensor -> tensor -> R
}.

(** ** optimizers/adam.py *)

Module adam.

(** What is returned where the source returns [None], a float or an array
    in the same position. *)
Inductive pyobj : Type :=
| PyNone
| PyFloat (x : R)
| PyArray (a : tensor).

(** The six arrays grown by [np.append] during optimisation. *)
Record trace : Type := mk_trace {
  OptLoss : tensor;
  OptAmp : tensor;
  OptLength : tensor;
  Optmae : tensor;
  Optmse : tensor;
  Optsae : tensor
}.

Definition empty_trace : trace := mk_trace [] [] [] [] [] [].

(** The return tuple of [train_test_split], and the posterior written to
    [gp_mean.npy], [gp_stddev.npy] and [gp_variance.npy]. *)
Record tts_return : Type := mk_tts {
  tts_OptLoss : pyobj;
  tts_OptAmp : pyobj;
  tts_OptLength : pyobj;
  tts_mae : R;
  tts_mse : R;
  tts_sae : R;
  tts_gp_mean : tensor;
  tts_gp_stddev : tensor;
  tts_R : R;
  tts_saved : posterior
}.

(** The return tuple of [k_fold], and the posterior written to file. *)
Record kfold_return : Type := mk_kfold {
  kf_amp : R;
  kf_length_scale : R;
  kf_Optmae_val : option R;
  kf_Optmse_val : option R;
  kf_mae_test : R;
  kf_saved : posterior
}.

(** The return tuple of [active]. *)
Record active_return : Type := mk_active {
  ac_OptLoss : option tensor;
  ac_OptAmp : option tensor;
  ac_OptLength : option tensor;
  ac_amp : R;
  ac_length_scale : R;
  ac_gp_mean : tensor;
  ac_gp_stddev : tensor;
  ac_gp_variance : tensor;
  ac_Optmae_val : option R;
  ac_mae_test : R;
  ac_mse_test : R;
  ac_sae_test : R;
  ac_R : R
}.

Section WithTensorFlow.
Context {TF : TensorFlow}.

(** The reshape at the head of each function: the latent arrays are bound
    only when the trailing dimension is 2 or 3. *)
Definition reshape (d : Z) (x : ndarray) : option latent :=
  if d =? 2 then Some (mk_latent x 1)
  else if d =? 3 then Some (mk_latent x 2)
  else None.

(** The optimiser, the two unconstrained variables behind the
    [TransformedVariable]s, the arrays, and the model of the last
    iteration. *)
Record loop_state : Type := mk_loop {
  opt : optimizer;
  raw_amp : R;
  raw_length : R;
  tr : trace;
  gprm : option posterior
}.

(** [tfp.util.TransformedVariable(initial_value, bijector=tfb.Exp())]
    stores the logarithm of the (positive) initial value; [_value()] is the
    exponential of what is stored. *)
Definition init_loop (amp length_scale rate : R) : loop_state :=
  mk_loop (Adam rate) (ln amp) (ln length_scale) empty_trace None.

(** [loss_fn], as a function of the unconstrained variables. *)
Definition loss_fn (nd : Z) (latent_train : latent) (ytrain : tensor)
    (a l : R) : R :=
  neg_log_prob nd (exp a) (exp l) latent_train ytrain.

(** One pass of the body of [for i in tf.range(maxiters)]; the model is
    evaluated over [latent_val] against [yval]. *)
Definition step (nd : Z) (latent_train : latent) (ytrain : tensor)
    (latent_val : latent) (yval : tensor) (i : nat) (s : loop_state)
    : result loop_state :=
  let loss := loss_fn nd latent_train ytrain (raw_amp s) (raw_length s) in
  let grads :=
    tape_gradient (loss_fn nd latent_train ytrain) (raw_amp s) (raw_length s) in
  let upd := apply_gradients (opt s) grads (raw_amp s, raw_length s) in
  let a' := fst (snd upd) in
  let l' := snd (snd upd) in
  let OptLoss' := (OptLoss (tr s) ++ [loss]) in
  let OptAmp' := (OptAmp (tr s) ++ [exp a']) in
  let OptLength' := (OptLength (tr s) ++ [exp l']) in
  amp_i <- getitem OptAmp' i ;;
  length_i <- getitem OptLength' i ;;
  let g := GaussianProcessRegressionModel nd amp_i length_i
             latent_val latent_train ytrain in
  Ok (mk_loop (fst upd) a' l'
        (mk_trace OptLoss' OptAmp' OptLength'
           (Optmae (tr s) ++ [MAE yval (mean g)])
           (Optmse (tr s) ++ [MSE yval (mean g)])
           (Optsae (tr s) ++ [std_abs (mean g) yval]))
        (Some g)).

Fixpoint iterate (nd : Z) (latent_train : latent) (ytrain : tensor)
    (latent_val : latent) (yval : tensor) (n i : nat) (s : loop_state)
    : result loop_state :=
  match n with
  | O => Ok s
  | S n' =>
      s' <- step nd latent_train ytrain latent_val yval i s ;;
      iterate nd latent_train ytrain latent_val yval n' (S i) s'
  end.

(** The whole loop, from fresh variables. *)
Definition optimise (nd : Z) (latent_train : latent) (ytrain : tensor)
    (latent_val : latent) (yval : tensor) (maxiters : Z)
    (amp length_scale rate : R) : result loop_state :=
  iterate nd latent_train ytrain latent_val yval (Z.to_nat maxiters) O
    (init_loop amp length_scale rate).

Definition train_test_split (datadir prop : string)
    (tsne_pool tsne_test : ndarray) (ypool_dft ytest_dft : tensor)
    (maxiters : Z) (amp length_scale rate : R) : result tts_return :=
  let nd := shape1 tsne_pool in
  let latent_pool := reshape nd tsne_pool in
  let latent_test := reshape nd tsne_test in
  if maxiters <=? 0 then
    match latent_test, latent_pool with
    | None, _ => Raise (UnboundLocalError "latent_test")
    | _, None => Raise (UnboundLocalError "latent_pool")
    | Some latent_test, Some latent_pool =>
        let gprm_dft := GaussianProcessRegressionModel nd amp length_scale
                          latent_test latent_pool ypool_dft in
        let R := pearsonr ytest_dft (mean gprm_dft) in
        Ok (mk_tts PyNone (PyFloat amp) (PyFloat length_scale)
              (MAE ytest_dft (mean gprm_dft))
              (MSE ytest_dft (mean gprm_dft))
              (std_abs (mean gprm_dft) ytest_dft)
              (mean gprm_dft) (stddev gprm_dft) R gprm_dft)
    end
  else
    match latent_pool, latent_test with
    | None, _ => Raise (NameError "latent_pool")
    | _, None => Raise (UnboundLocalError "latent_test")
    | Some latent_pool, Some latent_test =>
        s <- optimise nd latent_pool ypool_dft latent_test ytest_dft
               maxiters amp length_scale rate ;;
        match gprm s with
        | None => Raise (UnboundLocalError "gprm_dft")
        | Some gprm_dft =>
            let R := pearsonr ytest_dft (mean gprm_dft) in
            best_mae <- py_min (Optmae (tr s)) ;;
            best_mse <- getitem (Optmse (tr s)) (argmin (Optmae (tr s))) ;;
            best_sae <- getitem (Optsae (tr s)) (argmin (Optmae (tr s))) ;;
            Ok (mk_tts (PyArray (OptLoss (tr s))) (PyArray (OptAmp (tr s)))
                  (PyArray (OptLength (tr s)))
                  best_mae best_mse best_sae
                  (mean gprm_dft) (stddev gprm_dft) R gprm_dft)
        end
    end.

Definition k_fold (datadir prop : string)
    (tsne_train tsne_val tsne_test : ndarray)
    (ytrain_dft yval_dft ytest_dft : tensor)
    (maxiters : Z) (amp length_scale rate : R) : result kfold_return :=
  let nd := shape1 tsne_train in
  let latent_train := reshape nd tsne_train in
  let latent_val := reshape nd tsne_val in
  let latent_test := reshape nd tsne_test in
  if maxiters <=? 0 then
    match latent_test, latent_train with
    | None, _ => Raise (UnboundLocalError "latent_test")
    | _, None => Raise (UnboundLocalError "latent_train")
    | Some latent_test, Some latent_train =>
        let gprm_dft := GaussianProcessRegressionModel nd amp length_scale
                          latent_test latent_train ytrain_dft in
        let mae_test := MAE ytest_dft (mean gprm_dft) in
        Ok (mk_kfold amp length_scale None None mae_test gprm_dft)
    end
  else
    match latent_train, latent_val, latent_test with
    | None, _, _ => Raise (NameError "latent_train")
    | _, None, _ => Raise (UnboundLocalError "latent_val")
    | _, _, None => Raise (UnboundLocalError "latent_test")
    | Some latent_train, Some latent_val, Some latent_test =>
        s <- optimise nd latent_train ytrain_dft latent_val yval_dft
               maxiters amp length_scale rate ;;
        let best := argmin (Optmae (tr s)) in
        best_amp <- getitem (OptAmp (tr s)) best ;;
        best_length <- getitem (OptLength (tr s)) best ;;
        let gprm_dft := GaussianProcessRegressionModel nd best_amp best_length
                          latent_test latent_train ytrain_dft in
        let mae_test := MAE ytest_dft (mean gprm_dft) in
        best_mae <- py_min (Optmae (tr s)) ;;
        best_mse <- getitem (Optmse (tr s)) best ;;
        Ok (mk_kfold best_amp best_length (Some best_mae) (Some best_mse)
              mae_test gprm_dft)
    end.

Definition active (datadir prop : string)
    (tsne_train tsne_val tsne_test : ndarray)
    (ytrain_dft yval_dft ytest_dft : tensor)
    (maxiters : Z) (amp length_scale rate : R) : result active_return :=
  let nd := shape1 tsne_train in
  let latent_train := reshape nd tsne_train in
  let latent_val := reshape nd tsne_val in
  let latent_test := reshape nd tsne_test in
  if maxiters <=? 0 then
    match latent_test, latent_train with
    | None, _ => Raise (UnboundLocalError "latent_test")
    | _, None => Raise (UnboundLocalError "latent_train")
    | Some latent_test, Some latent_train =>
        let gprm_dft := GaussianProcessRegressionModel nd amp length_scale
                          latent_test latent_train ytrain_dft in
        Ok (mk_active None None None amp length_scale
              (mean gprm_dft) (stddev gprm_dft) (variance gprm_dft)
              None
              (MAE ytest_dft (mean gprm_dft))
              (MSE ytest_dft (mean gprm_dft))
              (std_abs (mean gprm_dft) ytest_dft)
              (pearsonr ytest_dft (mean gprm_dft)))
    end
  else
    match latent_train, latent_val, latent_test with
    | None, _, _ => Raise (NameError "latent_train")
    | _, None, _ => Raise (UnboundLocalError "latent_val")
    | _, _, None => Raise (UnboundLocalError "latent_test")
    | Some latent_train, Some latent_val, Some latent_test =>
        s <- optimise nd latent_train ytrain_dft latent_val yval_dft
               maxiters amp length_scale rate ;;
        let best := argmin (Optmae (tr s)) in
        best_amp <- getitem (OptAmp (tr s)) best ;;
        best_length <- getitem (OptLength (tr s)) best ;;
        let gprm_dft := GaussianProcessRegressionModel nd best_amp best_length
                          latent_test latent_train ytrain_dft in
        best_mae <- py_min (Optmae (tr s)) ;;
        Ok (mk_active (Some (OptLoss (tr s))) (Some (OptAmp (tr s)))
              (Some (OptLength (tr s)))
              best_amp best_length
              (mean gprm_dft) (stddev gprm_dft) (variance gprm_dft)
              (Some best_mae)
              (MAE ytest_dft (mean gprm_dft))
              (MSE ytest_dft (mean gprm_dft))
              (std_abs (mean gprm_dft) ytest_dft)
              (pearsonr ytest_dft (mean gprm_dft)))
    end.

(** *** What the arrays record *)

(** The latent points of a supported dimension, as [reshape] binds them. *)
Definition with_newaxes (nd : Z) (x : ndarray) : latent :=
  mk_latent x (if nd =? 2 then 1 else 2).

(** The validation error of the model with hyperparameters [a] and [l]. *)
Definition val_mae (nd : Z) (latent_train : latent) (ytrain : tensor)
    (latent_val : latent) (yval : tensor) (a l : R) : R :=
  MAE yval (mean (GaussianProcessRegressionModel nd a l
                    latent_val latent_train ytrain)).

(** The arrays hold [n] entries each, every amplitude and length scale is
    the exponential of a number, and every recorded error is the
    validation error of the hyperparameters recorded with it. *)
Record recorded (nd : Z) (latent_train : latent) (ytrain : tensor)
    (latent_val : latent) (yval : tensor) (n : nat) (t : trace) : Prop := {
  rec_loss : List.length (OptLoss t) = n;
  rec_amp : List.length (OptAmp t) = n;
  rec_length : List.length (OptLength t) = n;
  rec_mae_len : List.length (Optmae t) = n;
  rec_mse : List.length (Optmse t) = n;
  rec_sae : List.length (Optsae t) = n;
  rec_amp_exp : Forall (fun a => exists x, a = exp x) (OptAmp t);
  rec_length_exp : Forall (fun l => exists x, l = exp x) (OptLength t);
  rec_mae : forall j a l,
      nth_error (OptAmp t) j = Some a ->
      nth_error (OptLength t) j = Some l ->
      nth_error (Optmae t) j
        = Some (val_mae nd latent_train ytrain latent_val yval a l)
}.

(** The model left by the last pass is that of the last recorded
    hyperparameters. *)
Definition last_model (nd : Z) (latent_train : latent) (ytrain : tensor)
    (latent_val : latent) (s : loop_state) : Prop :=
  match gprm s with
  | None => OptAmp (tr s) = []
  | Some g =>
      exists a l, OptAmp (tr s) <> [] /\
        last (OptAmp (tr s)) 0%R = a /\ last (OptLength (tr s)) 0%R = l /\
        g = GaussianProcessRegressionModel nd a l latent_val latent_train ytrain
  end.

End WithTensorFlow.

(** The posterior a call hands to its caller or writes to file. *)
Definition active_posterior (r : result active_return) : result posterior :=
  x <- r ;; Ok (mk_posterior (ac_gp_mean x) (ac_gp_stddev x) (ac_gp_variance x)).

Definition kfold_posterior (r : result kfold_return) : result posterior :=
  x <- r ;; Ok (kf_saved x).

Definition tts_posterior (r : result tts_return)
    : result (tensor * tensor * posterior) :=
  x <- r ;; Ok (tts_gp_mean x, tts_gp_stddev x, tts_saved x).

End adam.

(** ** The collaborators of [gp-net.py] *)

(** MEGNet training and the extraction of latent points ([train/],
    [aux/activations.py]) and numpy's random generator are taken as they
    come: any implementation will do. *)
Class Collaborators : Type := {
  (** a material structure, as loaded by [megnet_input] *)
  structure : Type;
  (** the MEGNet model *)
  megnet : Type;
  (** [training.active] and [training.train_test_split]: fit the model on
      the pool *)
  training : megnet -> list structure -> tensor -> list structure -> tensor
             -> megnet;
  (** [latent.active(datadir, ..., Xfull, Xtest, ytest, Xtrain, Xval, ...,
      ndims, ...)]: the latent points of the training, validation and test
      sets *)
  latent_active : megnet -> string -> list structure -> list structure
                  -> tensor -> list structure -> list structure -> Z
                  -> ndarray * ndarray * ndarray;
  (** the scores the random policy draws for [n] test points at cycle [i] *)
  random_scores : Z -> nat -> tensor
}.

(** ** aux/pool_sampling.py *)

Module selection_fn.

Section Selection.
Variable A : Type.

(** What a selection hands back: the migrated indices and the new
    partitions. *)
Record selection : Type := mk_selection {
  sel_idx : list nat;
  sel_pool : list A;
  sel_ypool : tensor;
  sel_train : list A;
  sel_ytrain : tensor;
  sel_test : list A;
  sel_ytest : tensor
}.

(** Insert index [i] into a list of indices kept in descending order of
    [score]; among equal scores the smaller index comes first. *)
Fixpoint insert_desc (score : nat -> R) (i : nat) (l : list nat) : list nat :=
  match l with
  | [] => [i]
  | j :: t =>
      if Rle_dec (score j) (score i) then i :: j :: t
      else j :: insert_desc score i t
  end.

(** The indices [0 .. n-1] in descending order of [score]. *)
Definition rank_desc (score : nat -> R) (n : nat) : list nat :=
  fold_right (insert_desc score) [] (seq 0 n).

(** [l[idx]] *)
Definition take_at (B : Type) (l : list B) (idx : list nat) : list B :=
  flat_map (fun i => match nth_error l i with
                     | Some x => [x]
                     | None => []
                     end) idx.

(** [np.delete(l, idx)] *)
Definition delete_at (B : Type) (l : list B) (idx : list nat) : list B :=
  map snd
    (filter (fun p => negb (existsb (Nat.eqb (fst p)) idx))
       (combine (seq 0 (List.length l)) l)).

(** Move the test points at [idx] into the training set; the pool is the
    union of training and validation sets. *)
Definition migrate (idx : list nat) (Xtrain : list A) (ytrain : tensor)
    (Xtest : list A) (ytest : tensor) (Xval : list A) (yval : tensor)
    : selection :=
  let Xtrain' := Xtrain ++ take_at Xtest idx in
  let ytrain' := ytrain ++ take_at ytest idx in
  mk_selection idx (Xtrain' ++ Xval) (ytrain' ++ yval) Xtrain' ytrain'
    (delete_at Xtest idx) (delete_at ytest idx).

(** The [quota] best-scored indices of the test partition. *)
Definition top (quota : Z) (scores : tensor) (ytest : tensor) : list nat :=
  firstn (Z.to_nat quota)
    (rank_desc (fun j => nth j scores 0%R) (List.length ytest)).

(** Modelled from the spec: [selection_fn.EntropySelection] of
    [aux/pool_sampling.py] is not among the sources.  Section 4.4: rank the
    test-partition points descending by posterior variance and move the
    top [quota] indices from test into train; return the new partitions and
    the migrated-index list. *)
Definition EntropySelection (i : Z) (Xtrain : list A) (ytrain : tensor)
    (Xtest : list A) (ytest : tensor) (Xval : list A) (yval : tensor)
    (gp_variance : tensor) (query max_query : Z) : selection :=
  migrate (top query gp_variance ytest) Xtrain ytrain Xtest ytest Xval yval.

(** Modelled from the spec: [selection_fn.RandomSelection] of
    [aux/pool_sampling.py] is not among the sources.  Section 4.4: select
    [quota] indices from test at random without replacement; here the
    [quota] indices that rank first under the scores drawn for this
    cycle. *)
Definition RandomSelection {C : Collaborators} (i : Z) (Xtrain : list A)
    (ytrain : tensor) (Xtest : list A) (ytest : tensor) (Xval : list A)
    (yval : tensor) (gp_variance : tensor) (query max_query : Z)
    : selection :=
  migrate (top query (random_scores i (List.length ytest)) ytest)
    Xtrain ytrain Xtest ytest Xval yval.

End Selection.

End selection_fn.

(** ** gp-net.py *)

Module gp_net.

(** The defaults of [class Params]. *)
Module Params.
Definition samp : string := "entropy".
Definition cycle : Z * Z := (1, 5).
Definition quan : Z := 1000.
Definition stop : float := 0.1%float.
Definition epochs : Z := 0.
Definition frac : list float := [0.3%float].
Definition nsplit : Z := 1.
Definition ndims : Z := 0.
Definition maxiters : list Z := [0].
End Params.

(** The parsed command line, for the options read by the checks and by the
    active-learning loops; [None] is an option that was not given. *)
Record Args : Type := mk_Args {
  ltype : option string;
  nomeg : bool;
  noactive : bool;
  repeat : bool;
  samp : option string;
  cycle : option (Z * Z);
  quan : option Z;
  stop : option float;
  frac : option (list float);
  nsplit : option Z;
  epochs : option Z;
  ndims : option Z;
  maxiters : option (list Z)
}.

Definition nil_falsy {A} (l : list A) : bool :=
  match l with [] => true | _ => false end.

(** [samp = args.samp or Params().samp] and its neighbours. *)
Definition samp_of (a : Args) : string :=
  py_or (String.eqb "") (samp a) Params.samp.
Definition cycle_of (a : Args) : Z * Z :=
  py_or (fun _ => false) (cycle a) Params.cycle.
Definition quan_of (a : Args) : Z := py_or (Z.eqb 0) (quan a) Params.quan.
Definition stop_of (a : Args) : float := py_or float_falsy (stop a) Params.stop.
Definition fraction_of (a : Args) : list float :=
  py_or nil_falsy (frac a) Params.frac.
Definition nsplit_of (a : Args) : Z := py_or (Z.eqb 0) (nsplit a) Params.nsplit.
Definition epochs_of (a : Args) : Z := py_or (Z.eqb 0) (epochs a) Params.epochs.
Definition ndims_of (a : Args) : Z := py_or (Z.eqb 0) (ndims a) Params.ndims.
Definition maxiters_of (a : Args) : list Z :=
  py_or nil_falsy (maxiters a) Params.maxiters.

Definition len {A} (l : list A) : Z := Z.of_nat (List.length l).

(** What [maxiters] is bound to once the checks are through: an integer,
    or, for k-fold cross-validation, still the list. *)
Inductive iters : Type :=
| Iters (n : Z)
| IterList (l : list Z).

(** The test [not (0 < (fraction[0] and fraction[1]) < 1)] followed by
    [logging.error] and [sys.exit()]. *)
Definition check_unit_interval (f0 f1 : float) : result unit :=
  if negb (in_unit_interval (float_and f0 f1))
  then Raise (SystemExit "-frac must be of the form 0 < parameter < 1!")
  else Ok tt.

(** [main], from the [-ltype] exit to the end of the argument checks
    (before any data is read). *)
Definition main_checks (a : Args) : result iters :=
  let fraction := fraction_of a in
  let maxiters := maxiters_of a in
  match ltype a with
  | Some (String _ _) => Raise (SystemExit "")
  | _ =>
  if nomeg a then Raise (SystemExit "No other network implemented!") else
  if noactive a then
    _ <- py_assert (len fraction =? 2) "-frac requires two inputs!" ;;
    f0 <- getitem fraction 0 ;;
    f1 <- getitem fraction 1 ;;
    _ <- py_assert (PrimFloat.eqb (f0 + f1) 1) "The sum of -frac must be 1!" ;;
    _ <- check_unit_interval f0 f1 ;;
    if nsplit_of a =? 1 then
      _ <- py_assert (len maxiters =? 1) "-maxiters must have length 1!" ;;
      m <- getitem maxiters 0 ;;
      Ok (Iters m)
    else
      _ <- py_assert (len maxiters =? 2) "-maxiters must have length 2!" ;;
      Ok (IterList maxiters)
  else
    _ <- py_assert (PrimFloat.ltb (stop_of a) 1)
           "Stop argument should be less than 1!" ;;
    _ <- py_assert (nsplit_of a =? 1)
           "Active learning with k-fold cross validation not supported!" ;;
    _ <- py_assert (len maxiters =? 1) "-maxiters must have length 1!" ;;
    m <- getitem maxiters 0 ;;
    if negb (String.eqb (samp_of a) "entropy" || String.eqb (samp_of a) "random")
    then Raise (SystemExit "Sampling type not recognised!") else
    if repeat a then
      _ <- py_assert (len fraction =? 2) "-frac requires two inputs!" ;;
      f0 <- getitem fraction 0 ;;
      f1 <- getitem fraction 1 ;;
      _ <- py_assert (PrimFloat.ltb (f0 + f1) 1)
             "The sum of -frac must be less than 1!" ;;
      _ <- check_unit_interval f0 f1 ;;
      Ok (Iters m)
    else
      _ <- py_assert (len fraction =? 1)
             "-frac requires a single input as the validation fraction!" ;;
      f0 <- getitem fraction 0 ;;
      _ <- py_assert (PrimFloat.ltb f0 1) "-frac must be less than 1!" ;;
      if quan_of a =? 0
      then Raise (SystemExit "Provide quantity of data to use with -q or --quan!")
      else Ok (Iters m)
  end.

(** *** The active-learning loops *)

(** The arguments of one call of [adam.active]. *)
Record fit_call : Type := mk_fit_call {
  fc_latent_train : ndarray;
  fc_latent_val : ndarray;
  fc_latent_test : ndarray;
  fc_ytrain : tensor;
  fc_yval : tensor;
  fc_ytest : tensor;
  fc_maxiters : Z;
  fc_amp : R;
  fc_length_scale : R
}.

(** What a run does, in order: the calls of [adam.active] with their
    outcome, and the calls of a selection function with the indices it
    migrated. *)
Inductive event : Type :=
| EvFit (i : Z) (call : fit_call) (out : result adam.active_return)
| EvSelect (i : Z) (policy : string) (idx : list nat).

(** [range(n)] *)
Definition py_range (n : Z) : list Z := map Z.of_nat (seq 0 (Z.to_nat n)).

(** [for i in cycles: body], with the events of the passes in order; an
    exception ends the loop. *)
Fixpoint for_each (St : Type) (body : Z -> St -> list event * result St)
    (cycles : list Z) (s : St) : list event * result St :=
  match cycles with
  | [] => ([], Ok s)
  | i :: rest =>
      match body i s with
      | (ev, Ok s') =>
          let r := for_each body rest s' in
          (ev ++ fst r, snd r)
      | (ev, Raise e) => (ev, Raise e)
      end
  end.

(** The threshold of the assertion before either loop:
    [int(stop * len(ytest))]. *)
Definition stop_threshold (stop : float) (ytest : tensor) : result Z :=
  py_int (stop * float_of_Z (len ytest))%float.

Definition adequate_test_set (query max_query : Z) (stop : float)
    (ytest : tensor) : result unit :=
  t <- stop_threshold stop ytest ;;
  py_assert (query * max_query <? t)
    "Test set size should be at least stop% the dataset after active learning. Reduce stop and/or cycle parameters!".

Definition string_of_Z (z : Z) : string :=
  DecimalString.NilZero.string_of_int (Z.to_int z).

(** The initial split of the no-repeat variant:
    [val_boundary = int(len(Xpool) * val_frac)], then
    [Xpool[:-val_boundary]] and [Xpool[-val_boundary:]]. *)
Definition val_boundary_of (n : nat) (val_frac : float) : result Z :=
  py_int (float_of_Z (Z.of_nat n) * val_frac)%float.

Definition split_at_boundary {A} (pool : list A) (val_boundary : Z)
    : list A * list A :=
  (slice_to pool (- val_boundary), slice_from pool (- val_boundary)).

Section Drivers.
Context {TF : TensorFlow} {C : Collaborators}.

(** **** Without cycles of network training (no-repeat) *)

(** The variables of [main] that change from cycle to cycle. *)
Record norepeat_state : Type := mk_norepeat {
  nr_latent_train : ndarray;
  nr_ytrain : tensor;
  nr_latent_test : ndarray;
  nr_ytest : tensor;
  nr_maxiters : Z;
  nr_amp : R;
  nr_length_scale : R;
  nr_training_data : list Z;
  nr_Optmae_val_cycle : list (option R);
  nr_mae_test_cycle : tensor;
  nr_mse_test_cycle : tensor;
  nr_sae_test_cycle : tensor;
  nr_samp_idx : list nat
}.

(** The rebinding of the partitions by a selection over latent points. *)
Definition norepeat_migrated (s : norepeat_state)
    (sel : selection_fn.selection (list R)) : norepeat_state :=
  mk_norepeat
    (mk_ndarray (shape1 (nr_latent_train s)) (selection_fn.sel_train sel))
    (selection_fn.sel_ytrain sel)
    (mk_ndarray (shape1 (nr_latent_test s)) (selection_fn.sel_test sel))
    (selection_fn.sel_ytest sel)
    (nr_maxiters s) (nr_amp s) (nr_length_scale s)
    (nr_training_data s) (nr_Optmae_val_cycle s) (nr_mae_test_cycle s)
    (nr_mse_test_cycle s) (nr_sae_test_cycle s)
    (nr_samp_idx s ++ selection_fn.sel_idx sel).

(** The body of [for i in range(max_query+1)] of the no-repeat variant. *)
Definition norepeat_cycle (datadir prop samp : string) (query max_query : Z)
    (latent_val : ndarray) (yval : tensor) (rate : R)
    (i : Z) (s : norepeat_state) : list event * result norepeat_state :=
  let maxiters := if i =? 0 then nr_maxiters s else 0 in
  let call := mk_fit_call (nr_latent_train s) latent_val (nr_latent_test s)
                (nr_ytrain s) yval (nr_ytest s)
                maxiters (nr_amp s) (nr_length_scale s) in
  let out := adam.active datadir prop
               (nr_latent_train s) latent_val (nr_latent_test s)
               (nr_ytrain s) yval (nr_ytest s)
               maxiters (nr_amp s) (nr_length_scale s) rate in
  match out with
  | Raise e => ([EvFit i call out], Raise e)
  | Ok r =>
      let amp := if i =? 0 then adam.ac_amp r else nr_amp s in
      let length_scale :=
        if i =? 0 then adam.ac_length_scale r else nr_length_scale s in
      let s1 :=
        mk_norepeat (nr_latent_train s) (nr_ytrain s)
          (nr_latent_test s) (nr_ytest s)
          maxiters amp length_scale
          (nr_training_data s ++ [len (nr_ytrain s)])
          (if 0 <? maxiters
           then nr_Optmae_val_cycle s ++ [adam.ac_Optmae_val r]
           else nr_Optmae_val_cycle s)
          (nr_mae_test_cycle s ++ [adam.ac_mae_test r])
          (nr_mse_test_cycle s ++ [adam.ac_mse_test r])
          (nr_sae_test_cycle s ++ [adam.ac_sae_test r])
          (nr_samp_idx s) in
      if i <? max_query then
        if String.eqb samp "entropy" then
          let sel := selection_fn.EntropySelection i
                       (rows (nr_latent_train s)) (nr_ytrain s)
                       (rows (nr_latent_test s)) (nr_ytest s)
                       (rows latent_val) yval
                       (adam.ac_gp_variance r) query max_query in
          ([EvFit i call out; EvSelect i samp (selection_fn.sel_idx sel)],
           Ok (norepeat_migrated s1 sel))
        else if String.eqb samp "random" then
          let sel := selection_fn.RandomSelection i
                       (rows (nr_latent_train s)) (nr_ytrain s)
                       (rows (nr_latent_test s)) (nr_ytest s)
                       (rows latent_val) yval
                       (adam.ac_gp_variance r) query max_query in
          ([EvFit i call out; EvSelect i samp (selection_fn.sel_idx sel)],
           Ok (norepeat_migrated s1 sel))
        else ([EvFit i call out], Raise (UnboundLocalError "idx"))
      else ([EvFit i call out], Ok s1)
  end.

(** The no-repeat branch of [main] for one property: [maxiters], [amp],
    [length_scale] and [rate] are the values of these variables when the
    branch is entered, [model], [Xfull] and [yfull] what [megnet_input]
    returned. *)
Definition main_norepeat (a : Args) (prop : string) (maxiters : Z)
    (amp length_scale rate : R) (model : megnet)
    (Xfull : list structure) (yfull : tensor)
    : list event * result norepeat_state :=
  let samp := samp_of a in
  let query := fst (cycle_of a) in
  let max_query := snd (cycle_of a) in
  let quan := quan_of a in
  match fraction_of a with
  | [] => ([], Raise IndexError)
  | val_frac :: _ =>
      let datadir := ("active_learn/norepeat/" ++ prop ++ "_results/"
                       ++ string_of_Z quan ++ "_model")%string in
      let Xpool := slice_to Xfull quan in
      let ypool := slice_to yfull quan in
      let Xtest := slice_from Xfull quan in
      let ytest := slice_from yfull quan in
      match adequate_test_set query max_query (stop_of a) ytest with
      | Raise e => ([], Raise e)
      | Ok _ =>
          match val_boundary_of (List.length Xpool) val_frac with
          | Raise e => ([], Raise e)
          | Ok val_boundary =>
              let Xtrain := fst (split_at_boundary Xpool val_boundary) in
              let ytrain := fst (split_at_boundary ypool val_boundary) in
              let Xval := snd (split_at_boundary Xpool val_boundary) in
              let yval := snd (split_at_boundary ypool val_boundary) in
              let model :=
                if 0 <? epochs_of a
                then training model Xpool ypool Xtest ytest else model in
              let lat := latent_active model datadir Xfull Xtest ytest
                           Xtrain Xval (ndims_of a) in
              let latent_train := fst (fst lat) in
              let latent_val := snd (fst lat) in
              let latent_test := snd lat in
              let datadir := (datadir ++ "/" ++ samp ++ "/"
                               ++ string_of_Z query ++ "_samples")%string in
              for_each
                (norepeat_cycle datadir prop samp query max_query
                   latent_val yval rate)
                (py_range (max_query + 1))
                (mk_norepeat latent_train ytrain latent_test ytest
                   maxiters amp length_scale [] [] [] [] [] [])
          end
      end
  end.

(** **** With cycles of network training (repeat) *)

(** What [megnet_input] returns in the repeat variant. *)
Record repeat_input : Type := mk_repeat_input {
  ri_model : megnet;
  ri_Xfull : list structure;
  ri_yfull : tensor;
  ri_Xpool : list structure;
  ri_ypool : tensor;
  ri_Xtest : list structure;
  ri_ytest : tensor;
  ri_Xtrain : list structure;
  ri_ytrain : tensor;
  ri_Xval : list structure;
  ri_yval : tensor
}.

Record repeat_state : Type := mk_repeat {
  rp_Xpool : list structure;
  rp_ypool : tensor;
  rp_Xtrain : list structure;
  rp_ytrain : tensor;
  rp_Xtest : list structure;
  rp_ytest : tensor;
  rp_model : megnet;
  rp_amp : R;
  rp_length_scale : R;
  rp_training_data : list Z;
  rp_Optmae_val_cycle : list (option R);
  rp_mae_test_cycle : tensor;
  rp_mse_test_cycle : tensor;
  rp_sae_test_cycle : tensor
}.

Definition repeat_migrated (s : repeat_state)
    (sel : selection_fn.selection structure) : repeat_state :=
  mk_repeat (selection_fn.sel_pool sel) (selection_fn.sel_ypool sel)
    (selection_fn.sel_train sel) (selection_fn.sel_ytrain sel)
    (selection_fn.sel_test sel) (selection_fn.sel_ytest sel)
    (rp_model s) (rp_amp s) (rp_length_scale s)
    (rp_training_data s) (rp_Optmae_val_cycle s) (rp_mae_test_cycle s)
    (rp_mse_test_cycle s) (rp_sae_test_cycle s).

(** The body of [for i in range(max_query+1)] of the repeat variant. *)
Definition repeat_cycle (a : Args) (prop : string) (maxiters : Z) (rate : R)
    (Xfull Xval : list structure) (yval : tensor)
    (i : Z) (s : repeat_state) : list event * result repeat_state :=
  let samp := samp_of a in
  let query := fst (cycle_of a) in
  let max_query := snd (cycle_of a) in
  let datadir := ("active_learn/repeat/" ++ prop ++ "_results/" ++ samp
                   ++ "/0" ++ string_of_Z i ++ "_model")%string in
  let model :=
    if 0 <? epochs_of a
    then training (rp_model s) (rp_Xpool s) (rp_ypool s)
           (rp_Xtest s) (rp_ytest s)
    else rp_model s in
  let lat := latent_active model datadir Xfull (rp_Xtest s) (rp_ytest s)
               (rp_Xtrain s) Xval (ndims_of a) in
  let latent_train := fst (fst lat) in
  let latent_val := snd (fst lat) in
  let latent_test := snd lat in
  let call := mk_fit_call latent_train latent_val latent_test
                (rp_ytrain s) yval (rp_ytest s)
                maxiters (rp_amp s) (rp_length_scale s) in
  let out := adam.active datadir prop latent_train latent_val latent_test
               (rp_ytrain s) yval (rp_ytest s)
               maxiters (rp_amp s) (rp_length_scale s) rate in
  match out with
  | Raise e => ([EvFit i call out], Raise e)
  | Ok r =>
      let s1 :=
        mk_repeat (rp_Xpool s) (rp_ypool s) (rp_Xtrain s) (rp_ytrain s)
          (rp_Xtest s) (rp_ytest s) model
          (adam.ac_amp r) (adam.ac_length_scale r)
          (rp_training_data s ++ [len (rp_ytrain s)])
          (rp_Optmae_val_cycle s ++ [adam.ac_Optmae_val r])
          (rp_mae_test_cycle s ++ [adam.ac_mae_test r])
          (rp_mse_test_cycle s ++ [adam.ac_mse_test r])
          (rp_sae_test_cycle s ++ [adam.ac_sae_test r]) in
      if i <? max_query then
        if String.eqb samp "entropy" then
          let sel := selection_fn.EntropySelection i
                       (rp_Xtrain s) (rp_ytrain s) (rp_Xtest s) (rp_ytest s)
                       Xval yval (adam.ac_gp_variance r) query max_query in
          ([EvFit i call out; EvSelect i samp (selection_fn.sel_idx sel)],
           Ok (repeat_migrated s1 sel))
        else if String.eqb samp "random" then
          let sel := selection_fn.RandomSelection i
                       (rp_Xtrain s) (rp_ytrain s) (rp_Xtest s) (rp_ytest s)
                       Xval yval (adam.ac_gp_variance r) query max_query in
          ([EvFit i call out; EvSelect i samp (selection_fn.sel_idx sel)],
           Ok (repeat_migrated s1 sel))
        else ([EvFit i call out], Ok s1)
      else ([EvFit i call out], Ok s1)
  end.

(** The repeat branch of [main] for one property. *)
Definition main_repeat (a : Args) (prop : string) (maxiters : Z)
    (amp length_scale rate : R) (d : repeat_input)
    : list event * result repeat_state :=
  let query := fst (cycle_of a) in
  let max_query := snd (cycle_of a) in
  match adequate_test_set query max_query (stop_of a) (ri_ytest d) with
  | Raise e => ([], Raise e)
  | Ok _ =>
      for_each
        (repeat_cycle a prop maxiters rate (ri_Xfull d) (ri_Xval d) (ri_yval d))
        (py_range (max_query + 1))
        (mk_repeat (ri_Xpool d) (ri_ypool d) (ri_Xtrain d) (ri_ytrain d)
           (ri_Xtest d) (ri_ytest d) (ri_model d) amp length_scale
           [] [] [] [] [])
  end.


End Drivers.

(** The cycles at which a run fitted, and those at which it migrated
    samples. *)
Definition fit_cycles (log : list event) : list Z :=
  flat_map (fun e => match e with EvFit i _ _ => [i] | _ => [] end) log.

Definition select_cycles (log : list event) : list Z :=
  flat_map (fun e => match e with EvSelect i _ _ => [i] | _ => [] end) log.


(** What one pass of either loop logs: one fit, then a migration exactly
    when the pass completes before the last cycle. *)
Definition logs_one_cycle (max_query : Z) (St : Type)
    (body : Z -> St -> list event * result St) : Prop :=
  forall i s,
    fit_cycles (fst (body i s)) = [i] /\
    (select_cycles (fst (body i s)) = [] \/
     select_cycles (fst (body i s)) = [i] /\ i < max_query) /\
    (is_ok (snd (body i s)) = true ->
     select_cycles (fst (body i s)) = if i <? max_query then [i] else []).

(** A run that ends at the assertion before the loop, with nothing done. *)
Definition rejected (St : Type) (run : list event * result St) : Prop :=
  exists msg, run = ([], Raise (AssertionError msg)).

(** What a passed check leaves of the test set [ytest0] at the fit of
    cycle [i], for the threshold [t]. *)
Definition test_set_holds (query : Z) (ytest0 : tensor) (t : Z) (e : event)
    : Prop :=
  match e with
  | EvFit i call _ =>
      len (fc_ytest call) = Z.max 0 (len ytest0 - i * query) /\
      len ytest0 - t < len (fc_ytest call) /\
      (t <= len ytest0 -> 0 < len (fc_ytest call))
  | EvSelect _ _ _ => True
  end.

(** The test set at the fit of cycle [i] is the initial one less [i]
    migrations of [quota] points. *)
Definition test_set_shrinks (quota : nat) (max_query : Z) (n0 : nat)
    (e : event) : Prop :=
  match e with
  | EvFit i call _ =>
      0 <= i <= max_query /\
      List.length (fc_ytest call) = (n0 - Z.to_nat i * quota)%nat
  | EvSelect _ _ _ => True
  end.

End gp_net.

(** ** A small implementation to run the functions on *)

Module toy.

(** Plain gradient descent stands in for Adam, the posterior over any
    index points has the amplitude as its mean, and the error is measured
    on the first point. *)
Definition tensorflow : TensorFlow := {|
  GaussianProcessRegressionModel := fun _ amp length_scale _ _ _ =>
    mk_posterior [amp] [length_scale] [(amp * amp)%R];
  neg_log_prob := fun _ amp length_scale _ _ => (amp + length_scale)%R;
  tape_gradient := fun _ _ _ => ((-1)%R, (-1)%R);
  optimizer := R;
  Adam := fun rate => rate;
  apply_gradients := fun rate g v =>
    (rate, ((fst v - rate * fst g)%R, (snd v - rate * snd g)%R));
  MAE := fun y p => Rabs (hd 0%R y - hd 0%R p);
  MSE := fun y p => Rsqr (hd 0%R y - hd 0%R p);
  std_abs := fun _ _ => 0%R;
  pearsonr := fun _ _ => 0%R
|}.

Definition embed (X : list nat) : ndarray :=
  mk_ndarray 2 (map (fun x => [INR x; 0%R]) X).

Definition collaborators : Collaborators := {|
  structure := nat;
  megnet := unit;
  training := fun m _ _ _ _ => m;
  latent_active := fun _ _ _ Xtest _ Xtrain Xval _ =>
    (embed Xtrain, embed Xval, embed Xtest);
  random_scores := fun _ n => List.repeat 0%R n
|}.

(** Two latent points per partition, in two dimensions. *)
Definition points : ndarray := mk_ndarray 2 [[0%R; 0%R]; [1%R; 1%R]].
Definition targets : tensor := [0%R; 0%R].

(** Ten structures with their targets. *)
Definition Xfull : list nat := seq 0 10.
Definition yfull : tensor := List.repeat 0%R 10.

(** [-cycle 1 2 -q 4 -stop 0.5 -frac 0.5 -ndims 2 -maxiters 3] *)
Definition args_norepeat : gp_net.Args :=
  gp_net.mk_Args None false false false None (Some (1, 2)) (Some 4)
    (Some 0.5%float) (Some [0.5%float]) None None (Some 2) (Some [3]).

(** [-repeat -cycle 1 2 -stop 0.5 -frac 0.5 0.25 -ndims 2 -maxiters 3] *)
Definition args_repeat : gp_net.Args :=
  gp_net.mk_Args None false false true None (Some (1, 2)) None
    (Some 0.5%float) (Some [0.5%float; 0.25%float]) None None (Some 2)
    (Some [3]).

Definition input_repeat : @gp_net.repeat_input collaborators :=
  @gp_net.mk_repeat_input collaborators tt Xfull yfull
    (seq 0 4) (List.repeat 0%R 4) (seq 4 6) (List.repeat 0%R 6)
    (seq 0 2) (List.repeat 0%R 2) (seq 2 2) (List.repeat 0%R 2).

(** [-noactive -frac 1.0 1e-20] *)
Definition args_frac : gp_net.Args :=
  gp_net.mk_Args None false true false None None None None
    (Some [1.0%float; 1e-20%float]) None None None None.

(** [-repeat -frac -0.5 0.5] *)
Definition args_frac_repeat : gp_net.Args :=
  gp_net.mk_Args None false false true None None None None
    (Some [(-0.5)%float; 0.5%float]) None None None None.

(** [-repeat -cycle 1 1 -stop 0.5 -frac 0.5 0.25 -ndims 2 -maxiters 3],
    against a test set of three. *)
Definition args_stop : gp_net.Args :=
  gp_net.mk_Args None false false true None (Some (1, 1)) None
    (Some 0.5%float) (Some [0.5%float; 0.25%float]) None None (Some 2)
    (Some [3]).

Definition input_stop : @gp_net.repeat_input collaborators :=
  @gp_net.mk_repeat_input collaborators tt (seq 0 7) (List.repeat 0%R 7)
    (seq 0 4) (List.repeat 0%R 4) (seq 4 3) (List.repeat 0%R 3)
    (seq 0 2) (List.repeat 0%R 2) (seq 2 2) (List.repeat 0%R 2).

End toy.

(** ** What the arrays record, continued *)

Section Recorded.
Context {TF : TensorFlow}.

(** The loss recorded at an iteration is that of the hyperparameters the
    iteration started from: the first one that of [amp0] and [length0],
    the one at position [j + 1] that of the hyperparameters recorded at
    position [j]. *)
Definition losses_lag (nd : Z) (latent_train : latent) (ytrain : tensor)
    (amp0 length0 : R) (t : adam.trace) : Prop :=
  (forall x, nth_error (adam.OptLoss t) 0 = Some x ->
             x = neg_log_prob nd amp0 length0 latent_train ytrain) /\
  (forall j a l x,
      nth_error (adam.OptAmp t) j = Some a ->
      nth_error (adam.OptLength t) j = Some l ->
      nth_error (adam.OptLoss t) (S j) = Some x ->
      x = neg_log_prob nd a l latent_train ytrain).

End Recorded.

(** Each array of [t'] starts with the array of [t]. *)
Definition trace_extends (t t' : adam.trace) : Prop :=
  (exists e, adam.OptLoss t' = adam.OptLoss t ++ e) /\
  (exists e, adam.OptAmp t' = adam.OptAmp t ++ e) /\
  (exists e, adam.OptLength t' = adam.OptLength t ++ e) /\
  (exists e, adam.Optmae t' = adam.Optmae t ++ e) /\
  (exists e, adam.Optmse t' = adam.Optmse t ++ e) /\
  (exists e, adam.Optsae t' = adam.Optsae t ++ e).

(** ** gp-net.py: the loop over the properties and k-fold
    cross-validation *)

Module driver.

Import gp_net.

(** [l[idx]] for an array of indices: an index out of range raises. *)
Fixpoint fancy_index (A : Type) (l : list A) (idx : list nat)
    : result (list A) :=
  match idx with
  | [] => Ok []
  | i :: rest =>
      x <- getitem l i ;;
      xs <- fancy_index l rest ;;
      Ok (x :: xs)
  end.

(** What [megnet_input] returns when no active learning is asked for. *)
Record noactive_input {C : Collaborators} : Type := mk_noactive_input {
  ni_model : megnet;
  ni_Xfull : list structure;
  ni_yfull : tensor;
  ni_Xpool : list structure;
  ni_ypool : tensor;
  ni_Xtest : list structure;
  ni_ytest : tensor
}.

(** The data loader, the cross-validation splitter and the extraction of
    latent points for the runs without active learning, taken as they
    come. *)
Class Loader {C : Collaborators} : Type := {
  (** [megnet_input(prop, ..., fraction, quan)] of the no-repeat variant *)
  megnet_input_norepeat : string -> list float -> Z
                          -> megnet * list structure * tensor;
  (** [megnet_input(prop, ..., fraction)] of the repeat variant *)
  megnet_input_repeat : string -> list float -> repeat_input;
  (** [megnet_input(prop, ..., fraction)] without active learning *)
  megnet_input_noactive : string -> list float -> noactive_input;
  (** [KFold(n_splits, shuffle=True, random_state=0).split(Xpool)] *)
  KFold_split : Z -> list structure -> result (list (list nat * list nat));
  (** [training.k_fold] *)
  training_k_fold : megnet -> Z -> list structure -> tensor
                    -> list structure -> tensor -> megnet;
  (** [latent.k_fold(datadir, fold, ..., train_idx, val_idx, Xpool, ...,
      ndims, ...)] *)
  latent_k_fold : megnet -> string -> Z -> list nat -> list nat
                  -> list structure -> Z -> ndarray * ndarray * ndarray;
  (** [latent.train_test_split(datadir, ..., Xpool, ytest, ..., ndims, ...)] *)
  latent_train_test_split : megnet -> string -> list structure -> tensor -> Z
                            -> ndarray * ndarray
}.

(** The arguments of one call of [adam.k_fold]. *)
Record fold_call : Type := mk_fold_call {
  kc_latent_train : ndarray;
  kc_latent_val : ndarray;
  kc_latent_test : ndarray;
  kc_ytrain : tensor;
  kc_yval : tensor;
  kc_ytest : tensor;
  kc_maxiters : Z;
  kc_amp : R;
  kc_length_scale : R
}.

(** The arguments of one call of [adam.train_test_split]. *)
Record split_call : Type := mk_split_call {
  sc_latent_pool : ndarray;
  sc_latent_test : ndarray;
  sc_ypool : tensor;
  sc_ytest : tensor;
  sc_maxiters : Z;
  sc_amp : R;
  sc_length_scale : R
}.

(** What a run without active learning does, in order. *)
Inductive noactive_event : Type :=
| EvFold (fold : Z) (call : fold_call) (out : result adam.kfold_return)
| EvSplit (call : split_call) (out : result adam.tts_return).

Section Runs.
Context {TF : TensorFlow} {C : Collaborators} {L : Loader}.

(** *** Active learning, property after property *)

(** [for prop in properties:] around the no-repeat variant.  [maxiters],
    [amp] and [length_scale] are variables of [main]: what one property
    leaves in them is what the next one starts from. *)
Fixpoint main_norepeat_properties (a : Args) (maxiters : Z)
    (amp length_scale rate : R) (properties : list string)
    : list (string * list event) * result (Z * R * R) :=
  match properties with
  | [] => ([], Ok (maxiters, amp, length_scale))
  | prop :: rest =>
      let inp := megnet_input_norepeat prop (fraction_of a) (quan_of a) in
      match main_norepeat a prop maxiters amp length_scale rate
              (fst (fst inp)) (snd (fst inp)) (snd inp) with
      | (log, Raise e) => ([(prop, log)], Raise e)
      | (log, Ok s) =>
          let r := main_norepeat_properties a (nr_maxiters s) (nr_amp s)
                     (nr_length_scale s) rate rest in
          ((prop, log) :: fst r, snd r)
      end
  end.

(** [for prop in properties:] around the repeat variant. *)
Fixpoint main_repeat_properties (a : Args) (maxiters : Z)
    (amp length_scale rate : R) (properties : list string)
    : list (string * list event) * result (Z * R * R) :=
  match properties with
  | [] => ([], Ok (maxiters, amp, length_scale))
  | prop :: rest =>
      match main_repeat a prop maxiters amp length_scale rate
              (megnet_input_repeat prop (fraction_of a)) with
      | (log, Raise e) => ([(prop, log)], Raise e)
      | (log, Ok s) =>
          let r := main_repeat_properties a maxiters (rp_amp s)
                     (rp_length_scale s) rate rest in
          ((prop, log) :: fst r, snd r)
      end
  end.

(** *** K-fold cross-validation *)

(** The variables of [main] that change from fold to fold. *)
Record kfold_state : Type := mk_kfold_state {
  ks_model : megnet;
  ks_amp : R;
  ks_length_scale : R;
  ks_OptAmp_fold : tensor;
  ks_OptLength_fold : tensor;
  ks_Optmae_val_fold : list (option R);
  ks_Optmse_val_fold : list (option R);
  ks_mae_test_fold : tensor
}.

(** The body of [for fold, (train_idx, val_idx) in enumerate(kf.split(Xpool))]. *)
Definition kfold_cycle (a : Args) (prop : string) (maxiters : list Z)
    (rate : R) (Xpool : list structure) (ypool ytest : tensor)
    (fold : Z) (idx : list nat * list nat) (s : kfold_state)
    : list noactive_event * result kfold_state :=
  let datadir := ("k_fold/" ++ prop ++ "_results/0" ++ string_of_Z fold
                   ++ "_fold")%string in
  match fancy_index Xpool (fst idx), fancy_index Xpool (snd idx),
        fancy_index ypool (fst idx), fancy_index ypool (snd idx) with
  | Ok Xtrain, Ok Xval, Ok ytrain, Ok yval =>
      let model :=
        if 0 <? epochs_of a
        then training_k_fold (ks_model s) fold Xtrain ytrain Xval yval
        else ks_model s in
      let lat := latent_k_fold model datadir fold (fst idx) (snd idx) Xpool
                   (ndims_of a) in
      let latent_train := fst (fst lat) in
      let latent_val := snd (fst lat) in
      let latent_test := snd lat in
      match getitem maxiters 0 with
      | Raise e => ([], Raise e)
      | Ok m0 =>
          let call := mk_fold_call latent_train latent_val latent_test
                        ytrain yval ytest m0 (ks_amp s) (ks_length_scale s) in
          let out := adam.k_fold datadir prop latent_train latent_val
                       latent_test ytrain yval ytest
                       m0 (ks_amp s) (ks_length_scale s) rate in
          match out with
          | Raise e => ([EvFold fold call out], Raise e)
          | Ok r =>
              ([EvFold fold call out],
               Ok (mk_kfold_state model
                     (adam.kf_amp r) (adam.kf_length_scale r)
                     (ks_OptAmp_fold s ++ [adam.kf_amp r])
                     (ks_OptLength_fold s ++ [adam.kf_length_scale r])
                     (ks_Optmae_val_fold s ++ [adam.kf_Optmae_val r])
                     (ks_Optmse_val_fold s ++ [adam.kf_Optmse_val r])
                     (ks_mae_test_fold s ++ [adam.kf_mae_test r])))
          end
      end
  | Raise e, _, _, _ => ([], Raise e)
  | _, Raise e, _, _ => ([], Raise e)
  | _, _, Raise e, _ => ([], Raise e)
  | _, _, _, Raise e => ([], Raise e)
  end.

(** The loop over the folds, numbered from [fold]. *)
Fixpoint kfold_loop (a : Args) (prop : string) (maxiters : list Z)
    (rate : R) (Xpool : list structure) (ypool ytest : tensor)
    (fold : Z) (folds : list (list nat * list nat)) (s : kfold_state)
    : list noactive_event * result kfold_state :=
  match folds with
  | [] => ([], Ok s)
  | idx :: rest =>
      match kfold_cycle a prop maxiters rate Xpool ypool ytest fold idx s with
      | (ev, Ok s') =>
          let r := kfold_loop a prop maxiters rate Xpool ypool ytest
                     (fold + 1) rest s' in
          (ev ++ fst r, snd r)
      | (ev, Raise e) => (ev, Raise e)
      end
  end.

(** The branch [elif nsplit > 1:] of a run without active learning, for
    one property and without [-prev]: the folds, then the fit on the whole
    pool.  It returns the [amp] and [length_scale] it leaves in the
    variables of [main]; with [nsplit <= 1] the branch is not entered. *)
Definition main_kfold (a : Args) (prop : string) (maxiters : list Z)
    (amp length_scale rate : R)
    : list noactive_event * result (R * R) :=
  let d := megnet_input_noactive prop (fraction_of a) in
  if 1 <? nsplit_of a then
    match KFold_split (nsplit_of a) (ni_Xpool d) with
    | Raise e => ([], Raise e)
    | Ok folds =>
        match kfold_loop a prop maxiters rate (ni_Xpool d) (ni_ypool d)
                (ni_ytest d) 0 folds
                (mk_kfold_state (ni_model d) amp length_scale [] [] [] [] [])
        with
        | (ev, Raise e) => (ev, Raise e)
        | (ev, Ok s) =>
            let datadir := ("k_fold/" ++ prop ++ "_results")%string in
            let model :=
              if 0 <? epochs_of a
              then training (ks_model s) (ni_Xpool d) (ni_ypool d)
                     (ni_Xtest d) (ni_ytest d)
              else ks_model s in
            let lat := latent_train_test_split model datadir (ni_Xpool d)
                         (ni_ytest d) (ndims_of a) in
            match getitem maxiters 1 with
            | Raise e => (ev, Raise e)
            | Ok m1 =>
                let call := mk_split_call (fst lat) (snd lat) (ni_ypool d)
                              (ni_ytest d) m1 (ks_amp s) (ks_length_scale s) in
                let out := adam.train_test_split datadir prop
                             (fst lat) (snd lat) (ni_ypool d) (ni_ytest d)
                             m1 (ks_amp s) (ks_length_scale s) rate in
                match out with
                | Raise e => (ev ++ [EvSplit call out], Raise e)
                | Ok _ =>
                    (ev ++ [EvSplit call out],
                     Ok (ks_amp s, ks_length_scale s))
                end
            end
        end
    end
  else ([], Ok (amp, length_scale)).

End Runs.

(** *** What the logs are read for *)

(** The calls of [adam.active] of a run with their outcome, in order. *)
Definition fit_outcomes (log : list event)
    : list (fit_call * result adam.active_return) :=
  flat_map (fun e => match e with
                     | EvFit _ c out => [(c, out)]
                     | EvSelect _ _ _ => []
                     end) log.

(** Every call is made with [maxiters] iterations and starts from the
    hyperparameters that the call before it returned, the first one from
    [amp] and [length_scale]; a call that raises is the last one. *)
Fixpoint warm_started (maxiters : Z) (amp length_scale : R)
    (l : list (fit_call * result adam.active_return)) : Prop :=
  match l with
  | [] => True
  | (c, out) :: rest =>
      fc_maxiters c = maxiters /\
      fc_amp c = amp /\ fc_length_scale c = length_scale /\
      match out with
      | Ok r => warm_started maxiters (adam.ac_amp r)
                  (adam.ac_length_scale r) rest
      | Raise _ => rest = []
      end
  end.

(** The same for the calls of [adam.k_fold] of a cross-validation, which
    ends with the call of [adam.train_test_split] for [m1] iterations from
    the hyperparameters the last fold returned. *)
Fixpoint folds_then_split (m0 m1 : Z) (amp length_scale : R)
    (l : list noactive_event) : Prop :=
  match l with
  | [] => True
  | EvFold _ c out :: rest =>
      kc_maxiters c = m0 /\
      kc_amp c = amp /\ kc_length_scale c = length_scale /\
      match out with
      | Ok r => folds_then_split m0 m1 (adam.kf_amp r)
                  (adam.kf_length_scale r) rest
      | Raise _ => rest = []
      end
  | EvSplit c out :: rest =>
      sc_maxiters c = m1 /\
      sc_amp c = amp /\ sc_length_scale c = length_scale /\ rest = []
  end.



End driver.

(** ** The small implementation, continued *)

Module toy_runs.

Import driver.

(** A loader that returns the ten structures whatever the property, and
    a splitter into two folds of a pool of four. *)
Definition loader : @Loader toy.collaborators :=
  @Build_Loader toy.collaborators
    (fun _ _ _ => (tt, toy.Xfull, toy.yfull))
    (fun _ _ => toy.input_repeat)
    (fun _ _ =>
       @mk_noactive_input toy.collaborators tt toy.Xfull toy.yfull
         (seq 0 4) (List.repeat 0%R 4) (seq 4 6) (List.repeat 0%R 6))
    (fun _ _ =>
       Ok [([2%nat; 3%nat], [0%nat; 1%nat]);
           ([0%nat; 1%nat], [2%nat; 3%nat])])
    (fun m _ _ _ _ _ => m)
    (fun _ _ _ train_idx val_idx Xpool _ =>
       (toy.embed train_idx, toy.embed val_idx, toy.embed Xpool))
    (fun _ _ Xpool _ _ => (toy.embed Xpool, toy.embed Xpool)).

(** [-noactive -frac 0.5 0.5 -nsplit 2 -ndims 2 -maxiters 2 3] *)
Definition args_kfold : gp_net.Args :=
  gp_net.mk_Args None false true false None None None None
    (Some [0.5%float; 0.5%float]) (Some 2) None (Some 2) (Some [2; 3]).

(** [-nomeg] *)
Definition args_nomeg : gp_net.Args :=
  gp_net.mk_Args None true false false None None None None None None None
    None None.

End toy_runs.

(** * Properties *)

Import adam gp_net selection_fn.

(** ** Python sequences *)


Lemma getitem_app_last (A : Type) (l : list A) (x : A) :
  getitem (l ++ [x]) (List.length l) = Ok x.
Proof.
  unfold getitem. rewrite nth_error_app2 by lia.
  now rewrite Nat.sub_diag.
Qed.

Lemma getitem_nth_error (A : Type) (l : list A) (i : nat) (x : A) :
  nth_error l i = Some x -> getitem l i = Ok x.
Proof. unfold getitem. now intros ->. Qed.

Lemma argmin_from_spec (l pre : list R) :
  forall best besti,
    nth_error pre besti = Some best ->
    (forall j y, nth_error pre j = Some y -> (best <= y)%R) ->
    (forall j y, (j < besti)%nat -> nth_error pre j = Some y -> (best < y)%R) ->
    first_min (argmin_from best besti (List.length pre) l) (pre ++ l) /\
    nth_error (pre ++ l) (argmin_from best besti (List.length pre) l)
      = Some (min_from best l).
Proof.
  revert pre. induction l as [|x t IH]; intros pre best besti Hb Hle Hlt.
  - cbn. rewrite app_nil_r. split; [exists best|]; auto.
  - cbn [argmin_from min_from].
    replace (pre ++ x :: t) with ((pre ++ [x]) ++ t) by now rewrite <- app_assoc.
    replace (S (List.length pre)) with (List.length (pre ++ [x]))
      by (rewrite length_app; cbn; lia).
    destruct (Rlt_dec x best) as [Hx|Hx].
    + apply IH.
      * rewrite nth_error_app2 by lia. now rewrite Nat.sub_diag.
      * intros j y Hj.
        destruct (Nat.lt_ge_cases j (List.length pre)) as [Hlen|Hlen].
        -- rewrite nth_error_app1 in Hj by assumption.
           specialize (Hle _ _ Hj). lra.
        -- rewrite nth_error_app2 in Hj by assumption.
           destruct (j - List.length pre)%nat as [|k]; cbn in Hj.
           ++ injection Hj as <-. lra.
           ++ destruct k; discriminate.
      * intros j y Hj Hy. rewrite nth_error_app1 in Hy by assumption.
        specialize (Hle _ _ Hy). lra.
    + apply IH.
      * rewrite nth_error_app1; [assumption|].
        apply nth_error_Some. congruence.
      * intros j y Hj.
        destruct (Nat.lt_ge_cases j (List.length pre)) as [Hlen|Hlen].
        -- rewrite nth_error_app1 in Hj by assumption. eauto.
        -- rewrite nth_error_app2 in Hj by assumption.
           destruct (j - List.length pre)%nat as [|k]; cbn in Hj.
           ++ injection Hj as <-. lra.
           ++ destruct k; discriminate.
      * intros j y Hj Hy.
        assert (j < List.length pre)%nat.
        { assert (besti < List.length pre)%nat
            by (apply nth_error_Some; congruence). lia. }
        rewrite nth_error_app1 in Hy by assumption. eauto.
Qed.

Lemma argmin_spec (l : list R) :
  l <> [] ->
  first_min (argmin l) l /\
  exists m, py_min l = Ok m /\ nth_error l (argmin l) = Some m.
Proof.
  destruct l as [|x t]; [congruence|]. intros _.
  destruct (@argmin_from_spec t [x] x 0%nat) as [H1 H2].
  - reflexivity.
  - intros [|[|j]] y Hj; cbn in Hj; try discriminate.
    injection Hj as <-. lra.
  - intros j y Hj. lia.
  - cbn in H1, H2. split; [exact H1|]. eexists; split; [reflexivity|exact H2].
Qed.


Lemma getitem_snoc (A : Type) (l : list A) (x : A) (i : nat) :
  List.length l = i -> getitem (l ++ [x]) i = Ok x.
Proof. intros <-. apply getitem_app_last. Qed.


Lemma nth_error_snoc (A : Type) (l : list A) (x : A) (j : nat) (y : A) :
  nth_error (l ++ [x]) j = Some y ->
  (j < List.length l)%nat /\ nth_error l j = Some y \/
  j = List.length l /\ y = x.
Proof.
  intros H. destruct (Nat.lt_ge_cases j (List.length l)) as [Hl|Hl].
  - rewrite nth_error_app1 in H by assumption. auto.
  - rewrite nth_error_app2 in H by assumption.
    destruct (j - List.length l)%nat as [|k] eqn:E; cbn in H.
    + injection H as <-. right. split; [lia|reflexivity].
    + destruct k; discriminate.
Qed.

Example slice_to_negative : slice_to [1; 2; 3; 4; 5] (-2) = [1; 2; 3].
Proof. reflexivity. Qed.

Example slice_from_negative : slice_from [1; 2; 3; 4; 5] (-2) = [4; 5].
Proof. reflexivity. Qed.

Example slice_beyond :
  slice_to [1; 2; 3] 9 = [1; 2; 3] /\ slice_from [1; 2; 3] (-9) = [1; 2; 3].
Proof. split; reflexivity. Qed.

Example py_int_truncates :
  py_int (-1.5)%float = Ok (-1) /\ py_int 1.5%float = Ok 1 /\
  py_int (0.29 * float_of_Z 100)%float = Ok 28 /\
  py_int infinity = Raise OverflowError.
Proof. vm_compute. repeat split. Qed.

Example default_arguments_pass :
  main_checks (mk_Args None false false false None None None None None None
                 None None None) = Ok (Iters 0).
Proof. vm_compute. reflexivity. Qed.

Lemma slices_partition (A : Type) (l : list A) (k : Z) :
  slice_to l k ++ slice_from l k = l.
Proof. apply firstn_skipn. Qed.


(** ** The optimisation loop *)

Section AdamFacts.
Context {TF : TensorFlow}.
Variables (nd : Z) (latent_train : latent) (ytrain : tensor)
          (latent_val : latent) (yval : tensor).

Local Abbreviation recorded' :=
  (recorded nd latent_train ytrain latent_val yval).
Local Abbreviation last_model' :=
  (last_model nd latent_train ytrain latent_val).


Lemma step_ok (i : nat) (s : loop_state) :
  recorded' i (tr s) ->
  exists s', step nd latent_train ytrain latent_val yval i s = Ok s' /\
             recorded' (S i) (tr s') /\ last_model' s'.
Proof.
  intros [H1 H2 H3 H4 H5 H6 Ha Hl Hm].
  unfold step. cbv zeta.
  rewrite (getitem_snoc _ _ H2). cbn [bind].
  rewrite (getitem_snoc _ _ H3). cbn [bind].
  eexists; split; [reflexivity|]. split.
  - constructor; cbn [tr OptLoss OptAmp OptLength Optmae Optmse Optsae];
      rewrite ?length_app; cbn [List.length]; try lia.
    + apply Forall_app; split; [assumption|]. constructor; eauto.
    + apply Forall_app; split; [assumption|]. constructor; eauto.
    + intros j a l Hja Hjl.
      apply nth_error_snoc in Hja. apply nth_error_snoc in Hjl.
      destruct Hja as [[Hlt Hja]|[-> ->]].
      * destruct Hjl as [[_ Hjl]|[-> _]]; [|lia].
        rewrite nth_error_app1 by lia. auto.
      * destruct Hjl as [[Hlt _]|[_ ->]]; [lia|].
        rewrite H2, <- H4. rewrite nth_error_app2 by apply Nat.le_refl.
        rewrite Nat.sub_diag. reflexivity.
  - unfold last_model. cbn [gprm tr OptAmp OptLength].
    do 2 eexists. split; [|split; [|split]].
    + intros E. apply app_eq_nil in E. destruct E; discriminate.
    + apply last_last.
    + apply last_last.
    + reflexivity.
Qed.

Lemma iterate_ok (n : nat) :
  forall i s,
    recorded' i (tr s) -> last_model' s ->
    exists s', iterate nd latent_train ytrain latent_val yval n i s = Ok s' /\
               recorded' (i + n) (tr s') /\ last_model' s'.
Proof.
  induction n as [|n IH]; intros i s Hr Hl.
  - exists s. cbn. rewrite Nat.add_0_r. auto.
  - cbn [iterate]. destruct (@step_ok i s Hr) as (s1 & -> & Hr1 & Hl1).
    cbn [bind]. destruct (IH (S i) s1 Hr1 Hl1) as (s' & E & Hr' & Hl').
    exists s'. rewrite E. replace (i + S n)%nat with (S i + n)%nat by lia. auto.
Qed.

Lemma optimise_ok (maxiters : Z) (amp length_scale rate : R) :
  exists s,
    optimise nd latent_train ytrain latent_val yval maxiters
      amp length_scale rate = Ok s /\
    recorded' (Z.to_nat maxiters) (tr s) /\ last_model' s.
Proof.
  unfold optimise.
  destruct (@iterate_ok (Z.to_nat maxiters) 0%nat (init_loop amp length_scale rate))
    as (s & E & Hr & Hl).
  - constructor; cbn; auto. intros [|j]; discriminate.
  - reflexivity.
  - exists s. auto.
Qed.

End AdamFacts.


Section Facts.
Context {TF : TensorFlow}.

Lemma reshape_supported (nd : Z) (x : ndarray) :
  nd = 2 \/ nd = 3 -> reshape nd x = Some (with_newaxes nd x).
Proof. unfold reshape, with_newaxes. intros [-> | ->]; reflexivity. Qed.

Lemma reshape_unsupported (nd : Z) (x : ndarray) :
  nd <> 2 -> nd <> 3 -> reshape nd x = None.
Proof.
  unfold reshape. intros H2 H3.
  destruct (Z.eqb_spec nd 2); [contradiction|].
  destruct (Z.eqb_spec nd 3); [contradiction|]. reflexivity.
Qed.

Lemma leb_nonpos (m : Z) : m <= 0 -> (m <=? 0) = true.
Proof. intros. now apply Z.leb_le. Qed.

Lemma leb_pos (m : Z) : 0 < m -> (m <=? 0) = false.
Proof. intros. now apply Z.leb_gt. Qed.

(** After at least one pass, the arrays are not empty, the first least
    validation error is found by [argmin], and the hyperparameters
    recorded with it exist. *)
Lemma best_iterate_exists (nd : Z) (latent_train : latent) (ytrain : tensor)
    (latent_val : latent) (yval : tensor) (n : nat) (t : trace) :
  (0 < n)%nat ->
  recorded nd latent_train ytrain latent_val yval n t ->
  exists a l mse sae,
    first_min (argmin (Optmae t)) (Optmae t) /\
    nth_error (OptAmp t) (argmin (Optmae t)) = Some a /\
    nth_error (OptLength t) (argmin (Optmae t)) = Some l /\
    nth_error (Optmse t) (argmin (Optmae t)) = Some mse /\
    nth_error (Optsae t) (argmin (Optmae t)) = Some sae /\
    py_min (Optmae t)
      = Ok (val_mae nd latent_train ytrain latent_val yval a l).
Proof.
  intros Hn Hr.
  assert (Hne : Optmae t <> []).
  { intros E. pose proof (rec_mae_len Hr) as H. rewrite E in H. cbn in H. lia. }
  destruct (argmin_spec Hne) as [Hfirst (m & Hmin & Hm)].
  assert (Hb : (argmin (Optmae t) < n)%nat).
  { rewrite <- (rec_mae_len Hr). apply nth_error_Some. congruence. }
  destruct (nth_error (OptAmp t) (argmin (Optmae t))) as [a|] eqn:Ea;
    [|apply nth_error_None in Ea; rewrite (rec_amp Hr) in Ea; lia].
  destruct (nth_error (OptLength t) (argmin (Optmae t))) as [l|] eqn:El;
    [|apply nth_error_None in El; rewrite (rec_length Hr) in El; lia].
  destruct (nth_error (Optmse t) (argmin (Optmae t))) as [mse|] eqn:Emse;
    [|apply nth_error_None in Emse; rewrite (rec_mse Hr) in Emse; lia].
  destruct (nth_error (Optsae t) (argmin (Optmae t))) as [sae|] eqn:Esae;
    [|apply nth_error_None in Esae; rewrite (rec_sae Hr) in Esae; lia].
  exists a, l, mse, sae. repeat split; try assumption; try reflexivity.
  rewrite Hmin. f_equal.
  pose proof (rec_mae Hr _ Ea El) as H. congruence.
Qed.


End Facts.

Lemma for_each_invariant (St : Type) (body : Z -> St -> list event * result St)
    (I : Z -> St -> Prop) (Q : event -> Prop) (k : nat) :
  forall a s,
    (forall i s,
        Z.of_nat a <= i < Z.of_nat (a + k) -> I i s ->
        Forall Q (fst (body i s)) /\
        forall s', snd (body i s) = Ok s' -> I (i + 1) s') ->
    I (Z.of_nat a) s ->
    Forall Q (fst (for_each body (map Z.of_nat (seq a k)) s)).
Proof.
  induction k as [|k IH]; intros a s Hbody HI; cbn [seq map for_each fst].
  - constructor.
  - destruct (Hbody (Z.of_nat a) s) as [Hq Hnext]; [lia|assumption|].
    destruct (body (Z.of_nat a) s) as [ev [s'|e]]; cbn [fst snd] in *.
    + apply Forall_app. split; [assumption|].
      apply IH.
      * intros i s0 Hi. apply Hbody. lia.
      * replace (Z.of_nat (S a)) with (Z.of_nat a + 1) by lia. now apply Hnext.
    + assumption.
Qed.

(** ** The fitting protocols *)

(** C1, as amended.  For every fit with [maxiters > 0] over latent points of
    dimension 2 or 3, the loop records [maxiters] iterates, each with the
    validation error of its own hyperparameters, and the first index of
    the least validation error supplies: in [active], the returned best
    amplitude and length scale and the returned posterior mean, standard
    deviation and variance, recomputed over the test points with that
    iterate's hyperparameters; in [k_fold], the returned amplitude and
    length scale, the posterior written to file and the test error taken
    from it; in [train_test_split], where the test set is the validation
    set, the returned best error with its squared error and deviation,
    while amplitude and length scale are returned as the whole arrays. *)








(** C1 fails as stated: in the toy run of two passes the first pass is the
    best one, yet [train_test_split] returns the posterior of the second,
    and it returns the arrays of amplitudes, not the best amplitude. *)



(** C2.  Latent points whose trailing dimension is neither 2 nor 3 leave
    the latent arrays unbound, and every fitting function stops at the
    first use of one: dimension 1, which is meant to be supported, fails
    like any other, and no error of its own is raised for the others. *)

Theorem unsupported_dimension_leaves_latents_unbound
    (TF : TensorFlow) (datadir prop : string)
    (tsne_train tsne_val tsne_test : ndarray)
    (ytrain yval ytest : tensor) (maxiters : Z)
    (amp length_scale rate : R) :
  shape1 tsne_train <> 2 ->
  shape1 tsne_train <> 3 ->
  train_test_split datadir prop tsne_train tsne_test ytrain ytest
    maxiters amp length_scale rate
    = Raise (if maxiters <=? 0 then UnboundLocalError "latent_test"
             else NameError "latent_pool") /\
  k_fold datadir prop tsne_train tsne_val tsne_test ytrain yval ytest
    maxiters amp length_scale rate
    = Raise (if maxiters <=? 0 then UnboundLocalError "latent_test"
             else NameError "latent_train") /\
  active datadir prop tsne_train tsne_val tsne_test ytrain yval ytest
    maxiters amp length_scale rate
    = Raise (if maxiters <=? 0 then UnboundLocalError "latent_test"
             else NameError "latent_train").
Proof.
  intros H2 H3.
  unfold train_test_split, k_fold, active.
  rewrite !(reshape_unsupported _ H2 H3).
  destruct (maxiters <=? 0); auto.
Qed.

Lemma dimension_one_fails :
  shape1 (mk_ndarray 1 [[0%R]; [1%R]]) <> 2 /\
  shape1 (mk_ndarray 1 [[0%R]; [1%R]]) <> 3 /\
  train_test_split (TF := toy.tensorflow) "" ""
    (mk_ndarray 1 [[0%R]; [1%R]]) (mk_ndarray 1 [[0%R]; [1%R]])
    toy.targets toy.targets 0 1 1 1
  = Raise (UnboundLocalError "latent_test") /\
  active (TF := toy.tensorflow) "" ""
    (mk_ndarray 1 [[0%R]; [1%R]]) (mk_ndarray 1 [[0%R]; [1%R]])
    (mk_ndarray 1 [[0%R]; [1%R]])
    toy.targets toy.targets toy.targets 0 1 1 1
  = Raise (UnboundLocalError "latent_test").
Proof.
  assert (H2 : shape1 (mk_ndarray 1 [[0%R]; [1%R]]) <> 2) by (cbn; lia).
  assert (H3 : shape1 (mk_ndarray 1 [[0%R]; [1%R]]) <> 3) by (cbn; lia).
  split; [exact H2|]. split; [exact H3|].
  destruct (@unsupported_dimension_leaves_latents_unbound toy.tensorflow
              "" "" (mk_ndarray 1 [[0%R]; [1%R]])
              (mk_ndarray 1 [[0%R]; [1%R]]) (mk_ndarray 1 [[0%R]; [1%R]])
              toy.targets toy.targets toy.targets 0 1 1 1 H2 H3)
    as (Ht & _ & Ha).
  split; [exact Ht | exact Ha].
Defined.

(** C3.  For every fit with [maxiters <= 0] over latent points of
    dimension 2 or 3, each fitting function returns normally, evaluates
    the posterior once with the amplitude and length scale it was given,
    returns these unchanged and returns [None] where the arrays of an
    optimisation would be; the optimiser does not appear in the result. *)



(** C7.  Whatever the gradients and whatever the optimiser does with them,
    the loop shared by the three fitting functions completes and every
    amplitude and length scale it records, one per iteration, is strictly
    positive: each is the exponential of the unconstrained variable. *)


(** C9.  Two evaluations with [maxiters <= 0] that share the kernel
    hyperparameters, the training points and targets and the query points
    return the same posterior mean, standard deviation and variance,
    whatever else differs between the calls. *)

Theorem fixed_hyperparameter_posterior_is_deterministic
    (TF : TensorFlow) (tsne_train tsne_test : ndarray) (ytrain : tensor)
    (amp length_scale : R)
    (datadir1 prop1 datadir2 prop2 : string) (tsne_val1 tsne_val2 : ndarray)
    (yval1 ytest1 yval2 ytest2 : tensor) (maxiters1 maxiters2 : Z)
    (rate1 rate2 : R) :
  maxiters1 <= 0 ->
  maxiters2 <= 0 ->
  active_posterior
    (active datadir1 prop1 tsne_train tsne_val1 tsne_test
       ytrain yval1 ytest1 maxiters1 amp length_scale rate1)
  = active_posterior
      (active datadir2 prop2 tsne_train tsne_val2 tsne_test
         ytrain yval2 ytest2 maxiters2 amp length_scale rate2) /\
  kfold_posterior
    (k_fold datadir1 prop1 tsne_train tsne_val1 tsne_test
       ytrain yval1 ytest1 maxiters1 amp length_scale rate1)
  = kfold_posterior
      (k_fold datadir2 prop2 tsne_train tsne_val2 tsne_test
         ytrain yval2 ytest2 maxiters2 amp length_scale rate2) /\
  tts_posterior
    (train_test_split datadir1 prop1 tsne_train tsne_test
       ytrain ytest1 maxiters1 amp length_scale rate1)
  = tts_posterior
      (train_test_split datadir2 prop2 tsne_train tsne_test
         ytrain ytest2 maxiters2 amp length_scale rate2).
Proof.
  intros H1 H2.
  unfold active, k_fold, train_test_split.
  rewrite (leb_nonpos H1), (leb_nonpos H2).
  destruct (reshape (shape1 tsne_train) tsne_test);
    destruct (reshape (shape1 tsne_train) tsne_train); repeat split.
Qed.

Lemma fixed_hyperparameter_posterior_witness :
  0 <= 0 /\ -1 <= 0 /\
  active_posterior
    (active (TF := toy.tensorflow) "a" "gap" toy.points toy.points toy.points
       toy.targets toy.targets toy.targets 0 1 1 1)
  = active_posterior
      (active (TF := toy.tensorflow) "b" "eps" toy.points
         (mk_ndarray 2 []) toy.points
         toy.targets [] [1%R; 2%R] (-1) 1 1 2).
Proof.
  split; [lia|]. split; [lia|].
  apply (@fixed_hyperparameter_posterior_is_deterministic toy.tensorflow
           toy.points toy.points toy.targets 1%R 1%R
           "a" "gap" "b" "eps" toy.points (mk_ndarray 2 [])
           toy.targets toy.targets [] [1%R; 2%R] 0 (-1) 1%R 2%R); lia.
Defined.

(** ** The selection of samples *)

Section SelectionFacts.

Lemma insert_desc_perm (score : nat -> R) (i : nat) (l : list nat) :
  Permutation (insert_desc score i l) (i :: l).
Proof.
  induction l as [|j t IH]; cbn; [reflexivity|].
  destruct (Rle_dec (score j) (score i)); [reflexivity|].
  rewrite IH. apply perm_swap.
Qed.

Lemma rank_desc_perm (score : nat -> R) (n : nat) :
  Permutation (rank_desc score n) (seq 0 n).
Proof.
  unfold rank_desc. induction (seq 0 n) as [|i t IH]; cbn; [reflexivity|].
  rewrite insert_desc_perm. now constructor.
Qed.

Lemma top_spec (quota : Z) (scores ytest : tensor) :
  NoDup (top quota scores ytest) /\
  (forall i, In i (top quota scores ytest) -> (i < List.length ytest)%nat) /\
  List.length (top quota scores ytest)
    = Nat.min (Z.to_nat quota) (List.length ytest).
Proof.
  unfold top.
  set (r := rank_desc _ _).
  assert (Hp : Permutation r (seq 0 (List.length ytest)))
    by apply rank_desc_perm.
  assert (Hn : NoDup r).
  { apply Permutation_NoDup with (l := seq 0 (List.length ytest)).
    - now symmetry.
    - apply seq_NoDup. }
  split; [|split].
  - rewrite <- (firstn_skipn (Z.to_nat quota) r) in Hn.
    now apply NoDup_app_remove_r in Hn.
  - intros i Hi.
    assert (Hr : In i r).
    { rewrite <- (firstn_skipn (Z.to_nat quota) r). apply in_or_app. now left. }
    apply (Permutation_in _ Hp) in Hr. rename Hr into Hi'.
    clear Hi. rename Hi' into Hi. apply in_seq in Hi. lia.
  - rewrite length_firstn, (Permutation_length Hp), length_seq. reflexivity.
Qed.

Lemma filter_split_length (B : Type) (f : B -> bool) (l : list B) :
  (List.length (filter f l) + List.length (filter (fun x => negb (f x)) l)
   = List.length l)%nat.
Proof.
  induction l as [|x t IH]; cbn; [reflexivity|].
  destruct (f x); cbn; lia.
Qed.

Lemma filter_fst_combine (B : Type) (f : nat -> bool) (l : list B) :
  forall a,
    List.length (filter (fun p => f (fst p)) (combine (seq a (List.length l)) l))
    = List.length (filter f (seq a (List.length l))).
Proof.
  induction l as [|x t IH]; intros a; cbn; [reflexivity|].
  destruct (f a); cbn; now rewrite IH.
Qed.

Lemma chosen_length (idx : list nat) (n : nat) :
  NoDup idx -> (forall i, In i idx -> (i < n)%nat) ->
  List.length (filter (fun i => existsb (Nat.eqb i) idx) (seq 0 n))
  = List.length idx.
Proof.
  intros Hn Hlt. apply Permutation_length. apply NoDup_Permutation.
  - apply NoDup_filter, seq_NoDup.
  - assumption.
  - intros i. rewrite filter_In, in_seq, existsb_exists. split.
    + intros (_ & j & Hj & E). apply Nat.eqb_eq in E. now subst.
    + intros Hi. split; [specialize (Hlt _ Hi); lia|].
      exists i. split; [assumption|apply Nat.eqb_refl].
Qed.

Lemma delete_at_length (B : Type) (l : list B) (idx : list nat) :
  NoDup idx -> (forall i, In i idx -> (i < List.length l)%nat) ->
  List.length (delete_at l idx) = (List.length l - List.length idx)%nat.
Proof.
  intros Hn Hlt. unfold delete_at. rewrite length_map.
  rewrite (filter_fst_combine (fun i => negb (existsb (Nat.eqb i) idx)) l 0).
  pose proof (filter_split_length (fun i => existsb (Nat.eqb i) idx)
                (seq 0 (List.length l))) as H.
  rewrite (chosen_length Hn Hlt), length_seq in H. lia.
Qed.

Variable A : Type.

Lemma migrate_top_ytest (quota : Z) (scores : tensor) (Xtrain : list A)
    (ytrain : tensor) (Xtest : list A) (ytest : tensor) (Xval : list A)
    (yval : tensor) :
  List.length
    (sel_ytest (migrate (top quota scores ytest)
                  Xtrain ytrain Xtest ytest Xval yval))
  = (List.length ytest - Z.to_nat quota)%nat.
Proof.
  destruct (top_spec quota scores ytest) as (Hn & Hlt & Hlen).
  cbn [migrate sel_ytest]. rewrite (delete_at_length _ Hn Hlt), Hlen. lia.
Qed.

End SelectionFacts.


(** ** The active-learning loops *)

Lemma fit_cycles_app (l1 l2 : list event) :
  fit_cycles (l1 ++ l2) = fit_cycles l1 ++ fit_cycles l2.
Proof. apply flat_map_app. Qed.

Lemma select_cycles_app (l1 l2 : list event) :
  select_cycles (l1 ++ l2) = select_cycles l1 ++ select_cycles l2.
Proof. apply flat_map_app. Qed.

Lemma for_each_cycles (max_query : Z) (S : Type)
    (body : Z -> S -> list event * result S) :
  logs_one_cycle max_query body ->
  forall cycles s,
    Forall (fun i => i < max_query) (select_cycles (fst (for_each body cycles s))) /\
    (is_ok (snd (for_each body cycles s)) = true ->
     fit_cycles (fst (for_each body cycles s)) = cycles /\
     select_cycles (fst (for_each body cycles s))
       = filter (fun i => i <? max_query) cycles).
Proof.
  intros Hbody. induction cycles as [|i rest IH]; intros s.
  - cbn. auto.
  - cbn [for_each]. destruct (Hbody i s) as (Hfit & Hsel & Hok).
    destruct (body i s) as [ev [s'|e]]; cbn [fst snd] in *.
    + destruct (IH s') as [IH1 IH2].
      rewrite fit_cycles_app, select_cycles_app. split.
      * apply Forall_app. split; [|exact IH1].
        destruct Hsel as [-> | [-> Hlt]]; auto.
      * intros Hr. destruct (IH2 Hr) as [-> ->].
        rewrite Hfit, (Hok eq_refl). cbn [filter app].
        split; [reflexivity|]. destruct (i <? max_query); reflexivity.
    + split; [|discriminate].
      destruct Hsel as [-> | [-> Hlt]]; auto.
Qed.

Lemma completed_cycles (max_query : Z) (S : Type)
    (body : Z -> S -> list event * result S) :
  logs_one_cycle max_query body ->
  forall cycles s log s',
    for_each body cycles s = (log, Ok s') ->
    fit_cycles log = cycles /\
    select_cycles log = filter (fun i => i <? max_query) cycles.
Proof.
  intros Hbody cycles s log s' H.
  destruct (for_each_cycles Hbody cycles s) as [_ Hc].
  rewrite H in Hc. now apply Hc.
Qed.

Lemma filter_range (m : Z) :
  0 <= m ->
  filter (fun i => i <? m) (py_range (m + 1)) = py_range m.
Proof.
  intros Hm. unfold py_range.
  replace (Z.to_nat (m + 1)) with (Z.to_nat m + 1)%nat by lia.
  rewrite seq_app, map_app, filter_app. cbn [seq map filter Nat.add].
  rewrite Z2Nat.id by assumption.
  rewrite Z.ltb_irrefl, app_nil_r.
  apply forallb_filter_id. apply forallb_forall.
  intros x Hx. apply in_map_iff in Hx. destruct Hx as (k & <- & Hk).
  apply in_seq in Hk. apply Z.ltb_lt. lia.
Qed.

Lemma py_int_raises (f : float) (e : exn) :
  py_int f = Raise e -> forall msg, e <> AssertionError msg.
Proof.
  unfold py_int. destruct (Prim2SF f); intros [= <-]; discriminate.
Qed.

Lemma adequate_test_set_ok (query max_query : Z) (stop : float) (ytest : tensor) :
  adequate_test_set query max_query stop ytest = Ok tt <->
  exists t, stop_threshold stop ytest = Ok t /\ query * max_query < t.
Proof.
  unfold adequate_test_set.
  destruct (stop_threshold stop ytest) as [t|e]; cbn [bind]; unfold py_assert.
  - destruct (Z.ltb_spec (query * max_query) t); split.
    + eauto.
    + reflexivity.
    + discriminate.
    + intros (t' & [= <-] & H'). lia.
  - split; [discriminate|]. intros (t & E & _). discriminate.
Qed.

Lemma adequate_test_set_rejects (query max_query : Z) (stop : float)
    (ytest : tensor) :
  (exists msg, adequate_test_set query max_query stop ytest
               = Raise (AssertionError msg)) <->
  exists t, stop_threshold stop ytest = Ok t /\ t <= query * max_query.
Proof.
  unfold adequate_test_set.
  destruct (stop_threshold stop ytest) as [t|e] eqn:E; cbn [bind];
    unfold py_assert.
  - destruct (Z.ltb_spec (query * max_query) t); split.
    + intros (msg & H'). discriminate.
    + intros (t' & [= <-] & H'). lia.
    + eauto.
    + eauto.
  - split.
    + intros (msg & [= ->]). unfold stop_threshold in E.
      now apply py_int_raises with (msg := msg) in E.
    + intros (t & E' & _). discriminate.
Qed.

Lemma raise_is_logged (max_query : Z) (St : Type)
    (body : Z -> St -> list event * result St) :
  logs_one_cycle max_query body ->
  forall cycles s e, for_each body cycles s <> ([], Raise e).
Proof.
  intros Hbody. induction cycles as [|i rest IH]; intros s e; cbn [for_each].
  - discriminate.
  - destruct (Hbody i s) as (Hfit & _).
    destruct (body i s) as [[|ev0 ev] [s'|e']]; cbn [fst] in Hfit;
      try discriminate.
Qed.

Lemma shrinks_holds (query max_query : Z) (ytest0 : tensor) (t : Z) (e : event) :
  0 <= query -> query * max_query < t ->
  test_set_shrinks (Z.to_nat query) max_query (List.length ytest0) e ->
  test_set_holds query ytest0 t e.
Proof.
  intros Hq Ht. destruct e as [i call out|]; cbn; [|auto].
  intros [Hi Hlen]. unfold len. rewrite Hlen.
  assert (Hprod : i * query <= query * max_query) by nia.
  assert (Hnat : Z.of_nat (Z.to_nat i * Z.to_nat query) = i * query) by nia.
  lia.
Qed.

Lemma fraction_of_not_nil (a : Args) : fraction_of a <> [].
Proof.
  unfold fraction_of, py_or. destruct (frac a) as [[|f l]|]; cbn; discriminate.
Qed.

Section DriverFacts.
Context {TF : TensorFlow} {C : Collaborators}.

Lemma reshape_some (nd : Z) (x : ndarray) (l : latent) :
  adam.reshape nd x = Some l -> (nd = 2 \/ nd = 3) /\ l = with_newaxes nd x.
Proof.
  unfold adam.reshape, with_newaxes.
  destruct (Z.eqb_spec nd 2) as [->|H2].
  - intros [= <-]. auto.
  - destruct (Z.eqb_spec nd 3) as [->|H3]; [|discriminate].
    intros [= <-]. auto.
Qed.

(** With no iterations asked for, a call of [active] that returns gives
    back the hyperparameters it was given and the posterior under them. *)
Lemma active_fixed (datadir prop : string)
    (tsne_train tsne_val tsne_test : ndarray)
    (ytrain yval ytest : tensor) (maxiters : Z)
    (amp length_scale rate : R) (r : adam.active_return) :
  maxiters <= 0 ->
  adam.active datadir prop tsne_train tsne_val tsne_test ytrain yval ytest
    maxiters amp length_scale rate = Ok r ->
  let nd := shape1 tsne_train in
  let prior := GaussianProcessRegressionModel nd amp length_scale
                 (with_newaxes nd tsne_test) (with_newaxes nd tsne_train)
                 ytrain in
  r = adam.mk_active None None None amp length_scale
        (mean prior) (stddev prior) (variance prior) None
        (MAE ytest (mean prior)) (MSE ytest (mean prior))
        (std_abs (mean prior) ytest) (pearsonr ytest (mean prior)).
Proof.
  intros Hm. unfold adam.active. rewrite (leb_nonpos Hm).
  destruct (adam.reshape (shape1 tsne_train) tsne_test) as [lt|] eqn:Et;
    [|discriminate].
  destruct (adam.reshape (shape1 tsne_train) tsne_train) as [ltr|] eqn:Etr;
    [|discriminate].
  apply reshape_some in Et, Etr. destruct Et as [_ ->], Etr as [_ ->].
  intros [= <-]. reflexivity.
Qed.

Lemma active_completes (datadir prop : string)
    (tsne_train tsne_val tsne_test : ndarray)
    (ytrain yval ytest : tensor) (maxiters : Z)
    (amp length_scale rate : R) :
  shape1 tsne_train = 2 \/ shape1 tsne_train = 3 ->
  exists r,
    adam.active datadir prop tsne_train tsne_val tsne_test ytrain yval ytest
      maxiters amp length_scale rate = Ok r.
Proof.
  intros Hdim. unfold adam.active.
  rewrite !(reshape_supported _ Hdim).
  destruct (Z.leb_spec maxiters 0) as [Hm|Hm]; [eauto|].
  destruct (optimise_ok (shape1 tsne_train)
              (with_newaxes (shape1 tsne_train) tsne_train) ytrain
              (with_newaxes (shape1 tsne_train) tsne_val) yval
              maxiters amp length_scale rate) as (s & -> & Hr & _).
  assert (Hn : (0 < Z.to_nat maxiters)%nat) by lia.
  destruct (best_iterate_exists Hn Hr)
    as (a & l & mse & sae & _ & Ea & El & _ & _ & Emin).
  cbn [bind].
  rewrite (getitem_nth_error _ _ Ea), (getitem_nth_error _ _ El).
  cbn [bind]. rewrite Emin. cbn [bind]. eauto.
Qed.

Lemma norepeat_logs_one_cycle (datadir prop samp : string)
    (query max_query : Z) (latent_val : ndarray) (yval : tensor) (rate : R) :
  logs_one_cycle max_query
    (norepeat_cycle datadir prop samp query max_query latent_val yval rate).
Proof.
  intros i s. unfold norepeat_cycle.
  destruct (adam.active _ _ _ _ _ _ _ _ _ _ _ _) as [r|e]; cbn [fst snd].
  - destruct (Z.ltb_spec i max_query) as [Hlt|Hge].
    + destruct (String.eqb samp "entropy"); cbn; [auto|].
      destruct (String.eqb samp "random"); cbn; auto.
      repeat split; auto. discriminate.
    + cbn. auto.
  - cbn. repeat split; auto. discriminate.
Qed.

Lemma repeat_logs_one_cycle (a : Args) (prop : string) (maxiters : Z)
    (rate : R) (Xfull Xval : list structure) (yval : tensor) :
  samp_of a = "entropy" \/ samp_of a = "random" ->
  logs_one_cycle (snd (cycle_of a))
    (repeat_cycle a prop maxiters rate Xfull Xval yval).
Proof.
  intros Hsamp i s. unfold repeat_cycle. cbv zeta.
  destruct (adam.active _ _ _ _ _ _ _ _ _ _ _ _) as [r|e]; cbn [fst snd].
  - destruct (Z.ltb_spec i (snd (cycle_of a))) as [Hlt|Hge].
    + destruct Hsamp as [-> | ->]; cbn; auto.
    + cbn. auto.
  - cbn. repeat split; auto. discriminate.
Qed.

Lemma repeat_cycle_shrinks (a : Args) (prop : string) (maxiters : Z)
    (rate : R) (Xfull Xval : list structure) (yval : tensor) (n0 : nat)
    (i : Z) (s : repeat_state) :
  samp_of a = "entropy" \/ samp_of a = "random" ->
  0 <= i < snd (cycle_of a) + 1 ->
  (i <= snd (cycle_of a) ->
   List.length (rp_ytest s) = (n0 - Z.to_nat i * Z.to_nat (fst (cycle_of a)))%nat) ->
  Forall (test_set_shrinks (Z.to_nat (fst (cycle_of a))) (snd (cycle_of a)) n0)
    (fst (repeat_cycle a prop maxiters rate Xfull Xval yval i s)) /\
  forall s',
    snd (repeat_cycle a prop maxiters rate Xfull Xval yval i s) = Ok s' ->
    i + 1 <= snd (cycle_of a) ->
    List.length (rp_ytest s')
    = (n0 - Z.to_nat (i + 1) * Z.to_nat (fst (cycle_of a)))%nat.
Proof.
  intros Hsamp Hi Hlen. specialize (Hlen ltac:(lia)).
  assert (Hstep : (n0 - Z.to_nat i * Z.to_nat (fst (cycle_of a))
                   - Z.to_nat (fst (cycle_of a))
                   = n0 - Z.to_nat (i + 1) * Z.to_nat (fst (cycle_of a)))%nat).
  { replace (Z.to_nat (i + 1)) with (S (Z.to_nat i)) by lia.
    rewrite Nat.mul_succ_l. lia. }
  unfold repeat_cycle. cbv zeta.
  destruct (adam.active _ _ _ _ _ _ _ _ _ _ _ _) as [r|e]; cbn [fst snd].
  - destruct (Z.ltb_spec i (snd (cycle_of a))) as [Hlt|Hge].
    + destruct Hsamp as [-> | ->]; cbn [String.eqb Ascii.eqb Bool.eqb fst snd];
        (split;
         [constructor; [cbn; split; [lia|exact Hlen]|];
          constructor; [exact I|constructor]
         |intros s' [= <-] _; cbn [repeat_migrated rp_ytest];
          unfold selection_fn.EntropySelection, selection_fn.RandomSelection;
          rewrite migrate_top_ytest, Hlen; exact Hstep]).
    + split.
      * constructor; [cbn; split; [lia|exact Hlen]|constructor].
      * intros s' _ H'. lia.
  - split; [|discriminate].
    constructor; [cbn; split; [lia|exact Hlen]|constructor].
Qed.

Lemma norepeat_cycle_shrinks (datadir prop samp : string) (query max_query : Z)
    (latent_val : ndarray) (yval : tensor) (rate : R) (n0 : nat)
    (i : Z) (s : norepeat_state) :
  0 <= i < max_query + 1 ->
  (i <= max_query ->
   List.length (nr_ytest s) = (n0 - Z.to_nat i * Z.to_nat query)%nat) ->
  Forall (test_set_shrinks (Z.to_nat query) max_query n0)
    (fst (norepeat_cycle datadir prop samp query max_query latent_val yval
            rate i s)) /\
  forall s',
    snd (norepeat_cycle datadir prop samp query max_query latent_val yval
           rate i s) = Ok s' ->
    i + 1 <= max_query ->
    List.length (nr_ytest s') = (n0 - Z.to_nat (i + 1) * Z.to_nat query)%nat.
Proof.
  intros Hi Hlen. specialize (Hlen ltac:(lia)).
  assert (Hstep : (n0 - Z.to_nat i * Z.to_nat query - Z.to_nat query
                   = n0 - Z.to_nat (i + 1) * Z.to_nat query)%nat).
  { replace (Z.to_nat (i + 1)) with (S (Z.to_nat i)) by lia.
    rewrite Nat.mul_succ_l. lia. }
  unfold norepeat_cycle. cbv zeta.
  destruct (adam.active _ _ _ _ _ _ _ _ _ _ _ _) as [r|e]; cbn [fst snd].
  - destruct (Z.ltb_spec i max_query) as [Hlt|Hge].
    + destruct (String.eqb samp "entropy"); cbn [fst snd].
      { split.
        - constructor; [cbn; split; [lia|exact Hlen]|].
          constructor; [exact I|constructor].
        - intros s' [= <-] _. cbn [norepeat_migrated nr_ytest].
          unfold selection_fn.EntropySelection.
          rewrite migrate_top_ytest. cbn [nr_ytest]. rewrite Hlen. exact Hstep. }
      destruct (String.eqb samp "random"); cbn [fst snd].
      { split.
        - constructor; [cbn; split; [lia|exact Hlen]|].
          constructor; [exact I|constructor].
        - intros s' [= <-] _. cbn [norepeat_migrated nr_ytest].
          unfold selection_fn.RandomSelection.
          rewrite migrate_top_ytest. cbn [nr_ytest]. rewrite Hlen. exact Hstep. }
      split; [|discriminate].
      constructor; [cbn; split; [lia|exact Hlen]|constructor].
    + split.
      * constructor; [cbn; split; [lia|exact Hlen]|constructor].
      * intros s' _ H'. lia.
  - split; [|discriminate].
    constructor; [cbn; split; [lia|exact Hlen]|constructor].
Qed.

Lemma repeat_loop_shrinks (a : Args) (prop : string) (maxiters : Z)
    (rate : R) (Xfull Xval : list structure) (yval : tensor)
    (s : repeat_state) :
  samp_of a = "entropy" \/ samp_of a = "random" ->
  Forall (test_set_shrinks (Z.to_nat (fst (cycle_of a))) (snd (cycle_of a))
            (List.length (rp_ytest s)))
    (fst (for_each (repeat_cycle a prop maxiters rate Xfull Xval yval)
            (py_range (snd (cycle_of a) + 1)) s)).
Proof.
  intros Hsamp. unfold py_range.
  apply for_each_invariant
    with (I := fun i s' =>
                 i <= snd (cycle_of a) ->
                 List.length (rp_ytest s')
                 = (List.length (rp_ytest s)
                    - Z.to_nat i * Z.to_nat (fst (cycle_of a)))%nat).
  - intros i s0 Hi HI. apply repeat_cycle_shrinks; [assumption|lia|assumption].
  - intros _. cbn. lia.
Qed.

Lemma norepeat_loop_shrinks (datadir prop samp : string) (query max_query : Z)
    (latent_val : ndarray) (yval : tensor) (rate : R) (s : norepeat_state) :
  Forall (test_set_shrinks (Z.to_nat query) max_query
            (List.length (nr_ytest s)))
    (fst (for_each (norepeat_cycle datadir prop samp query max_query
                      latent_val yval rate)
            (py_range (max_query + 1)) s)).
Proof.
  unfold py_range.
  apply for_each_invariant
    with (I := fun i s' =>
                 i <= max_query ->
                 List.length (nr_ytest s')
                 = (List.length (nr_ytest s)
                    - Z.to_nat i * Z.to_nat query)%nat).
  - intros i s0 Hi HI. apply norepeat_cycle_shrinks; [lia|assumption].
  - intros _. cbn. lia.
Qed.

Lemma norepeat_loop_completes (datadir prop samp : string)
    (query max_query : Z) (latent_val : ndarray) (yval : tensor) (rate : R) :
  samp = "entropy" \/ samp = "random" ->
  forall cycles s,
    shape1 (nr_latent_train s) = 2 \/ shape1 (nr_latent_train s) = 3 ->
    exists log s',
      for_each (norepeat_cycle datadir prop samp query max_query
                  latent_val yval rate) cycles s = (log, Ok s').
Proof.
  intros Hsamp. induction cycles as [|i rest IH]; intros s Hdim.
  - cbn. eauto.
  - cbn [for_each]. unfold norepeat_cycle at 1. cbv zeta.
    destruct (active_completes datadir prop (nr_latent_train s) latent_val
                (nr_latent_test s) (nr_ytrain s) yval (nr_ytest s)
                (if i =? 0 then nr_maxiters s else 0)
                (nr_amp s) (nr_length_scale s) rate Hdim) as (r & ->).
    destruct (i <? max_query).
    + destruct Hsamp as [-> | ->]; cbn [String.eqb Ascii.eqb Bool.eqb].
      * match goal with |- context [for_each ?b rest ?s1] =>
          destruct (IH s1 Hdim) as (log & s' & ->) end.
        cbn [fst snd]. eauto.
      * match goal with |- context [for_each ?b rest ?s1] =>
          destruct (IH s1 Hdim) as (log & s' & ->) end.
        cbn [fst snd]. eauto.
    + match goal with |- context [for_each ?b rest ?s1] =>
        destruct (IH s1 Hdim) as (log & s' & ->) end.
      cbn [fst snd]. eauto.
Qed.

End DriverFacts.

Section NoRepeatFacts.
Context {TF : TensorFlow} {C : Collaborators}.

Variables (datadir prop samp : string) (query max_query : Z)
          (latent_val : ndarray) (yval : tensor) (rate : R).

Local Abbreviation body :=
  (norepeat_cycle datadir prop samp query max_query latent_val yval rate).




End NoRepeatFacts.

(** The toy no-repeat run of three cycles completes. *)

Lemma toy_norepeat_completes :
  exists log s,
    main_norepeat (TF := toy.tensorflow) (C := toy.collaborators)
      toy.args_norepeat "gap" 3 1 1 1 tt toy.Xfull toy.yfull = (log, Ok s).
Proof.
  unfold main_norepeat.
  change (fraction_of toy.args_norepeat) with [0.5%float].
  replace (adequate_test_set (fst (cycle_of toy.args_norepeat))
             (snd (cycle_of toy.args_norepeat)) (stop_of toy.args_norepeat)
             (slice_from toy.yfull (quan_of toy.args_norepeat)))
    with (Ok tt) by reflexivity.
  replace (val_boundary_of
             (List.length (slice_to (A := @structure toy.collaborators)
                             toy.Xfull (quan_of toy.args_norepeat)))
             0.5%float)
    with (Ok 2) by reflexivity.
  apply norepeat_loop_completes.
  - left; reflexivity.
  - left; reflexivity.
Qed.

Lemma toy_threshold :
  stop_threshold (stop_of toy.args_repeat)
    (ri_ytest (C := toy.collaborators) toy.input_repeat) = Ok 3.
Proof. reflexivity. Qed.

(** C4.  In the no-repeat loop the fit of cycle 0 is called with the
    requested number of iterations and the hyperparameters the loop was
    entered with; every fit of a later cycle is called with [maxiters = 0]
    and with the amplitude and length scale that the fit of cycle 0
    returned, which it returns unchanged together with the posterior
    evaluated under them. *)



(** C5, as amended.  With a valid sampling policy and a non-negative quota,
    either loop is rejected by the assertion before its first cycle, with
    nothing done, exactly when
    [quota * max_cycles >= int(stop * len(test))], the product truncated
    toward zero.  When the check passes, the fit of cycle [i] sees a test
    partition of [len(test) - i * quota] points (selection modelled from
    the spec), more than [len(test)] less the threshold, so the partition
    is never empty while the threshold does not exceed [len(test)]. *)

Theorem test_set_check_truncates_the_threshold
    (TF : TensorFlow) (C : Collaborators) (a : Args) (prop : string)
    (maxiters : Z) (amp length_scale rate : R) :
  let query := fst (cycle_of a) in
  let max_query := snd (cycle_of a) in
  samp_of a = "entropy" \/ samp_of a = "random" ->
  0 <= query ->
  (forall d,
      let run := main_repeat a prop maxiters amp length_scale rate d in
      (rejected run <->
       exists t, stop_threshold (stop_of a) (ri_ytest d) = Ok t /\
                 t <= query * max_query) /\
      (forall t,
          stop_threshold (stop_of a) (ri_ytest d) = Ok t ->
          query * max_query < t ->
          Forall (test_set_holds query (ri_ytest d) t) (fst run))) /\
  (forall model Xfull yfull,
      let ytest := slice_from yfull (quan_of a) in
      let run := main_norepeat a prop maxiters amp length_scale rate
                   model Xfull yfull in
      (rejected run <->
       exists t, stop_threshold (stop_of a) ytest = Ok t /\
                 t <= query * max_query) /\
      (forall t,
          stop_threshold (stop_of a) ytest = Ok t ->
          query * max_query < t ->
          Forall (test_set_holds query ytest t) (fst run))).
Proof.
  intros query max_query Hsamp Hq. split.
  - intros d run. subst run. unfold main_repeat. fold query max_query.
    destruct (adequate_test_set query max_query (stop_of a) (ri_ytest d))
      as [[]|e] eqn:E.
    + split.
      * split.
        -- intros (msg & H). exfalso. revert H.
           apply (raise_is_logged (repeat_logs_one_cycle a prop maxiters rate
                    (ri_Xfull d) (ri_Xval d) (ri_yval d) Hsamp)).
        -- intros (t & Et & Hle). apply adequate_test_set_ok in E.
           destruct E as (t' & Et' & Hlt).
           assert (Heq : t = t') by congruence. lia.
      * intros t Et Hlt. eapply Forall_impl.
        -- intros e. apply shrinks_holds; eassumption.
        -- apply (repeat_loop_shrinks a prop maxiters rate (ri_Xfull d)
                    (ri_Xval d) (ri_yval d)
                    (mk_repeat (ri_Xpool d) (ri_ypool d) (ri_Xtrain d)
                       (ri_ytrain d) (ri_Xtest d) (ri_ytest d) (ri_model d)
                       amp length_scale [] [] [] [] []) Hsamp).
    + split; [|intros; constructor].
      rewrite <- (adequate_test_set_rejects query max_query (stop_of a)
                    (ri_ytest d)), E.
      split; intros (msg & H); exists msg; congruence.
  - intros model Xfull yfull ytest run. subst run. unfold main_norepeat.
    fold query max_query ytest.
    destruct (fraction_of a) as [|val_frac fs] eqn:Ef;
      [now apply fraction_of_not_nil in Ef|].
    destruct (adequate_test_set query max_query (stop_of a) ytest)
      as [[]|e] eqn:E.
    + assert (Hno : ~ exists t, stop_threshold (stop_of a) ytest = Ok t /\
                                t <= query * max_query).
      { intros (t & Et & Hle). apply adequate_test_set_ok in E.
        destruct E as (t' & Et' & Hlt).
        assert (Heq : t = t') by congruence. lia. }
      destruct (val_boundary_of _ val_frac) as [val_boundary|e] eqn:Eb.
      * split.
        -- split; [|intros H; now apply Hno in H].
           intros (msg & H). exfalso. revert H.
           apply (raise_is_logged (norepeat_logs_one_cycle _ _ _ _ _ _ _ _)).
        -- intros t Et Hlt. eapply Forall_impl.
           ++ intros e. apply shrinks_holds; eassumption.
           ++ match goal with
              | |- context [for_each (norepeat_cycle ?dd ?pp ?sm ?q ?mq ?lv ?yv ?rt)
                              _ ?s] =>
                  apply (norepeat_loop_shrinks dd pp sm q mq lv yv rt s)
              end.
      * split; [|intros; constructor].
        split; [|intros H; now apply Hno in H].
        intros (msg & [= ->]). unfold val_boundary_of in Eb.
        now apply py_int_raises with (msg := msg) in Eb.
    + split; [|intros; constructor].
      rewrite <- (adequate_test_set_rejects query max_query (stop_of a) ytest), E.
      split; intros (msg & H); exists msg; congruence.
Qed.



Lemma test_set_check_witness :
  (samp_of toy.args_repeat = "entropy" \/ samp_of toy.args_repeat = "random") /\
  0 <= fst (cycle_of toy.args_repeat) /\
  ~ rejected (main_repeat (TF := toy.tensorflow) (C := toy.collaborators)
                toy.args_repeat "gap" 3 1 1 1 toy.input_repeat) /\
  Forall (test_set_holds 1 (ri_ytest (C := toy.collaborators) toy.input_repeat) 3)
    (fst (main_repeat (TF := toy.tensorflow) (C := toy.collaborators)
            toy.args_repeat "gap" 3 1 1 1 toy.input_repeat)).
Proof.
  assert (Hs : samp_of toy.args_repeat = "entropy" \/
               samp_of toy.args_repeat = "random") by (left; reflexivity).
  assert (Hq : 0 <= fst (cycle_of toy.args_repeat)) by (cbn; lia).
  split; [exact Hs|]. split; [exact Hq|].
  destruct (proj1 (@test_set_check_truncates_the_threshold
                     toy.tensorflow toy.collaborators toy.args_repeat
                     "gap" 3 1%R 1%R 1%R Hs Hq) toy.input_repeat)
    as [Hrej Hsize].
  split.
  - intros H. apply Hrej in H. destruct H as (t & Et & Ht).
    rewrite toy_threshold in Et. injection Et as <-. cbn in Ht. lia.
  - apply (Hsize 3 toy_threshold). cbn. lia.
Defined.

(** C5 fails as stated: with [quota = 1], [max_cycles = 1], [stop = 0.5]
    and a test set of three, [quota * max_cycles >= stop * len(test)] is
    false, yet the run is rejected, because [int(1.5)] is 1. *)

Lemma truncation_rejects_a_sufficient_test_set :
  rejected (main_repeat (TF := toy.tensorflow) (C := toy.collaborators)
              toy.args_stop "gap" 3 1 1 1 toy.input_stop) /\
  PrimFloat.leb
    (stop_of toy.args_stop
     * float_of_Z (len (ri_ytest (C := toy.collaborators) toy.input_stop)))
    (float_of_Z (fst (cycle_of toy.args_stop) * snd (cycle_of toy.args_stop)))
  = false.
Proof.
  split; [|reflexivity].
  eexists. unfold main_repeat.
  replace (adequate_test_set (fst (cycle_of toy.args_stop))
             (snd (cycle_of toy.args_stop)) (stop_of toy.args_stop)
             (ri_ytest (C := toy.collaborators) toy.input_stop))
    with (Raise (A := unit) (AssertionError
            "Test set size should be at least stop% the dataset after active learning. Reduce stop and/or cycle parameters!"))
    by reflexivity.
  reflexivity.
Qed.


(** C6.  With a valid sampling policy and [max_cycles >= 0], every run of
    either loop that completes has fitted exactly at the cycles
    [0 .. max_cycles], once each and in order, and migrated samples exactly
    at the cycles [0 .. max_cycles - 1]; in any run, completed or not, a
    migration only happens at a cycle [i < max_cycles].  For
    [max_cycles = 0] this is one fit and no migration. *)

Theorem active_learning_runs_every_cycle_once
    (TF : TensorFlow) (C : Collaborators) (a : Args) (prop : string)
    (maxiters : Z) (amp length_scale rate : R) :
  let max_query := snd (cycle_of a) in
  0 <= max_query ->
  samp_of a = "entropy" \/ samp_of a = "random" ->
  (forall d log s,
      main_repeat a prop maxiters amp length_scale rate d = (log, Ok s) ->
      fit_cycles log = py_range (max_query + 1) /\
      select_cycles log = py_range max_query) /\
  (forall model Xfull yfull log s,
      main_norepeat a prop maxiters amp length_scale rate model Xfull yfull
        = (log, Ok s) ->
      fit_cycles log = py_range (max_query + 1) /\
      select_cycles log = py_range max_query) /\
  (forall d,
      Forall (fun i => i < max_query)
        (select_cycles
           (fst (main_repeat a prop maxiters amp length_scale rate d)))) /\
  (forall model Xfull yfull,
      Forall (fun i => i < max_query)
        (select_cycles
           (fst (main_norepeat a prop maxiters amp length_scale rate
                   model Xfull yfull)))).
Proof.
  intros max_query Hm Hsamp.
  assert (Hrep : forall d log s,
             main_repeat a prop maxiters amp length_scale rate d = (log, Ok s) ->
             fit_cycles log = py_range (max_query + 1) /\
             select_cycles log = py_range max_query).
  { intros d log s H. unfold main_repeat in H. fold max_query in H.
    destruct (adequate_test_set _ _ _ _); [|discriminate].
    apply (completed_cycles (repeat_logs_one_cycle a prop maxiters rate
             (ri_Xfull d) (ri_Xval d) (ri_yval d) Hsamp)) in H.
    fold max_query in H. rewrite filter_range in H by assumption. exact H. }
  assert (Hnor : forall model Xfull yfull log s,
             main_norepeat a prop maxiters amp length_scale rate
               model Xfull yfull = (log, Ok s) ->
             fit_cycles log = py_range (max_query + 1) /\
             select_cycles log = py_range max_query).
  { intros model Xfull yfull log s H.
    unfold main_norepeat in H. fold max_query in H.
    destruct (fraction_of a); [discriminate|].
    destruct (adequate_test_set _ _ _ _); [|discriminate].
    destruct (val_boundary_of _ _); [|discriminate].
    apply (completed_cycles (norepeat_logs_one_cycle _ _ _ _ _ _ _ _)) in H.
    rewrite filter_range in H by assumption. exact H. }
  split; [exact Hrep|]. split; [exact Hnor|]. split.
  - intros d. unfold main_repeat. fold max_query.
    destruct (adequate_test_set _ _ _ _); [|constructor].
    apply for_each_cycles. now apply repeat_logs_one_cycle.
  - intros model Xfull yfull. unfold main_norepeat. fold max_query.
    destruct (fraction_of a); [constructor|].
    destruct (adequate_test_set _ _ _ _); [|constructor].
    destruct (val_boundary_of _ _); [|constructor].
    apply for_each_cycles. apply norepeat_logs_one_cycle.
Qed.



Lemma active_learning_runs_three_cycles :
  0 <= snd (cycle_of toy.args_norepeat) /\
  (samp_of toy.args_norepeat = "entropy" \/
   samp_of toy.args_norepeat = "random") /\
  exists log s,
    main_norepeat (TF := toy.tensorflow) (C := toy.collaborators)
      toy.args_norepeat "gap" 3 1 1 1 tt toy.Xfull toy.yfull = (log, Ok s) /\
    fit_cycles log = [0; 1; 2] /\ select_cycles log = [0; 1].
Proof.
  assert (Hm : 0 <= snd (cycle_of toy.args_norepeat)) by (cbn; lia).
  assert (Hs : samp_of toy.args_norepeat = "entropy" \/
               samp_of toy.args_norepeat = "random") by (left; reflexivity).
  split; [exact Hm|]. split; [exact Hs|].
  destruct toy_norepeat_completes as (log & s & E).
  exists log, s. split; [exact E|].
  exact (proj1 (proj2 (@active_learning_runs_every_cycle_once
                         toy.tensorflow toy.collaborators toy.args_norepeat
                         "gap" 3 1%R 1%R 1%R Hm Hs))
           tt toy.Xfull toy.yfull log s E).
Defined.


(** ** The argument checks and the initial split *)

(** C8.  The check of [-frac] lets a fraction outside (0,1) through: with
    [-noactive -frac 1.0 1e-20] the sum rounds to 1 and only the second
    fraction is compared with 0 and 1, so the checks pass although the
    first fraction is 1; the same test in the repeat branch passes
    [-frac -0.5 0.5]. *)

Theorem fraction_check_accepts_one :
  in_unit_interval 1.0%float = false /\
  main_checks toy.args_frac = Ok (Iters 0) /\
  in_unit_interval (-0.5)%float = false /\
  main_checks toy.args_frac_repeat = Ok (Iters 0).
Proof. vm_compute. repeat split. Qed.


(** C10.  In the initial split of the no-repeat variant, when
    [int(len(pool) * val_frac)] is 0 the training set is empty and the
    validation set is the whole pool; for every boundary the two slices
    are a prefix of the pool and the rest of it, so they are disjoint and
    their sizes add up to the size of the pool, and a boundary between 1
    and the size of the pool is the size of the validation set. *)

Theorem initial_split_partitions_the_pool
    (A : Type) (pool : list A) (val_frac : float) (val_boundary : Z) :
  val_boundary_of (List.length pool) val_frac = Ok val_boundary ->
  let train := fst (split_at_boundary pool val_boundary) in
  let val := snd (split_at_boundary pool val_boundary) in
  (val_boundary = 0 -> train = [] /\ val = pool) /\
  (exists k, train = firstn k pool /\ val = skipn k pool) /\
  train ++ val = pool /\
  (List.length train + List.length val = List.length pool)%nat /\
  (0 < val_boundary <= len pool -> len val = val_boundary).
Proof.
  intros _ train val. subst train val. unfold split_at_boundary. cbn [fst snd].
  split; [|split; [|split; [|split]]].
  - intros ->. cbn. unfold slice_to, slice_from, slice_bound. cbn. auto.
  - exists (slice_bound (List.length pool) (- val_boundary)). auto.
  - apply slices_partition.
  - rewrite <- length_app, slices_partition. reflexivity.
  - intros H. unfold slice_from, slice_bound, len in *. rewrite length_skipn.
    destruct (- val_boundary <? 0) eqn:E; lia.
Qed.

Lemma initial_split_witness :
  val_boundary_of (List.length [1; 2; 3; 4; 5]) 0.1%float = Ok 0 /\
  fst (split_at_boundary [1; 2; 3; 4; 5] 0) = [] /\
  snd (split_at_boundary [1; 2; 3; 4; 5] 0) = [1; 2; 3; 4; 5].
Proof.
  assert (H : val_boundary_of (List.length [1; 2; 3; 4; 5]) 0.1%float = Ok 0)
    by (vm_compute; reflexivity).
  split; [exact H|].
  apply (@initial_split_partitions_the_pool Z [1; 2; 3; 4; 5] 0.1%float 0 H).
  reflexivity.
Defined.

(** * Further properties *)

Import driver.

(** ** The fitting protocols, continued *)

Lemma nth_error_last (A : Type) (l : list A) (d : A) :
  l <> [] -> nth_error l (List.length l - 1) = Some (last l d).
Proof.
  intros Hne. destruct (exists_last Hne) as (l' & x & ->).
  rewrite last_last, length_app. cbn [List.length].
  replace (List.length l' + 1 - 1)%nat with (List.length l') by lia.
  rewrite nth_error_app2 by lia. now rewrite Nat.sub_diag.
Qed.

Lemma py_min_app (l ext : list R) (v1 v2 : R) :
  py_min l = Ok v1 -> py_min (l ++ ext) = Ok v2 -> (v2 <= v1)%R.
Proof.
  intros H1 H2.
  assert (Hl : l <> []) by (intros ->; discriminate).
  assert (Hle : l ++ ext <> []).
  { intros E. apply app_eq_nil in E. now destruct E. }
  destruct (argmin_spec Hl) as [_ (m1 & E1 & Hm1)].
  destruct (argmin_spec Hle) as [(x & Hx & Hall & _) (m2 & E2 & Hm2)].
  assert (m1 = v1) by congruence. assert (m2 = v2) by congruence.
  assert (x = m2) by congruence. subst.
  apply (Hall (argmin l)). rewrite nth_error_app1; [assumption|].
  apply nth_error_Some. congruence.
Qed.

Section FitFacts.
Context {TF : TensorFlow}.

(** What [active] returns after an optimisation, from the state the loop
    ended in. *)
Lemma active_optimised (datadir prop : string)
    (tsne_train tsne_val tsne_test : ndarray)
    (ytrain yval ytest : tensor) (maxiters : Z)
    (amp length_scale rate : R) (s : loop_state) :
  0 < maxiters ->
  shape1 tsne_train = 2 \/ shape1 tsne_train = 3 ->
  let nd := shape1 tsne_train in
  optimise nd (with_newaxes nd tsne_train) ytrain
    (with_newaxes nd tsne_val) yval maxiters amp length_scale rate = Ok s ->
  recorded nd (with_newaxes nd tsne_train) ytrain
    (with_newaxes nd tsne_val) yval (Z.to_nat maxiters) (tr s) ->
  exists a l v,
    nth_error (OptAmp (tr s)) (argmin (Optmae (tr s))) = Some a /\
    nth_error (OptLength (tr s)) (argmin (Optmae (tr s))) = Some l /\
    py_min (Optmae (tr s)) = Ok v /\
    let best := GaussianProcessRegressionModel nd a l
                  (with_newaxes nd tsne_test) (with_newaxes nd tsne_train)
                  ytrain in
    active datadir prop tsne_train tsne_val tsne_test ytrain yval ytest
      maxiters amp length_scale rate
    = Ok (mk_active (Some (OptLoss (tr s))) (Some (OptAmp (tr s)))
            (Some (OptLength (tr s))) a l
            (mean best) (stddev best) (variance best) (Some v)
            (MAE ytest (mean best)) (MSE ytest (mean best))
            (std_abs (mean best) ytest) (pearsonr ytest (mean best))).
Proof.
  intros Hpos Hdim nd Es Hr.
  assert (Hn : (0 < Z.to_nat maxiters)%nat) by lia.
  destruct (best_iterate_exists Hn Hr)
    as (a & l & mse & sae & _ & Ea & El & _ & _ & Emin).
  exists a, l. eexists. split; [exact Ea|]. split; [exact El|].
  split; [exact Emin|]. cbv zeta.
  unfold active. rewrite (leb_pos Hpos), !(reshape_supported _ Hdim).
  fold nd. rewrite Es. cbn [bind].
  rewrite (getitem_nth_error _ _ Ea), (getitem_nth_error _ _ El).
  cbn [bind]. rewrite Emin. reflexivity.
Qed.




End FitFacts.


(** X2.  After an optimisation over latent points of dimension 2 or 3,
    [train_test_split] returns and writes the posterior under the
    hyperparameters of the last iteration, and its correlation coefficient
    is that of this posterior. *)
Theorem train_test_split_returns_the_last_iteration
    (TF : TensorFlow) (datadir prop : string)
    (tsne_pool tsne_test : ndarray) (ypool ytest : tensor) (maxiters : Z)
    (amp length_scale rate : R) :
  0 < maxiters ->
  shape1 tsne_pool = 2 \/ shape1 tsne_pool = 3 ->
  let nd := shape1 tsne_pool in
  let latent_pool := with_newaxes nd tsne_pool in
  let latent_test := with_newaxes nd tsne_test in
  exists s a l r,
    optimise nd latent_pool ypool latent_test ytest maxiters
      amp length_scale rate = Ok s /\
    nth_error (OptAmp (tr s)) (Z.to_nat maxiters - 1) = Some a /\
    nth_error (OptLength (tr s)) (Z.to_nat maxiters - 1) = Some l /\
    train_test_split datadir prop tsne_pool tsne_test ypool ytest
      maxiters amp length_scale rate = Ok r /\
    tts_saved r = GaussianProcessRegressionModel nd a l
                    latent_test latent_pool ypool /\
    tts_gp_mean r = mean (tts_saved r) /\
    tts_gp_stddev r = stddev (tts_saved r) /\
    tts_R r = pearsonr ytest (mean (tts_saved r)).
Proof.
  intros Hpos Hdim nd latent_pool latent_test.
  assert (Hn : (0 < Z.to_nat maxiters)%nat) by lia.
  destruct (optimise_ok nd latent_pool ypool latent_test ytest
              maxiters amp length_scale rate) as (s & Es & Hr & Hl).
  destruct (best_iterate_exists Hn Hr)
    as (a & l & mse & sae & _ & _ & _ & Emse & Esae & Emin).
  pose proof Hl as Hl'. unfold last_model in Hl'.
  destruct (gprm s) as [g|] eqn:Eg.
  - destruct Hl' as (a' & l' & Hne & Ea' & El' & ->).
    exists s, a', l'. eexists.
    split; [exact Es|].
    assert (HneL : OptLength (tr s) <> []).
    { intros E. pose proof (rec_length Hr) as H. rewrite E in H. cbn in H. lia. }
    split.
    { rewrite <- (rec_amp Hr), <- Ea'. now apply nth_error_last. }
    split.
    { rewrite <- (rec_length Hr), <- El'. now apply nth_error_last. }
    unfold train_test_split. rewrite (leb_pos Hpos).
    rewrite !(reshape_supported _ Hdim).
    fold nd latent_pool latent_test. rewrite Es. cbn [bind]. rewrite Eg, Emin.
    cbn [bind].
    rewrite (getitem_nth_error _ _ Emse), (getitem_nth_error _ _ Esae).
    cbn [bind]. split; [reflexivity|]. cbn. repeat split.
  - exfalso. pose proof (rec_amp Hr) as H. rewrite Hl' in H. cbn in H. lia.
Qed.

Lemma train_test_split_returns_the_last_iteration_witness :
  0 < 2 /\ (shape1 toy.points = 2 \/ shape1 toy.points = 3) /\
  exists r a l,
    train_test_split (TF := toy.tensorflow) "" "" toy.points toy.points
      toy.targets toy.targets 2 1 1 1 = Ok r /\
    tts_saved r = GaussianProcessRegressionModel (TensorFlow := toy.tensorflow)
                    2 a l (with_newaxes 2 toy.points)
                    (with_newaxes 2 toy.points) toy.targets.
Proof.
  split; [lia|]. split; [left; reflexivity|].
  destruct (@train_test_split_returns_the_last_iteration toy.tensorflow
              "" "" toy.points toy.points toy.targets toy.targets 2 1 1 1)
    as (s & a & l & r & _ & _ & _ & Er & Hs & _).
  - lia.
  - left; reflexivity.
  - exists r, a, l. auto.
Defined.

(** X3.  The best error that [train_test_split] reports is never larger
    than the error of the prediction it returns, and equal to it when no
    optimisation is asked for. *)
Theorem train_test_split_reports_at_most_the_returned_error
    (TF : TensorFlow) (datadir prop : string)
    (tsne_pool tsne_test : ndarray) (ypool ytest : tensor) (maxiters : Z)
    (amp length_scale rate : R) :
  shape1 tsne_pool = 2 \/ shape1 tsne_pool = 3 ->
  exists r,
    train_test_split datadir prop tsne_pool tsne_test ypool ytest
      maxiters amp length_scale rate = Ok r /\
    (tts_mae r <= MAE ytest (tts_gp_mean r))%R /\
    (maxiters <= 0 -> tts_mae r = MAE ytest (tts_gp_mean r)).
Proof.
  intros Hdim.
  destruct (Z.leb_spec maxiters 0) as [Hm|Hm].
  - unfold train_test_split.
    rewrite (leb_nonpos Hm), !(reshape_supported _ Hdim).
    eexists. split; [reflexivity|]. cbn. split; [lra|reflexivity].
  - set (nd := shape1 tsne_pool).
    set (latent_pool := with_newaxes nd tsne_pool).
    set (latent_test := with_newaxes nd tsne_test).
    assert (Hn : (0 < Z.to_nat maxiters)%nat) by lia.
    destruct (optimise_ok nd latent_pool ypool latent_test ytest
                maxiters amp length_scale rate) as (s & Es & Hr & Hl).
    destruct (best_iterate_exists Hn Hr)
      as (a & l & mse & sae & Hfirst & _ & _ & Emse & Esae & Emin).
    pose proof Hl as Hl'. unfold last_model in Hl'.
    destruct (gprm s) as [g|] eqn:Eg.
    + destruct Hl' as (a' & l' & Hne & Ea' & El' & ->).
      assert (HneL : OptLength (tr s) <> []).
      { intros E. pose proof (rec_length Hr) as H. rewrite E in H.
        cbn in H. lia. }
      assert (Ha : nth_error (OptAmp (tr s)) (Z.to_nat maxiters - 1) = Some a').
      { rewrite <- (rec_amp Hr), <- Ea'. now apply nth_error_last. }
      assert (Hlen : nth_error (OptLength (tr s)) (Z.to_nat maxiters - 1)
                     = Some l').
      { rewrite <- (rec_length Hr), <- El'. now apply nth_error_last. }
      pose proof (rec_mae Hr _ Ha Hlen) as Hlast.
      destruct Hfirst as (x & Hx & Hall & _).
      assert (Hmin : py_min (Optmae (tr s)) = Ok x).
      { assert (Hne' : Optmae (tr s) <> []) by (intros E; rewrite E in Hlast;
          destruct (Z.to_nat maxiters - 1)%nat; discriminate).
        destruct (argmin_spec Hne') as [_ (m & -> & Hm')]. congruence. }
      unfold train_test_split. rewrite (leb_pos Hm).
      rewrite !(reshape_supported _ Hdim).
      fold nd latent_pool latent_test. rewrite Es. cbn [bind].
      rewrite Eg, Hmin. cbn [bind].
      rewrite (getitem_nth_error _ _ Emse), (getitem_nth_error _ _ Esae).
      cbn [bind]. eexists. split; [reflexivity|]. cbn. split; [|lia].
      apply (Hall _ _ Hlast).
    + exfalso. pose proof (rec_amp Hr) as H. rewrite Hl' in H. cbn in H. lia.
Qed.

Lemma train_test_split_reports_at_most_the_returned_error_witness :
  (shape1 toy.points = 2 \/ shape1 toy.points = 3) /\
  exists r,
    train_test_split (TF := toy.tensorflow) "" "" toy.points toy.points
      toy.targets toy.targets 2 1 1 1 = Ok r /\
    (tts_mae r <= MAE (TensorFlow := toy.tensorflow) toy.targets
                    (tts_gp_mean r))%R.
Proof.
  split; [left; reflexivity|].
  destruct (@train_test_split_reports_at_most_the_returned_error
              toy.tensorflow "" "" toy.points toy.points
              toy.targets toy.targets 2 1 1 1) as (r & Er & Hle & _).
  - left; reflexivity.
  - exists r. auto.
Defined.



Section LoopFacts.
Context {TF : TensorFlow}.
Variables (nd : Z) (latent_train : latent) (ytrain : tensor)
          (latent_val : latent) (yval : tensor).

Local Abbreviation recorded' :=
  (recorded nd latent_train ytrain latent_val yval).

Lemma step_losses (amp0 length0 : R) (i : nat) (s s' : loop_state) :
  recorded' i (tr s) ->
  exp (raw_amp s) = last (OptAmp (tr s)) amp0 ->
  exp (raw_length s) = last (OptLength (tr s)) length0 ->
  losses_lag nd latent_train ytrain amp0 length0 (tr s) ->
  step nd latent_train ytrain latent_val yval i s = Ok s' ->
  exp (raw_amp s') = last (OptAmp (tr s')) amp0 /\
  exp (raw_length s') = last (OptLength (tr s')) length0 /\
  losses_lag nd latent_train ytrain amp0 length0 (tr s').
Proof.
  intros Hr Ha Hl [H0 Hlag]. unfold step. cbv zeta.
  rewrite (getitem_snoc _ _ (rec_amp Hr)). cbn [bind].
  rewrite (getitem_snoc _ _ (rec_length Hr)). cbn [bind].
  intros [= <-]. cbn [tr raw_amp raw_length OptLoss OptAmp OptLength].
  rewrite !last_last. split; [reflexivity|]. split; [reflexivity|].
  unfold loss_fn, losses_lag. rewrite Ha, Hl.
  cbn [OptLoss OptAmp OptLength]. split.
  - intros x Hx. apply nth_error_snoc in Hx.
    destruct Hx as [[_ Hx] | [Hi ->]]; [now apply H0|].
    assert (EA : OptAmp (tr s) = []).
    { apply length_zero_iff_nil. rewrite (rec_amp Hr), <- (rec_loss Hr). auto. }
    assert (EL : OptLength (tr s) = []).
    { apply length_zero_iff_nil. rewrite (rec_length Hr), <- (rec_loss Hr).
      auto. }
    rewrite EA, EL. reflexivity.
  - intros j a l x Hja Hjl Hx.
    apply nth_error_snoc in Hx. destruct Hx as [[Hlt Hx] | [Hi ->]].
    + rewrite (rec_loss Hr) in Hlt.
      rewrite nth_error_app1 in Hja by (rewrite (rec_amp Hr); lia).
      rewrite nth_error_app1 in Hjl by (rewrite (rec_length Hr); lia).
      eauto.
    + rewrite (rec_loss Hr) in Hi.
      rewrite nth_error_app1 in Hja by (rewrite (rec_amp Hr); lia).
      rewrite nth_error_app1 in Hjl by (rewrite (rec_length Hr); lia).
      assert (HA : OptAmp (tr s) <> []).
      { intros E. rewrite E in Hja. destruct j; discriminate. }
      assert (HL : OptLength (tr s) <> []).
      { intros E. rewrite E in Hjl. destruct j; discriminate. }
      pose proof (nth_error_last amp0 HA) as EA.
      pose proof (nth_error_last length0 HL) as EL.
      rewrite (rec_amp Hr) in EA. rewrite (rec_length Hr) in EL.
      replace (i - 1)%nat with j in EA, EL by lia.
      congruence.
Qed.

Lemma iterate_losses (amp0 length0 : R) (n : nat) :
  forall i s s',
    recorded' i (tr s) ->
    exp (raw_amp s) = last (OptAmp (tr s)) amp0 ->
    exp (raw_length s) = last (OptLength (tr s)) length0 ->
    losses_lag nd latent_train ytrain amp0 length0 (tr s) ->
    iterate nd latent_train ytrain latent_val yval n i s = Ok s' ->
    losses_lag nd latent_train ytrain amp0 length0 (tr s').
Proof.
  induction n as [|n IH]; intros i s s' Hr Ha Hl Hlag; cbn [iterate].
  - now intros [= <-].
  - destruct (step_ok s Hr) as (s1 & E1 & Hr1 & _).
    rewrite E1. cbn [bind].
    destruct (@step_losses amp0 length0 i s s1 Hr Ha Hl Hlag E1)
      as (Ha1 & Hl1 & Hlag1).
    intros H. exact (IH (S i) s1 s' Hr1 Ha1 Hl1 Hlag1 H).
Qed.

Lemma step_extends (i : nat) (s s' : loop_state) :
  step nd latent_train ytrain latent_val yval i s = Ok s' ->
  trace_extends (tr s) (tr s').
Proof.
  unfold step. cbv zeta.
  destruct (getitem _ i) as [a|]; [|discriminate]. cbn [bind].
  destruct (getitem _ i) as [l|]; [|discriminate]. cbn [bind].
  intros [= <-]. cbn. repeat split; eexists; reflexivity.
Qed.

Lemma trace_extends_refl (t : trace) : trace_extends t t.
Proof. repeat split; exists []; now rewrite app_nil_r. Qed.

Lemma trace_extends_trans (t1 t2 t3 : trace) :
  trace_extends t1 t2 -> trace_extends t2 t3 -> trace_extends t1 t3.
Proof.
  intros ((a1 & A1) & (a2 & A2) & (a3 & A3) & (a4 & A4) & (a5 & A5) & (a6 & A6))
         ((b1 & B1) & (b2 & B2) & (b3 & B3) & (b4 & B4) & (b5 & B5) & (b6 & B6)).
  repeat split;
    [exists (a1 ++ b1) | exists (a2 ++ b2) | exists (a3 ++ b3)
    |exists (a4 ++ b4) | exists (a5 ++ b5) | exists (a6 ++ b6)];
    rewrite app_assoc; congruence.
Qed.

Lemma iterate_extends (n : nat) :
  forall i s s',
    iterate nd latent_train ytrain latent_val yval n i s = Ok s' ->
    trace_extends (tr s) (tr s').
Proof.
  induction n as [|n IH]; intros i s s'; cbn [iterate].
  - intros [= <-]. apply trace_extends_refl.
  - destruct (step nd latent_train ytrain latent_val yval i s) as [s1|] eqn:E1;
      [|discriminate].
    cbn [bind]. intros H. eapply trace_extends_trans.
    + exact (@step_extends i s s1 E1).
    + exact (IH (S i) s1 s' H).
Qed.

Lemma iterate_add (n m : nat) :
  forall i s,
    iterate nd latent_train ytrain latent_val yval (n + m) i s
    = (s' <- iterate nd latent_train ytrain latent_val yval n i s ;;
       iterate nd latent_train ytrain latent_val yval m (i + n) s').
Proof.
  induction n as [|n IH]; intros i s; cbn [iterate Nat.add bind].
  - now rewrite Nat.add_0_r.
  - destruct (step nd latent_train ytrain latent_val yval i s) as [s1|];
      cbn [bind]; [|reflexivity].
    rewrite IH. now replace (S i + n)%nat with (i + S n)%nat by lia.
Qed.

(** A longer optimisation begins as the shorter one does. *)
Lemma optimise_extends (m1 m2 : Z) (amp length_scale rate : R)
    (s1 s2 : loop_state) :
  m1 <= m2 ->
  optimise nd latent_train ytrain latent_val yval m1 amp length_scale rate
    = Ok s1 ->
  optimise nd latent_train ytrain latent_val yval m2 amp length_scale rate
    = Ok s2 ->
  trace_extends (tr s1) (tr s2).
Proof.
  unfold optimise. intros Hle E1 E2.
  replace (Z.to_nat m2) with (Z.to_nat m1 + (Z.to_nat m2 - Z.to_nat m1))%nat
    in E2 by lia.
  rewrite iterate_add, E1 in E2. cbn [bind] in E2.
  exact (@iterate_extends _ _ s1 s2 E2).
Qed.

End LoopFacts.

(** X5.  For a positive prior amplitude and length scale, the loss recorded
    at an iteration is the loss before the update of that iteration: the
    first recorded loss is that of the prior hyperparameters, and the loss
    at position [j + 1] is that of the amplitude and length scale recorded
    at position [j]. *)
Theorem recorded_loss_is_that_of_the_previous_hyperparameters
    (TF : TensorFlow) (nd : Z) (latent_train : latent) (ytrain : tensor)
    (latent_val : latent) (yval : tensor) (maxiters : Z)
    (amp length_scale rate : R) :
  (0 < amp)%R -> (0 < length_scale)%R ->
  exists s,
    optimise nd latent_train ytrain latent_val yval maxiters
      amp length_scale rate = Ok s /\
    List.length (OptLoss (tr s)) = Z.to_nat maxiters /\
    losses_lag nd latent_train ytrain amp length_scale (tr s).
Proof.
  intros Ha Hl.
  destruct (optimise_ok nd latent_train ytrain latent_val yval
              maxiters amp length_scale rate) as (s & Es & Hr & _).
  exists s. split; [exact Es|]. split; [exact (rec_loss Hr)|].
  unfold optimise in Es.
  apply (@iterate_losses TF nd latent_train ytrain latent_val yval
           amp length_scale (Z.to_nat maxiters) 0%nat
           (init_loop amp length_scale rate) s); try exact Es.
  - constructor; cbn; auto. intros [|j]; discriminate.
  - cbn. now apply exp_ln.
  - cbn. now apply exp_ln.
  - split.
    + intros x H. discriminate.
    + intros j a l x H. destruct j; discriminate.
Qed.

Lemma recorded_loss_witness :
  (0 < 1)%R /\
  exists s,
    optimise (TF := toy.tensorflow) 2 (with_newaxes 2 toy.points) toy.targets
      (with_newaxes 2 toy.points) toy.targets 2 1 1 1 = Ok s /\
    losses_lag (TF := toy.tensorflow) 2 (with_newaxes 2 toy.points)
      toy.targets 1 1 (tr s).
Proof.
  split; [lra|].
  destruct (@recorded_loss_is_that_of_the_previous_hyperparameters
              toy.tensorflow 2 (with_newaxes 2 toy.points) toy.targets
              (with_newaxes 2 toy.points) toy.targets 2 1%R 1%R 1%R)
    as (s & Es & _ & Hlag); [lra|lra|].
  exists s. auto.
Defined.

(** X6.  Asking [active] for more iterations extends what fewer iterations
    record and never worsens the best validation error: for
    [0 < m1 <= m2] the arrays returned for [m1] iterations are the
    beginning of those returned for [m2], and the best validation error
    for [m2] is at most that for [m1]. *)
Theorem more_iterations_never_worsen_the_best_error
    (TF : TensorFlow) (datadir prop : string)
    (tsne_train tsne_val tsne_test : ndarray)
    (ytrain yval ytest : tensor) (m1 m2 : Z)
    (amp length_scale rate : R) :
  0 < m1 <= m2 ->
  shape1 tsne_train = 2 \/ shape1 tsne_train = 3 ->
  exists r1 r2 amps1 amps2 lengths1 lengths2 v1 v2,
    active datadir prop tsne_train tsne_val tsne_test ytrain yval ytest
      m1 amp length_scale rate = Ok r1 /\
    active datadir prop tsne_train tsne_val tsne_test ytrain yval ytest
      m2 amp length_scale rate = Ok r2 /\
    ac_OptAmp r1 = Some amps1 /\ ac_OptAmp r2 = Some amps2 /\
    ac_OptLength r1 = Some lengths1 /\ ac_OptLength r2 = Some lengths2 /\
    (exists e, amps2 = amps1 ++ e) /\
    (exists e, lengths2 = lengths1 ++ e) /\
    ac_Optmae_val r1 = Some v1 /\ ac_Optmae_val r2 = Some v2 /\
    (v2 <= v1)%R.
Proof.
  intros [Hpos Hle] Hdim.
  set (nd := shape1 tsne_train).
  destruct (optimise_ok nd (with_newaxes nd tsne_train) ytrain
              (with_newaxes nd tsne_val) yval m1 amp length_scale rate)
    as (s1 & Es1 & Hr1 & _).
  destruct (optimise_ok nd (with_newaxes nd tsne_train) ytrain
              (with_newaxes nd tsne_val) yval m2 amp length_scale rate)
    as (s2 & Es2 & Hr2 & _).
  destruct (@active_optimised TF datadir prop tsne_train tsne_val tsne_test
              ytrain yval ytest m1 amp length_scale rate s1
              Hpos Hdim Es1 Hr1) as (a1 & l1 & v1 & _ & _ & Emin1 & Eact1).
  destruct (@active_optimised TF datadir prop tsne_train tsne_val tsne_test
              ytrain yval ytest m2 amp length_scale rate s2
              ltac:(lia) Hdim Es2 Hr2) as (a2 & l2 & v2 & _ & _ & Emin2 & Eact2).
  cbv zeta in Eact1, Eact2. rewrite Eact1, Eact2.
  destruct (@optimise_extends TF _ _ _ _ _ m1 m2 amp length_scale rate s1 s2
              Hle Es1 Es2) as (_ & HA & HL & (e & HM) & _).
  do 2 eexists. exists (OptAmp (tr s1)), (OptAmp (tr s2)),
    (OptLength (tr s1)), (OptLength (tr s2)), v1, v2.
  cbn. repeat split; try assumption.
  rewrite HM in Emin2. exact (py_min_app _ _ Emin1 Emin2).
Qed.

Lemma more_iterations_witness :
  0 < 2 <= 3 /\ (shape1 toy.points = 2 \/ shape1 toy.points = 3) /\
  exists r1 r2 v1 v2,
    active (TF := toy.tensorflow) "" "" toy.points toy.points toy.points
      toy.targets toy.targets toy.targets 2 1 1 1 = Ok r1 /\
    active (TF := toy.tensorflow) "" "" toy.points toy.points toy.points
      toy.targets toy.targets toy.targets 3 1 1 1 = Ok r2 /\
    ac_Optmae_val r1 = Some v1 /\ ac_Optmae_val r2 = Some v2 /\
    (v2 <= v1)%R.
Proof.
  split; [lia|]. split; [left; reflexivity|].
  destruct (@more_iterations_never_worsen_the_best_error toy.tensorflow
              "" "" toy.points toy.points toy.points
              toy.targets toy.targets toy.targets 2 3 1%R 1%R 1%R)
    as (r1 & r2 & _ & _ & _ & _ & v1 & v2 & E1 & E2 & _ & _ & _ & _ & _ & _
        & H1 & H2 & Hle).
  - lia.
  - left; reflexivity.
  - exists r1, r2, v1, v2. auto.
Defined.

(** ** The argument checks, continued *)

Lemma py_or_not_falsy (A : Type) (falsy : A -> bool) (x : option A) (d : A) :
  falsy d = false -> falsy (py_or falsy x d) = false.
Proof.
  intros Hd. unfold py_or. destruct x as [v|]; [|exact Hd].
  destruct (falsy v) eqn:E; assumption.
Qed.

Lemma getitem_raises (A : Type) (l : list A) (i : nat) (e : exn) :
  getitem l i = Raise e -> e = IndexError.
Proof.
  unfold getitem. destruct (nth_error l i); [discriminate|].
  now intros [= <-].
Qed.

Lemma single_entry (A : Type) (l : list A) (x : A) :
  (len l =? 1) = true -> getitem l 0 = Ok x -> l = [x].
Proof.
  unfold len, getitem. intros H. apply Z.eqb_eq in H.
  destruct l as [|y [|z t]]; cbn [List.length nth_error] in *; try lia.
  now intros [= ->].
Qed.

Lemma two_entries (A : Type) (l : list A) (x y : A) :
  (len l =? 2) = true -> getitem l 0 = Ok x -> getitem l 1 = Ok y ->
  l = [x; y].
Proof.
  unfold len, getitem. intros H. apply Z.eqb_eq in H.
  destruct l as [|a [|b [|c t]]]; cbn [List.length nth_error] in *; try lia.
  now intros [= ->] [= ->].
Qed.

Lemma two_entries_exist (A : Type) (l : list A) :
  (len l =? 2) = true -> exists x y, l = [x; y].
Proof.
  unfold len. intros H. apply Z.eqb_eq in H.
  destruct l as [|a [|b [|c t]]]; cbn [List.length] in *; try lia.
  eauto.
Qed.

(** Take a hypothesis about the result of the checks apart, one test
    after the other. *)
Ltac walk_checks H :=
  unfold main_checks, check_unit_interval, py_assert in H;
  repeat match type of H with
         | context [match ltype ?a with _ => _ end] =>
             destruct (ltype a) as [[|? ?]|]
         | context [if ?c then _ else _] => destruct c eqn:?
         | context [bind (Ok _) _] => cbn [bind] in H
         | context [bind (Raise _) _] => cbn [bind] in H
         | context [bind (getitem ?l ?i) _] => destruct (getitem l i) eqn:?
         end.

(** X7.  A numeric option given as zero is replaced by its default, so the
    stop fraction, the quantity and the number of splits that [main] works
    with are never zero; the exit that asks for a quantity can therefore
    never be taken. *)
Theorem zero_options_fall_back_to_the_defaults (a : Args) :
  float_falsy (stop_of a) = false /\
  quan_of a <> 0 /\ nsplit_of a <> 0 /\
  fraction_of a <> [] /\ maxiters_of a <> [] /\
  forall e,
    main_checks a = Raise e ->
    e <> SystemExit "Provide quantity of data to use with -q or --quan!".
Proof.
  assert (Hq : (quan_of a =? 0) = false)
    by (apply (py_or_not_falsy (Z.eqb 0) (quan a)); reflexivity).
  assert (Hn : (nsplit_of a =? 0) = false)
    by (apply (py_or_not_falsy (Z.eqb 0) (nsplit a)); reflexivity).
  split; [apply py_or_not_falsy; reflexivity|].
  split; [now apply Z.eqb_neq|]. split; [now apply Z.eqb_neq|].
  split; [apply fraction_of_not_nil|].
  split.
  { unfold maxiters_of, py_or. destruct (maxiters a) as [[|m l]|]; cbn;
      discriminate. }
  intros e H. walk_checks H;
    repeat match goal with
           | E : getitem _ _ = Raise _ |- _ => apply getitem_raises in E
           end;
    congruence.
Qed.

(** X8.  Arguments that pass the checks for active learning name one of the
    two sampling policies, a stop fraction below 1, a single split and a
    single number of iterations, which is what the checks return; in the
    repeat variant [-frac] holds two fractions of sum below 1, in the
    no-repeat variant one fraction below 1. *)
Theorem accepted_active_learning_arguments (a : Args) (it : iters) :
  main_checks a = Ok it ->
  noactive a = false ->
  (samp_of a = "entropy" \/ samp_of a = "random") /\
  PrimFloat.ltb (stop_of a) 1 = true /\
  nsplit_of a = 1 /\
  (exists m, maxiters_of a = [m] /\ it = Iters m) /\
  (if repeat a
   then exists f0 f1, fraction_of a = [f0; f1] /\
                      PrimFloat.ltb (f0 + f1) 1 = true /\
                      in_unit_interval (float_and f0 f1) = true
   else exists f0, fraction_of a = [f0] /\ PrimFloat.ltb f0 1 = true).
Proof.
  intros H Hna. walk_checks H; try discriminate; injection H as <-.
  all: split;
    [match goal with E : negb _ = false |- _ =>
       apply negb_false_iff, orb_true_iff in E;
       destruct E as [E|E]; apply String.eqb_eq in E; auto end|].
  all: split; [reflexivity|]; split; [now apply Z.eqb_eq|].
  all: split; [eexists; split; [eapply single_entry; eassumption|reflexivity]|].
  all: first [ do 2 eexists; split; [eapply two_entries; eassumption|];
               split; [assumption|now apply negb_false_iff]
             | eexists; split; [eapply single_entry; eassumption|assumption] ].
Qed.

Lemma accepted_active_learning_arguments_witness :
  main_checks toy.args_norepeat = Ok (Iters 3) /\
  noactive toy.args_norepeat = false /\
  (samp_of toy.args_norepeat = "entropy" \/
   samp_of toy.args_norepeat = "random") /\
  nsplit_of toy.args_norepeat = 1.
Proof.
  assert (H : main_checks toy.args_norepeat = Ok (Iters 3))
    by (vm_compute; reflexivity).
  split; [exact H|]. split; [reflexivity|].
  destruct (@accepted_active_learning_arguments toy.args_norepeat (Iters 3)
              H eq_refl) as (Hs & _ & Hn & _).
  auto.
Defined.

(** X9.  Arguments that pass the checks without active learning hold two
    fractions whose floating-point sum is exactly 1 and of which the one
    tested lies strictly between 0 and 1; the checks return the single
    number of iterations when one split is asked for, and the list of
    exactly two numbers otherwise. *)
Theorem accepted_arguments_without_active_learning (a : Args) (it : iters) :
  main_checks a = Ok it ->
  noactive a = true ->
  (exists f0 f1, fraction_of a = [f0; f1] /\
                 PrimFloat.eqb (f0 + f1) 1 = true /\
                 in_unit_interval (float_and f0 f1) = true) /\
  (nsplit_of a = 1 /\ (exists m, maxiters_of a = [m] /\ it = Iters m) \/
   nsplit_of a <> 1 /\
   (exists m0 m1, maxiters_of a = [m0; m1] /\ it = IterList [m0; m1])).
Proof.
  intros H Hna. walk_checks H; try discriminate; injection H as <-.
  all: split;
    [do 2 eexists; split; [eapply two_entries; eassumption|];
     split; [assumption|now apply negb_false_iff]|].
  all: first [ left; split; [now apply Z.eqb_eq|];
               eexists; split; [eapply single_entry; eassumption|reflexivity]
             | right; split; [now apply Z.eqb_neq|];
               match goal with E : (len (maxiters_of _) =? 2) = true |- _ =>
                 destruct (two_entries_exist _ E) as (m0 & m1 & ->) end;
               eauto ].
Qed.

Lemma accepted_arguments_without_active_learning_witness :
  main_checks toy.args_frac = Ok (Iters 0) /\
  noactive toy.args_frac = true /\
  exists f0 f1, fraction_of toy.args_frac = [f0; f1] /\
                PrimFloat.eqb (f0 + f1) 1 = true.
Proof.
  assert (H : main_checks toy.args_frac = Ok (Iters 0))
    by (vm_compute; reflexivity).
  split; [exact H|]. split; [reflexivity|].
  destruct (@accepted_arguments_without_active_learning toy.args_frac
              (Iters 0) H eq_refl) as ((f0 & f1 & E & Hs & _) & _).
  eauto.
Defined.

(** ** The active-learning loops, continued *)

Lemma for_each_final (St : Type) (body : Z -> St -> list event * result St)
    (I : Z -> St -> Prop) (k : nat) :
  forall a s log s',
    (forall i s s',
        Z.of_nat a <= i < Z.of_nat (a + k) -> I i s ->
        snd (body i s) = Ok s' -> I (i + 1) s') ->
    I (Z.of_nat a) s ->
    for_each body (map Z.of_nat (seq a k)) s = (log, Ok s') ->
    I (Z.of_nat (a + k)) s'.
Proof.
  induction k as [|k IH]; intros a s log s' Hstep HI E.
  - cbn in E. injection E as _ <-. now rewrite Nat.add_0_r.
  - cbn [seq map for_each] in E.
    destruct (body (Z.of_nat a) s) as [ev [s1|e]] eqn:Eb; [|discriminate].
    destruct (for_each body (map Z.of_nat (seq (S a) k)) s1)
      as [log1 res1] eqn:Er.
    cbn [fst snd] in E. injection E as _ ->.
    replace (a + S k)%nat with (S a + k)%nat by lia.
    apply (IH (S a) s1 log1 s'); [| |exact Er].
    + intros i t t' Hi. apply Hstep. lia.
    + replace (Z.of_nat (S a)) with (Z.of_nat a + 1) by lia.
      apply (Hstep (Z.of_nat a) s s1); [lia|exact HI|].
      now rewrite Eb.
Qed.

Lemma fit_outcomes_app (l1 l2 : list event) :
  fit_outcomes (l1 ++ l2) = fit_outcomes l1 ++ fit_outcomes l2.
Proof. apply flat_map_app. Qed.

Section RunFacts.
Context {TF : TensorFlow} {C : Collaborators}.

(** One pass of the repeat loop: the fit it logs, and the state it leaves. *)
Lemma repeat_cycle_pass (a : Args) (prop : string) (maxiters : Z) (rate : R)
    (Xfull Xval : list structure) (yval : tensor) (i : Z) (s : repeat_state) :
  exists call out sel,
    fst (repeat_cycle a prop maxiters rate Xfull Xval yval i s)
      = EvFit i call out :: sel /\
    fit_outcomes sel = [] /\
    fc_maxiters call = maxiters /\
    fc_amp call = rp_amp s /\ fc_length_scale call = rp_length_scale s /\
    match out with
    | Raise e =>
        sel = [] /\
        snd (repeat_cycle a prop maxiters rate Xfull Xval yval i s) = Raise e
    | Ok r =>
        exists s',
          snd (repeat_cycle a prop maxiters rate Xfull Xval yval i s) = Ok s' /\
          rp_amp s' = ac_amp r /\ rp_length_scale s' = ac_length_scale r /\
          List.length (rp_training_data s')
            = S (List.length (rp_training_data s)) /\
          List.length (rp_Optmae_val_cycle s')
            = S (List.length (rp_Optmae_val_cycle s)) /\
          List.length (rp_mae_test_cycle s')
            = S (List.length (rp_mae_test_cycle s)) /\
          List.length (rp_mse_test_cycle s')
            = S (List.length (rp_mse_test_cycle s)) /\
          List.length (rp_sae_test_cycle s')
            = S (List.length (rp_sae_test_cycle s))
    end.
Proof.
  unfold repeat_cycle. cbv zeta.
  destruct (adam.active _ _ _ _ _ _ _ _ _ _ _ _) as [r|e].
  - destruct (i <? snd (cycle_of a));
      [destruct (String.eqb (samp_of a) "entropy");
       [|destruct (String.eqb (samp_of a) "random")]|];
      cbn [fst snd]; do 3 eexists;
      (split; [reflexivity|]); (split; [reflexivity|]);
      cbn [fc_maxiters fc_amp fc_length_scale];
      (split; [reflexivity|]); (split; [reflexivity|]);
      (split; [reflexivity|]);
      eexists; (split; [reflexivity|]);
      cbn [repeat_migrated rp_amp rp_length_scale rp_training_data
           rp_Optmae_val_cycle rp_mae_test_cycle rp_mse_test_cycle
           rp_sae_test_cycle];
      rewrite !length_app; cbn [List.length];
      repeat split; lia.
  - cbn [fst snd]. do 3 eexists.
    split; [reflexivity|]. split; [reflexivity|].
    cbn [fc_maxiters fc_amp fc_length_scale]. auto.
Qed.

Lemma repeat_loop_warm (a : Args) (prop : string) (maxiters : Z) (rate : R)
    (Xfull Xval : list structure) (yval : tensor) :
  forall cycles s tail,
    (forall s',
        snd (for_each (repeat_cycle a prop maxiters rate Xfull Xval yval)
               cycles s) = Ok s' ->
        warm_started maxiters (rp_amp s') (rp_length_scale s') tail) ->
    (forall e,
        snd (for_each (repeat_cycle a prop maxiters rate Xfull Xval yval)
               cycles s) = Raise e -> tail = []) ->
    warm_started maxiters (rp_amp s) (rp_length_scale s)
      (fit_outcomes
         (fst (for_each (repeat_cycle a prop maxiters rate Xfull Xval yval)
                 cycles s)) ++ tail).
Proof.
  induction cycles as [|i rest IH]; intros s tail Hok Herr.
  - cbn. now apply Hok.
  - cbn [for_each] in *.
    destruct (repeat_cycle_pass a prop maxiters rate Xfull Xval yval i s)
      as (call & out & sel & Efst & Esel & Hm & Ha & Hl & Hout).
    destruct (repeat_cycle a prop maxiters rate Xfull Xval yval i s)
      as [ev res].
    cbn [fst snd] in Efst, Hout. subst ev.
    destruct out as [r|e].
    + destruct Hout as (s' & -> & Ha' & Hl' & _).
      cbn [fst snd] in *.
      change (EvFit i call (Ok r) :: sel) with ([EvFit i call (Ok r)] ++ sel).
      rewrite <- !app_assoc, fit_outcomes_app, fit_outcomes_app, Esel.
      cbn [fit_outcomes flat_map app warm_started].
      split; [exact Hm|]. split; [exact Ha|]. split; [exact Hl|].
      rewrite <- Ha', <- Hl'. now apply IH.
    + destruct Hout as (-> & ->). cbn [fst snd] in *.
      cbn [fit_outcomes flat_map app warm_started].
      split; [exact Hm|]. split; [exact Ha|]. split; [exact Hl|].
      now apply (Herr e).
Qed.

Lemma main_repeat_warm (a : Args) (prop : string) (maxiters : Z)
    (amp length_scale rate : R) (d : repeat_input)
    (tail : list (fit_call * result active_return)) :
  (forall s',
      snd (main_repeat a prop maxiters amp length_scale rate d) = Ok s' ->
      warm_started maxiters (rp_amp s') (rp_length_scale s') tail) ->
  (forall e,
      snd (main_repeat a prop maxiters amp length_scale rate d) = Raise e ->
      tail = []) ->
  warm_started maxiters amp length_scale
    (fit_outcomes (fst (main_repeat a prop maxiters amp length_scale rate d))
     ++ tail).
Proof.
  unfold main_repeat.
  destruct (adequate_test_set _ _ _ _) as [u|e]; cbn [fst snd].
  - intros Hok Herr.
    now apply (@repeat_loop_warm a prop maxiters rate (ri_Xfull d) (ri_Xval d)
                 (ri_yval d) (py_range (snd (cycle_of a) + 1))
                 (mk_repeat (ri_Xpool d) (ri_ypool d) (ri_Xtrain d)
                    (ri_ytrain d) (ri_Xtest d) (ri_ytest d) (ri_model d)
                    amp length_scale [] [] [] [] []) tail).
  - intros _ Herr. rewrite (Herr e eq_refl). exact I.
Qed.

Lemma repeat_loop_completes (a : Args) (prop : string) (maxiters : Z)
    (rate : R) (Xfull Xval : list structure) (yval : tensor) :
  (forall m dd Xf Xt yt Xtr Xv n,
      shape1 (fst (fst (latent_active m dd Xf Xt yt Xtr Xv n))) = 2 \/
      shape1 (fst (fst (latent_active m dd Xf Xt yt Xtr Xv n))) = 3) ->
  forall cycles s,
    exists log s',
      for_each (repeat_cycle a prop maxiters rate Xfull Xval yval) cycles s
      = (log, Ok s').
Proof.
  intros Hdim. induction cycles as [|i rest IH]; intros s.
  - cbn. eauto.
  - cbn [for_each].
    destruct (repeat_cycle_pass a prop maxiters rate Xfull Xval yval i s)
      as (call & out & sel & _ & _ & _ & _ & _ & Hout).
    assert (Hfit : exists s', snd (repeat_cycle a prop maxiters rate Xfull
                                     Xval yval i s) = Ok s').
    { revert Hout. unfold repeat_cycle. cbv zeta.
      match goal with |- context [adam.active ?dd ?pp ?lt ?lv ?lte ?yt ?yv
                                    ?yte ?m ?am ?ls ?rt] =>
        destruct (active_completes dd pp lt lv lte yt yv yte m am ls rt
                    (Hdim _ _ _ _ _ _ _ _)) as (r & ->) end.
      intros _.
      destruct (i <? snd (cycle_of a));
        [destruct (String.eqb (samp_of a) "entropy");
         [|destruct (String.eqb (samp_of a) "random")]|];
        cbn [snd]; eauto. }
    destruct Hfit as (s' & Es').
    destruct (repeat_cycle a prop maxiters rate Xfull Xval yval i s)
      as [ev res]. cbn [snd] in Es'. subst res.
    destruct (IH s') as (log & s'' & ->). cbn [fst snd]. eauto.
Qed.

(** One pass of the no-repeat loop, for the bookkeeping it does. *)
Lemma norepeat_cycle_records (datadir prop samp : string)
    (query max_query : Z) (latent_val : ndarray) (yval : tensor) (rate : R)
    (i : Z) (s s' : norepeat_state) :
  snd (norepeat_cycle datadir prop samp query max_query latent_val yval rate
         i s) = Ok s' ->
  nr_maxiters s' = (if i =? 0 then nr_maxiters s else 0) /\
  List.length (nr_Optmae_val_cycle s')
    = ((if (0 <? nr_maxiters s')%Z then 1 else 0)
       + List.length (nr_Optmae_val_cycle s))%nat /\
  List.length (nr_training_data s') = S (List.length (nr_training_data s)) /\
  List.length (nr_mae_test_cycle s') = S (List.length (nr_mae_test_cycle s)) /\
  List.length (nr_mse_test_cycle s') = S (List.length (nr_mse_test_cycle s)) /\
  List.length (nr_sae_test_cycle s') = S (List.length (nr_sae_test_cycle s)) /\
  shape1 (nr_latent_train s') = shape1 (nr_latent_train s).
Proof.
  unfold norepeat_cycle. cbv zeta.
  destruct (adam.active _ _ _ _ _ _ _ _ _ _ _ _) as [r|e]; [|discriminate].
  destruct (i <? max_query);
    [destruct (String.eqb samp "entropy");
     [|destruct (String.eqb samp "random")]|];
    cbn [fst snd]; try discriminate;
    intros [= <-];
    cbn [norepeat_migrated nr_maxiters nr_training_data nr_Optmae_val_cycle
         nr_mae_test_cycle nr_mse_test_cycle nr_sae_test_cycle
         nr_latent_train shape1];
    destruct (0 <? (if i =? 0 then nr_maxiters s else 0));
    rewrite ?length_app; cbn [List.length];
    repeat split; lia.
Qed.

(** A pass of the no-repeat loop entered with no iterations left. *)
Lemma norepeat_cycle_spent (datadir prop samp : string)
    (query max_query : Z) (latent_val : ndarray) (yval : tensor) (rate : R)
    (amp length_scale : R) (i : Z) (s : norepeat_state) :
  nr_maxiters s = 0 /\ nr_amp s = amp /\ nr_length_scale s = length_scale ->
  Forall (fun e => match e with
                   | EvFit _ c _ =>
                       fc_maxiters c = 0 /\ fc_amp c = amp /\
                       fc_length_scale c = length_scale
                   | EvSelect _ _ _ => True
                   end)
    (fst (norepeat_cycle datadir prop samp query max_query latent_val yval
            rate i s)) /\
  forall s',
    snd (norepeat_cycle datadir prop samp query max_query latent_val yval
           rate i s) = Ok s' ->
    nr_maxiters s' = 0 /\ nr_amp s' = amp /\ nr_length_scale s' = length_scale.
Proof.
  intros (Hm & Ha & Hl). unfold norepeat_cycle. cbv zeta.
  assert (Em : (if i =? 0 then nr_maxiters s else 0) = 0)
    by (destruct (i =? 0); [exact Hm|reflexivity]).
  rewrite Em, Ha, Hl.
  destruct (adam.active _ _ _ _ _ _ _ _ _ _ _ _) as [r|e] eqn:E.
  - assert (Hr : ac_amp r = amp /\ ac_length_scale r = length_scale).
    { apply active_fixed in E; [|lia]. rewrite E. cbn. auto. }
    destruct Hr as [Hra Hrl].
    assert (Ea : (if i =? 0 then ac_amp r else amp) = amp)
      by (destruct (i =? 0); [exact Hra|reflexivity]).
    assert (El : (if i =? 0 then ac_length_scale r else length_scale)
                 = length_scale)
      by (destruct (i =? 0); [exact Hrl|reflexivity]).
    rewrite Ea, El.
    destruct (i <? max_query);
      [destruct (String.eqb samp "entropy");
       [|destruct (String.eqb samp "random")]|];
      cbn [fst snd];
      (split;
       [repeat constructor
       |try discriminate; intros s' [= <-]; cbn; auto]).
  - cbn [fst snd]. split; [|discriminate]. repeat constructor.
Qed.

Lemma norepeat_spent_run (a : Args) (prop : string)
    (amp length_scale rate : R) (model : megnet)
    (Xfull : list structure) (yfull : tensor) :
  Forall (fun e => match e with
                   | EvFit _ c _ =>
                       fc_maxiters c = 0 /\ fc_amp c = amp /\
                       fc_length_scale c = length_scale
                   | EvSelect _ _ _ => True
                   end)
    (fst (main_norepeat a prop 0 amp length_scale rate model Xfull yfull)) /\
  forall s,
    snd (main_norepeat a prop 0 amp length_scale rate model Xfull yfull)
      = Ok s ->
    nr_maxiters s = 0 /\ nr_amp s = amp /\ nr_length_scale s = length_scale.
Proof.
  unfold main_norepeat.
  destruct (fraction_of a) as [|val_frac ?];
    [split; [constructor|discriminate]|].
  destruct (adequate_test_set _ _ _ _);
    [|split; [constructor|discriminate]].
  destruct (val_boundary_of _ _);
    [|split; [constructor|discriminate]].
  unfold py_range. split.
  - apply for_each_invariant
      with (I := fun _ s => nr_maxiters s = 0 /\ nr_amp s = amp /\
                            nr_length_scale s = length_scale).
    + intros i s _ HI. now apply norepeat_cycle_spent.
    + cbn. auto.
  - intros s E.
    match type of E with snd ?run = _ =>
      destruct run as [log res] eqn:Erun end.
    cbn [snd] in E. subst res.
    apply for_each_final with
             (I := fun _ s => nr_maxiters s = 0 /\ nr_amp s = amp /\
                         nr_length_scale s = length_scale) in Erun.
    + exact Erun.
    + intros i t t' _ HI Ht.
      exact (proj2 (@norepeat_cycle_spent _ _ _ _ _ _ _ _ amp length_scale
                      i t HI) t' Ht).
    + cbn. auto.
Qed.

(** What a completed no-repeat run leaves in the variables of [main]. *)
Lemma norepeat_run_records (a : Args) (prop : string) (maxiters : Z)
    (amp length_scale rate : R) (model : megnet)
    (Xfull : list structure) (yfull : tensor)
    (log : list event) (s : norepeat_state) :
  main_norepeat a prop maxiters amp length_scale rate model Xfull yfull
    = (log, Ok s) ->
  let n := Z.max 0 (snd (cycle_of a) + 1) in
  nr_maxiters s = (if n <=? 1 then maxiters else 0) /\
  len (nr_Optmae_val_cycle s)
    = (if (0 <? maxiters) && (0 <? n) then 1 else 0) /\
  len (nr_training_data s) = n /\ len (nr_mae_test_cycle s) = n /\
  len (nr_mse_test_cycle s) = n /\ len (nr_sae_test_cycle s) = n.
Proof.
  unfold main_norepeat.
  destruct (fraction_of a) as [|val_frac ?]; [discriminate|].
  destruct (adequate_test_set _ _ _ _); [|discriminate].
  destruct (val_boundary_of _ _); [|discriminate].
  unfold py_range. intros E.
  apply for_each_final with
           (I := fun i s =>
              nr_maxiters s = (if i <=? 1 then maxiters else 0) /\
              len (nr_Optmae_val_cycle s)
                = (if (0 <? maxiters) && (0 <? i) then 1 else 0) /\
              len (nr_training_data s) = i /\
              len (nr_mae_test_cycle s) = i /\
              len (nr_mse_test_cycle s) = i /\
              len (nr_sae_test_cycle s) = i) in E.
  - cbn zeta.
    replace (Z.max 0 (snd (cycle_of a) + 1))
      with (Z.of_nat (0 + Z.to_nat (snd (cycle_of a) + 1))) by lia.
    exact E.
  - intros i t t' Hi (Hm & Hv & Hd & Hmae & Hmse & Hsae) Ht.
    apply norepeat_cycle_records in Ht.
    destruct Ht as (Hm' & Hv' & Hd' & Hmae' & Hmse' & Hsae' & _).
    unfold len in *.
    assert (Em : nr_maxiters t' = if i + 1 <=? 1 then maxiters else 0).
    { rewrite Hm', Hm.
      destruct (Z.eqb_spec i 0) as [->|Hne]; [reflexivity|].
      destruct (Z.leb_spec (i + 1) 1); [lia|reflexivity]. }
    split; [exact Em|].
    split.
    { rewrite Hv', Nat2Z.inj_add, Hv, Em.
      destruct (Z.leb_spec (i + 1) 1); destruct (Z.ltb_spec 0 maxiters);
        destruct (Z.ltb_spec 0 i); destruct (Z.ltb_spec 0 (i + 1));
        cbn; lia. }
    repeat split; lia.
  - cbn. destruct (0 <? maxiters); cbn; repeat split.
Qed.

End RunFacts.


Lemma toy_repeat_completes :
  exists log s,
    main_repeat (TF := toy.tensorflow) (C := toy.collaborators)
      toy.args_repeat "gap" 3 1 1 1 toy.input_repeat = (log, Ok s).
Proof.
  unfold main_repeat.
  replace (adequate_test_set (fst (cycle_of toy.args_repeat))
             (snd (cycle_of toy.args_repeat)) (stop_of toy.args_repeat)
             (ri_ytest (C := toy.collaborators) toy.input_repeat))
    with (Ok tt) by reflexivity.
  apply repeat_loop_completes. intros. left. reflexivity.
Qed.

Section PropertyFacts.
Context {TF : TensorFlow} {C : Collaborators} {L : Loader}.

Lemma repeat_properties_warm (a : Args) (maxiters : Z) (rate : R) :
  forall properties amp length_scale,
    warm_started maxiters amp length_scale
      (fit_outcomes
         (flat_map snd
            (fst (main_repeat_properties a maxiters amp length_scale rate
                    properties)))).
Proof.
  induction properties as [|prop rest IH]; intros amp length_scale.
  - exact I.
  - cbn [main_repeat_properties].
    pose proof (@main_repeat_warm TF C a prop maxiters amp length_scale rate
                  (megnet_input_repeat prop (fraction_of a))) as Hw.
    destruct (main_repeat a prop maxiters amp length_scale rate
                (megnet_input_repeat prop (fraction_of a)))
      as [log [s|e]]; cbn [fst snd flat_map] in *.
    + rewrite fit_outcomes_app. apply Hw.
      * intros s' [= <-]. apply IH.
      * discriminate.
    + rewrite fit_outcomes_app. apply Hw.
      * discriminate.
      * reflexivity.
Qed.

Lemma norepeat_properties_spent (a : Args) (rate : R) (amp length_scale : R) :
  forall properties prop log,
    In (prop, log)
      (fst (main_norepeat_properties a 0 amp length_scale rate properties)) ->
    forall i call out,
      In (EvFit i call out) log ->
      fc_maxiters call = 0 /\ fc_amp call = amp /\
      fc_length_scale call = length_scale.
Proof.
  induction properties as [|p rest IH]; intros prop log Hin.
  - contradiction.
  - cbn [main_norepeat_properties] in Hin.
    destruct (@norepeat_spent_run TF C a p amp length_scale rate
                (fst (fst (megnet_input_norepeat p (fraction_of a) (quan_of a))))
                (snd (fst (megnet_input_norepeat p (fraction_of a) (quan_of a))))
                (snd (megnet_input_norepeat p (fraction_of a) (quan_of a))))
      as [Hall Hend].
    destruct (main_norepeat a p 0 amp length_scale rate _ _ _)
      as [log1 [s|e]]; cbn [fst snd] in *.
    + destruct Hin as [[= <- <-]|Hin].
      * intros i call out Hev. rewrite Forall_forall in Hall.
        exact (Hall _ Hev).
      * destruct (Hend s eq_refl) as (Em & Ea & El).
        rewrite Em, Ea, El in Hin. exact (IH prop log Hin).
    + destruct Hin as [[= <- <-]|[]].
      intros i call out Hev. rewrite Forall_forall in Hall.
      exact (Hall _ Hev).
Qed.

End PropertyFacts.

(** X10.  A completed run of the repeat variant has appended one entry per
    cycle to each of the arrays kept for plotting: with [max_query + 1]
    cycles, [training_data], [Optmae_val_cycle] and the three arrays of
    test errors all have [max_query + 1] entries. *)
Theorem repeat_run_keeps_one_record_per_cycle
    (TF : TensorFlow) (C : Collaborators) (a : Args) (prop : string)
    (maxiters : Z) (amp length_scale rate : R) (d : repeat_input)
    (log : list event) (s : repeat_state) :
  main_repeat a prop maxiters amp length_scale rate d = (log, Ok s) ->
  let n := Z.max 0 (snd (cycle_of a) + 1) in
  len (rp_training_data s) = n /\ len (rp_Optmae_val_cycle s) = n /\
  len (rp_mae_test_cycle s) = n /\ len (rp_mse_test_cycle s) = n /\
  len (rp_sae_test_cycle s) = n.
Proof.
  unfold main_repeat.
  destruct (adequate_test_set _ _ _ _); [|discriminate].
  unfold py_range. intros E.
  apply for_each_final with
           (I := fun i s =>
              len (rp_training_data s) = i /\
              len (rp_Optmae_val_cycle s) = i /\
              len (rp_mae_test_cycle s) = i /\
              len (rp_mse_test_cycle s) = i /\
              len (rp_sae_test_cycle s) = i) in E.
  - cbn zeta.
    replace (Z.max 0 (snd (cycle_of a) + 1))
      with (Z.of_nat (0 + Z.to_nat (snd (cycle_of a) + 1))) by lia.
    exact E.
  - intros i t t' Hi (Hd & Hv & Hmae & Hmse & Hsae) Ht.
    destruct (@repeat_cycle_pass TF C a prop maxiters rate (ri_Xfull d)
                (ri_Xval d) (ri_yval d) i t)
      as (call & out & sel & _ & _ & _ & _ & _ & Hout).
    destruct out as [r|e]; [|destruct Hout as [_ Hout]; congruence].
    destruct Hout as (t'' & Et & _ & _ & Hd' & Hv' & Hmae' & Hmse' & Hsae').
    assert (t'' = t') by congruence. subst t''.
    unfold len in *. repeat split; lia.
  - cbn. repeat split.
Qed.

Lemma repeat_run_keeps_one_record_per_cycle_witness :
  exists log s,
    main_repeat (TF := toy.tensorflow) (C := toy.collaborators)
      toy.args_repeat "gap" 3 1 1 1 toy.input_repeat = (log, Ok s) /\
    len (rp_training_data s) = 3 /\ len (rp_Optmae_val_cycle s) = 3.
Proof.
  destruct toy_repeat_completes as (log & s & E).
  exists log, s. split; [exact E|].
  destruct (@repeat_run_keeps_one_record_per_cycle toy.tensorflow
              toy.collaborators toy.args_repeat "gap" 3 1%R 1%R 1%R
              toy.input_repeat log s E) as (H1 & H2 & _).
  split; [exact H1|exact H2].
Defined.

(** X11.  A completed run of the no-repeat variant with at least one
    migration leaves [maxiters] at 0 in the variables of [main], and the
    number of iterations it was entered with otherwise.  It has appended
    one entry per cycle to [training_data] and to the three arrays of test
    errors, but at most one validation error to [Optmae_val_cycle]: that
    of cycle 0, when iterations were asked for. *)
Theorem norepeat_run_leaves_no_iterations
    (TF : TensorFlow) (C : Collaborators) (a : Args) (prop : string)
    (maxiters : Z) (amp length_scale rate : R) (model : megnet)
    (Xfull : list structure) (yfull : tensor)
    (log : list event) (s : norepeat_state) :
  main_norepeat a prop maxiters amp length_scale rate model Xfull yfull
    = (log, Ok s) ->
  let max_query := snd (cycle_of a) in
  (1 <= max_query -> nr_maxiters s = 0) /\
  (max_query <= 0 -> nr_maxiters s = maxiters) /\
  len (nr_Optmae_val_cycle s)
    = (if (0 <? maxiters) && (0 <=? max_query) then 1 else 0) /\
  len (nr_training_data s) = Z.max 0 (max_query + 1) /\
  len (nr_mae_test_cycle s) = Z.max 0 (max_query + 1) /\
  len (nr_mse_test_cycle s) = Z.max 0 (max_query + 1) /\
  len (nr_sae_test_cycle s) = Z.max 0 (max_query + 1).
Proof.
  intros E max_query. apply norepeat_run_records in E.
  fold max_query in E. cbv zeta in E.
  destruct E as (Hm & Hv & Hrest).
  split; [|split; [|split; [|exact Hrest]]].
  - intros H. rewrite Hm.
    destruct (Z.leb_spec (Z.max 0 (max_query + 1)) 1); [lia|reflexivity].
  - intros H. rewrite Hm.
    destruct (Z.leb_spec (Z.max 0 (max_query + 1)) 1); [reflexivity|lia].
  - rewrite Hv.
    destruct (Z.ltb_spec 0 (Z.max 0 (max_query + 1)));
      destruct (Z.leb_spec 0 max_query); try lia; reflexivity.
Qed.

Lemma norepeat_run_leaves_no_iterations_witness :
  exists log s,
    main_norepeat (TF := toy.tensorflow) (C := toy.collaborators)
      toy.args_norepeat "gap" 3 1 1 1 tt toy.Xfull toy.yfull = (log, Ok s) /\
    nr_maxiters s = 0 /\ len (nr_Optmae_val_cycle s) = 1 /\
    len (nr_training_data s) = 3.
Proof.
  destruct toy_norepeat_completes as (log & s & E).
  exists log, s. split; [exact E|].
  destruct (@norepeat_run_leaves_no_iterations toy.tensorflow
              toy.collaborators toy.args_norepeat "gap" 3 1%R 1%R 1%R
              tt toy.Xfull toy.yfull log s E) as (H1 & _ & H2 & H3 & _).
  split; [apply H1; cbn; lia|]. split; [exact H2|exact H3].
Defined.

(** X12.  In the repeat variant every fit is asked for the same number of
    iterations and starts from the hyperparameters the fit before it
    returned, the first one from the given ones; this holds from cycle to
    cycle and, since [amp] and [length_scale] are variables of [main],
    from the last cycle of one property to the first cycle of the next.  A
    fit that raises is the last one. *)
Theorem repeat_fits_are_warm_started
    (TF : TensorFlow) (C : Collaborators) (L : Loader) (a : Args)
    (maxiters : Z) (amp length_scale rate : R) :
  (forall prop d,
      warm_started maxiters amp length_scale
        (fit_outcomes
           (fst (main_repeat a prop maxiters amp length_scale rate d)))) /\
  (forall properties,
      warm_started maxiters amp length_scale
        (fit_outcomes
           (flat_map snd
              (fst (main_repeat_properties a maxiters amp length_scale rate
                      properties))))).
Proof.
  split.
  - intros prop d.
    rewrite <- (app_nil_r (fit_outcomes _)).
    apply main_repeat_warm; [intros; exact I|reflexivity].
  - intros properties. apply repeat_properties_warm.
Qed.



(** X14.  [maxiters], [amp] and [length_scale] are not reset between
    properties.  When the no-repeat variant runs at least one migration,
    the first property leaves [maxiters] at 0, so every fit of every later
    property, that of its cycle 0 included, runs no optimisation and uses
    the hyperparameters the first property ended with. *)
Theorem later_properties_are_fitted_without_optimisation
    (TF : TensorFlow) (C : Collaborators) (L : Loader) (a : Args)
    (maxiters : Z) (amp length_scale rate : R)
    (p1 : string) (rest : list string) :
  1 <= snd (cycle_of a) ->
  let inp := megnet_input_norepeat p1 (fraction_of a) (quan_of a) in
  let first := main_norepeat a p1 maxiters amp length_scale rate
                 (fst (fst inp)) (snd (fst inp)) (snd inp) in
  let logs := fst (main_norepeat_properties a maxiters amp length_scale rate
                     (p1 :: rest)) in
  hd_error logs = Some (p1, fst first) /\
  forall prop log i call out,
    In (prop, log) (tl logs) ->
    In (EvFit i call out) log ->
    fc_maxiters call = 0 /\
    exists s1,
      snd first = Ok s1 /\
      fc_amp call = nr_amp s1 /\ fc_length_scale call = nr_length_scale s1.
Proof.
  intros Hq inp first logs. subst logs.
  cbn [main_norepeat_properties]. fold inp. fold first.
  destruct first as [log1 [s1|e]] eqn:E; cbn [fst snd hd_error tl].
  - split; [reflexivity|].
    intros prop log i call out Hin Hev.
    destruct (norepeat_run_records _ _ _ _ _ _ _ _ _ E) as (Hm & _).
    cbv zeta in Hm.
    destruct (Z.leb_spec (Z.max 0 (snd (cycle_of a) + 1)) 1); [lia|].
    rewrite Hm in Hin.
    destruct (@norepeat_properties_spent TF C L a rate (nr_amp s1)
                (nr_length_scale s1) rest prop log Hin i call out Hev)
      as (H0 & Ha & Hl).
    split; [exact H0|]. exists s1. auto.
  - split; [reflexivity|]. intros prop log i call out [].
Qed.

Lemma later_properties_are_fitted_without_optimisation_witness :
  1 <= snd (cycle_of toy.args_norepeat) /\
  forall prop log i call out,
    In (prop, log)
      (tl (fst (main_norepeat_properties (TF := toy.tensorflow)
                  (L := toy_runs.loader) toy.args_norepeat 3 1 1 1
                  ["gap"; "energy"]))) ->
    In (EvFit i call out) log ->
    fc_maxiters call = 0.
Proof.
  assert (H : 1 <= snd (cycle_of toy.args_norepeat)) by (cbn; lia).
  split; [exact H|].
  intros prop log i call out Hin Hev.
  exact (proj1 (proj2 (@later_properties_are_fitted_without_optimisation
                         toy.tensorflow toy.collaborators toy_runs.loader
                         toy.args_norepeat 3 1%R 1%R 1%R "gap" ["energy"] H)
                  prop log i call out Hin Hev)).
Defined.

(** ** K-fold cross-validation *)




Lemma k_fold_fixed (TF : TensorFlow) (datadir prop : string)
    (tsne_train tsne_val tsne_test : ndarray)
    (ytrain yval ytest : tensor) (maxiters : Z)
    (amp length_scale rate : R) (r : kfold_return) :
  maxiters <= 0 ->
  k_fold datadir prop tsne_train tsne_val tsne_test ytrain yval ytest
    maxiters amp length_scale rate = Ok r ->
  kf_amp r = amp /\ kf_length_scale r = length_scale.
Proof.
  intros Hm. unfold k_fold. rewrite (leb_nonpos Hm).
  destruct (reshape _ tsne_test); [|discriminate].
  destruct (reshape _ tsne_train); [|discriminate].
  intros [= <-]. cbn. auto.
Qed.

Section KFoldFacts.
Context {TF : TensorFlow} {C : Collaborators} {L : Loader}.

(** One pass of the loop over the folds: either the fold could not be
    cut out of the pool, or the fit is logged. *)
Lemma kfold_cycle_pass (a : Args) (prop : string) (maxiters : list Z)
    (rate : R) (Xpool : list structure) (ypool ytest : tensor)
    (fold : Z) (idx : list nat * list nat) (s : kfold_state) :
  (fst (kfold_cycle a prop maxiters rate Xpool ypool ytest fold idx s) = [] /\
   exists e,
     snd (kfold_cycle a prop maxiters rate Xpool ypool ytest fold idx s)
     = Raise e) \/
  exists call out,
    fst (kfold_cycle a prop maxiters rate Xpool ypool ytest fold idx s)
      = [EvFold fold call out] /\
    getitem maxiters 0 = Ok (kc_maxiters call) /\
    kc_amp call = ks_amp s /\ kc_length_scale call = ks_length_scale s /\
    match out with
    | Raise e =>
        snd (kfold_cycle a prop maxiters rate Xpool ypool ytest fold idx s)
        = Raise e
    | Ok r =>
        exists s',
          snd (kfold_cycle a prop maxiters rate Xpool ypool ytest fold idx s)
            = Ok s' /\
          ks_amp s' = kf_amp r /\ ks_length_scale s' = kf_length_scale r /\
          (kc_maxiters call <= 0 ->
           kf_amp r = kc_amp call /\ kf_length_scale r = kc_length_scale call)
    end.
Proof.
  unfold kfold_cycle. cbv zeta.
  destruct (fancy_index Xpool (fst idx)); [|left; cbn; eauto].
  destruct (fancy_index Xpool (snd idx)); [|left; cbn; eauto].
  destruct (fancy_index ypool (fst idx)); [|left; cbn; eauto].
  destruct (fancy_index ypool (snd idx)); [|left; cbn; eauto].
  destruct (getitem maxiters 0) as [m0|e]; [|left; cbn; eauto].
  right.
  destruct (adam.k_fold _ _ _ _ _ _ _ _ _ _ _ _) as [r|e] eqn:E;
    cbn [fst snd]; do 2 eexists; (split; [reflexivity|]);
    cbn [kc_maxiters kc_amp kc_length_scale];
    (split; [reflexivity|]); (split; [reflexivity|]);
    (split; [reflexivity|]); [|reflexivity].
  eexists. split; [reflexivity|]. cbn [ks_amp ks_length_scale].
  split; [reflexivity|]. split; [reflexivity|].
  intros Hm. eapply k_fold_fixed; [exact Hm|exact E].
Qed.

Lemma kfold_loop_chain (a : Args) (prop : string) (m0 m1 : Z)
    (rate : R) (Xpool : list structure) (ypool ytest : tensor) :
  forall folds fold s tail,
    (forall s',
        snd (kfold_loop a prop [m0; m1] rate Xpool ypool ytest fold folds s)
          = Ok s' ->
        folds_then_split m0 m1 (ks_amp s') (ks_length_scale s') tail) ->
    (forall e,
        snd (kfold_loop a prop [m0; m1] rate Xpool ypool ytest fold folds s)
          = Raise e -> tail = []) ->
    folds_then_split m0 m1 (ks_amp s) (ks_length_scale s)
      (fst (kfold_loop a prop [m0; m1] rate Xpool ypool ytest fold folds s)
       ++ tail).
Proof.
  induction folds as [|idx rest IH]; intros fold s tail Hok Herr.
  - cbn. now apply Hok.
  - cbn [kfold_loop] in *.
    destruct (kfold_cycle_pass a prop [m0; m1] rate Xpool ypool ytest
                fold idx s)
      as [(Efst & e & Esnd)
         |(call & out & Efst & Em & Ha & Hl & Hout)];
      destruct (kfold_cycle a prop [m0; m1] rate Xpool ypool ytest fold idx s)
        as [ev res]; cbn [fst snd] in *; subst ev.
    + subst res. rewrite (Herr e eq_refl). exact I.
    + injection Em as Em.
      destruct out as [r|e].
      * destruct Hout as (s' & -> & Ha' & Hl' & _). cbn [fst snd] in *.
        cbn [app folds_then_split].
        split; [now symmetry|]. split; [exact Ha|]. split; [exact Hl|].
        rewrite <- Ha', <- Hl'. now apply IH.
      * subst res. cbn [app folds_then_split].
        split; [now symmetry|]. split; [exact Ha|]. split; [exact Hl|].
        now apply (Herr e).
Qed.



End KFoldFacts.

(** X15.  In a cross-validation every fold is fitted for [maxiters[0]]
    iterations from the hyperparameters the fold before it returned, the
    first one from the given ones, and the closing fit on the whole pool
    runs [maxiters[1]] iterations from the hyperparameters of the last
    fold; nothing is fitted after a fit that raises or after the closing
    fit. *)
Theorem folds_are_warm_started
    (TF : TensorFlow) (C : Collaborators) (L : Loader) (a : Args)
    (prop : string) (m0 m1 : Z) (amp length_scale rate : R) :
  folds_then_split m0 m1 amp length_scale
    (fst (main_kfold a prop [m0; m1] amp length_scale rate)).
Proof.
  unfold main_kfold. cbv zeta.
  destruct (1 <? nsplit_of a); [|exact I].
  destruct (KFold_split _ _) as [folds|e]; [|exact I].
  pose proof (@kfold_loop_chain TF C L a prop m0 m1 rate
                (ni_Xpool (megnet_input_noactive prop (fraction_of a)))
                (ni_ypool (megnet_input_noactive prop (fraction_of a)))
                (ni_ytest (megnet_input_noactive prop (fraction_of a)))
                folds 0
                (mk_kfold_state
                   (ni_model (megnet_input_noactive prop (fraction_of a)))
                   amp length_scale [] [] [] [] [])) as Hc.
  cbn [ks_amp ks_length_scale] in Hc.
  destruct (kfold_loop _ _ _ _ _ _ _ _ _ _) as [ev [s|e]];
    cbn [fst snd getitem nth_error] in *.
  - destruct (adam.train_test_split _ _ _ _ _ _ _ _ _ _) as [r|e];
      cbn [fst]; apply Hc; try discriminate;
      intros s' [= <-]; cbn; auto.
  - rewrite <- (app_nil_r ev). apply Hc; [discriminate|reflexivity].
Qed.



Section KFoldFixed.
Context {TF : TensorFlow} {C : Collaborators} {L : Loader}.

Lemma kfold_loop_fixed (a : Args) (prop : string) (m0 m1 : Z)
    (rate : R) (Xpool : list structure) (ypool ytest : tensor)
    (amp length_scale : R) :
  m0 <= 0 ->
  forall folds fold s,
    ks_amp s = amp /\ ks_length_scale s = length_scale ->
    (forall f c out,
        In (EvFold f c out)
          (fst (kfold_loop a prop [m0; m1] rate Xpool ypool ytest fold
                  folds s)) ->
        kc_maxiters c = m0 /\ kc_amp c = amp /\
        kc_length_scale c = length_scale) /\
    (forall c out,
        ~ In (EvSplit c out)
            (fst (kfold_loop a prop [m0; m1] rate Xpool ypool ytest fold
                    folds s))) /\
    (forall s',
        snd (kfold_loop a prop [m0; m1] rate Xpool ypool ytest fold folds s)
          = Ok s' ->
        ks_amp s' = amp /\ ks_length_scale s' = length_scale).
Proof.
  intros Hm. induction folds as [|idx rest IH]; intros fold s [Ha Hl].
  - cbn. split; [intros f c out []|]. split; [intros c out []|].
    intros s' [= <-]. auto.
  - cbn [kfold_loop].
    destruct (kfold_cycle_pass a prop [m0; m1] rate Xpool ypool ytest
                fold idx s)
      as [(Efst & e & Esnd)
         |(call & out & Efst & Em & Hca & Hcl & Hout)];
      destruct (kfold_cycle a prop [m0; m1] rate Xpool ypool ytest fold idx s)
        as [ev res]; cbn [fst snd] in *; subst ev.
    + subst res. cbn [fst snd].
      split; [intros f c out []|]. split; [intros c out []|]. discriminate.
    + injection Em as Em.
      destruct out as [r|e].
      * destruct Hout as (s' & -> & Ha' & Hl' & Hfix).
        destruct Hfix as [Hra Hrl]; [lia|].
        assert (Hs' : ks_amp s' = amp /\ ks_length_scale s' = length_scale)
          by (split; congruence).
        destruct (IH (fold + 1) s' Hs') as (Hf & Hs & Hend).
        cbn [fst snd app]. split; [|split; [|exact Hend]].
        -- intros f c out [[= _ <- _]|Hin]; [repeat split; congruence|].
           exact (Hf f c out Hin).
        -- intros c out [Heq|Hin]; [discriminate|]. exact (Hs c out Hin).
      * subst res. cbn [fst snd]. split; [|split; [|discriminate]].
        -- intros f c out [[= _ <- _]|[]]. repeat split; congruence.
        -- intros c out [Heq|[]]. discriminate.
Qed.

End KFoldFixed.

(** X17.  A cross-validation asked for no iterations on the folds never
    changes the hyperparameters: every fold and the closing fit on the
    whole pool are called with the [amp] and [length_scale] the run was
    entered with, and these are what the run leaves behind. *)
Theorem cross_validation_without_iterations_keeps_the_hyperparameters
    (TF : TensorFlow) (C : Collaborators) (L : Loader) (a : Args)
    (prop : string) (m0 m1 : Z) (amp length_scale rate : R) :
  m0 <= 0 ->
  let run := main_kfold a prop [m0; m1] amp length_scale rate in
  (forall f c out,
      In (EvFold f c out) (fst run) ->
      kc_maxiters c = m0 /\ kc_amp c = amp /\
      kc_length_scale c = length_scale) /\
  (forall c out,
      In (EvSplit c out) (fst run) ->
      sc_maxiters c = m1 /\ sc_amp c = amp /\
      sc_length_scale c = length_scale) /\
  (forall r, snd run = Ok r -> r = (amp, length_scale)).
Proof.
  intros Hm run. subst run. unfold main_kfold. cbv zeta.
  destruct (1 <? nsplit_of a);
    [|cbn; split; [intros f c out []|];
      split; [intros c out []|intros r [= <-]; reflexivity]].
  destruct (KFold_split _ _) as [folds|e];
    [|cbn; split; [intros f c out []|];
      split; [intros c out []|discriminate]].
  destruct (@kfold_loop_fixed TF C L a prop m0 m1 rate
              (ni_Xpool (megnet_input_noactive prop (fraction_of a)))
              (ni_ypool (megnet_input_noactive prop (fraction_of a)))
              (ni_ytest (megnet_input_noactive prop (fraction_of a)))
              amp length_scale Hm folds 0
              (mk_kfold_state
                 (ni_model (megnet_input_noactive prop (fraction_of a)))
                 amp length_scale [] [] [] [] []))
    as (Hf & Hs & Hend); [cbn; auto|].
  destruct (kfold_loop _ _ _ _ _ _ _ _ _ _) as [ev [s|e]];
    cbn [fst snd getitem nth_error] in *.
  - destruct (Hend s eq_refl) as [Ha Hl]. rewrite Ha, Hl.
    destruct (adam.train_test_split _ _ _ _ _ _ _ _ _ _) as [r|e];
      cbn [fst snd].
    + split; [|split; [|intros r' [= <-]; reflexivity]].
      * intros f c out Hin. apply in_app_or in Hin.
        destruct Hin as [Hin|[Heq|[]]]; [|discriminate].
        exact (Hf f c out Hin).
      * intros c out Hin. apply in_app_or in Hin.
        destruct Hin as [Hin|[[= <- _]|[]]];
          [now apply Hs in Hin|cbn; auto].
    + split; [|split; [|discriminate]].
      * intros f c out Hin. apply in_app_or in Hin.
        destruct Hin as [Hin|[Heq|[]]]; [|discriminate].
        exact (Hf f c out Hin).
      * intros c out Hin. apply in_app_or in Hin.
        destruct Hin as [Hin|[[= <- _]|[]]];
          [now apply Hs in Hin|cbn; auto].
  - split; [|split; [|discriminate]].
    + intros f c out Hin.
      exact (Hf f c out Hin).
    + intros c out Hin. now apply Hs in Hin.
Qed.
Lemma cross_validation_without_iterations_witness :
  0 <= 0 /\
  forall r,
    snd (main_kfold (TF := toy.tensorflow) (L := toy_runs.loader)
           toy_runs.args_kfold "gap" [0; 3] 1 1 1) = Ok r ->
    r = (1%R, 1%R).
Proof.
  assert (H : 0 <= 0) by lia.
  split; [exact H|].
  exact (proj2 (proj2
    (@cross_validation_without_iterations_keeps_the_hyperparameters
       toy.tensorflow toy.collaborators toy_runs.loader toy_runs.args_kfold
       "gap" 0 3 1%R 1%R 1%R H))).
Defined.

(** X18.  The argument checks end in one of three ways only: they pass,
    they exit, or an assertion fails.  Each element of [-frac] and of
    [-maxiters] is read after the length it needs was asserted, so no
    index is ever out of range. *)
Theorem checks_fail_only_by_exit_or_assertion (a : Args) (e : exn) :
  main_checks a = Raise e ->
  (exists msg, e = SystemExit msg) \/ (exists msg, e = AssertionError msg).
Proof.
  intros H. walk_checks H; try discriminate;
    try solve [injection H as <-; eauto].
  all: exfalso.
  all: repeat match goal with
         | E : (len _ =? _) = true |- _ => apply Z.eqb_eq in E; unfold len in E
         | E : getitem _ _ = Raise _ |- _ =>
             unfold getitem in E
         end.
  all: repeat match goal with
         | E : match nth_error ?l ?i with _ => _ end = Raise _ |- _ =>
             let En := fresh "En" in
             destruct (nth_error l i) eqn:En;
             [discriminate|apply nth_error_None in En]
         end.
  all: lia.
Qed.

Lemma checks_fail_only_by_exit_or_assertion_witness :
  main_checks toy_runs.args_nomeg
    = Raise (SystemExit "No other network implemented!") /\
  ((exists msg, SystemExit "No other network implemented!" = SystemExit msg) \/
   (exists msg, SystemExit "No other network implemented!"
                = AssertionError msg)).
Proof.
  assert (H : main_checks toy_runs.args_nomeg
              = Raise (SystemExit "No other network implemented!"))
    by reflexivity.
  split; [exact H|].
  exact (@checks_fail_only_by_exit_or_assertion toy_runs.args_nomeg _ H).
Defined.
